(** * compose/cli/main.py: command handlers of the compose CLI

    A shallow embedding of the command handlers of [compose/cli/main.py]
    and of the helpers they call.  The handlers are imperative Python: they
    call the project, its services and containers, the docker client, the
    pseudo-terminal bridge and the log printer, and they raise and catch
    exceptions (among them [signals.ShutdownException], which the signal
    handler installed by [signals.set_signal_handler_to_shutdown] raises when
    SIGINT or SIGTERM arrives during a blocking call).

    The embedding keeps that shape.  A handler is a program of type
    [Prog A]: a tree whose nodes are the calls the handler makes outside of
    this file and whose leaves are a returned value or a raised exception.
    The environment ([Env]) decides how each call ends: it returns a value or
    it raises.  Running a program against an environment gives its outcome
    and the sequence of calls it made, in order. *)

From Stdlib Require Import ZArith List String Ascii Bool Arith Lia.
Import ListNotations.

Local Open Scope string_scope.
Local Open Scope list_scope.

(** ** Python builtins used by the handlers

    A command-line word is modelled by its bytes, as the system hands them
    to the process.  Python 3 decodes them as UTF-8 with the
    surrogateescape handler into the [str] of [sys.argv], and [isdigit]
    and [int] read the code points of that [str]; [in], [split], [join]
    and [==] answer on the bytes as they do on the [str].  The character
    tables are those of Unicode 14.0, the version of CPython 3.11. *)

Module Py.

(** One of the characters 0 to 9. *)
Definition is_digit (c : ascii) : bool :=
  (48 <=? nat_of_ascii c)%nat && (nat_of_ascii c <=? 57)%nat.

(** The characters the integer parser skips around a literal: tab,
    newline, vertical tab, form feed, carriage return and space. *)
Definition is_space (c : ascii) : bool :=
  ((9 <=? nat_of_ascii c)%nat && (nat_of_ascii c <=? 13)%nat)
  || (nat_of_ascii c =? 32)%nat.

(** Every character is one of 0 to 9. *)
Fixpoint all_digits (s : string) : bool :=
  match s with
  | EmptyString => true
  | String c r => is_digit c && all_digits r
  end.

(** A byte of the form 10xxxxxx. *)
Definition is_continuation (b : N) : bool := ((128 <=? b) && (b <=? 191))%N.

(** The code point of a well-formed sequence of two, three or four bytes:
    shortest form, no surrogate, at most U+10FFFF. *)
Definition two_bytes (b0 b1 : N) : option N :=
  let c := ((b0 - 192) * 64 + (b1 - 128))%N in
  if ((192 <=? b0) && (b0 <=? 223))%N && is_continuation b1 && (128 <=? c)%N
  then Some c else None.

Definition three_bytes (b0 b1 b2 : N) : option N :=
  let c := ((b0 - 224) * 4096 + (b1 - 128) * 64 + (b2 - 128))%N in
  if ((224 <=? b0) && (b0 <=? 239))%N
     && is_continuation b1 && is_continuation b2
     && (2048 <=? c)%N && negb ((55296 <=? c) && (c <=? 57343))%N
  then Some c else None.

Definition four_bytes (b0 b1 b2 b3 : N) : option N :=
  let c := ((b0 - 240) * 262144 + (b1 - 128) * 4096
            + (b2 - 128) * 64 + (b3 - 128))%N in
  if ((240 <=? b0) && (b0 <=? 247))%N
     && is_continuation b1 && is_continuation b2 && is_continuation b3
     && (65536 <=? c)%N && (c <=? 1114111)%N
  then Some c else None.

(** [os.fsdecode] under a UTF-8 locale: the code points of a word.  A byte
    that starts no well-formed sequence becomes the lone surrogate
    U+DC00 + byte. *)
Fixpoint decode (s : string) : list N :=
  match s with
  | EmptyString => []
  | String c0 r0 =>
      let b0 := N_of_ascii c0 in
      if (b0 <? 128)%N then b0 :: decode r0
      else
        match r0 with
        | String c1 r1 =>
            match two_bytes b0 (N_of_ascii c1) with
            | Some c => c :: decode r1
            | None =>
                match r1 with
                | String c2 r2 =>
                    match three_bytes b0 (N_of_ascii c1) (N_of_ascii c2) with
                    | Some c => c :: decode r2
                    | None =>
                        match r2 with
                        | String c3 r3 =>
                            match four_bytes b0 (N_of_ascii c1)
                                    (N_of_ascii c2) (N_of_ascii c3) with
                            | Some c => c :: decode r3
                            | None => (56320 + b0)%N :: decode r0
                            end
                        | EmptyString => (56320 + b0)%N :: decode r0
                        end
                    end
                | EmptyString => (56320 + b0)%N :: decode r0
                end
            end
        | EmptyString => (56320 + b0)%N :: decode r0
        end
  end.

Definition in_ranges (c : N) (ranges : list (N * N)) : bool :=
  existsb (fun r => (fst r <=? c)%N && (c <=? snd r)%N) ranges.

(** The runs of decimal digits (general category Nd): each starts at a
    digit zero and holds a whole number of tens. *)
Definition decimal_ranges : list (N * N) :=
  [(48, 57); (1632, 1641); (1776, 1785); (1984, 1993); (2406, 2415);
   (2534, 2543); (2662, 2671); (2790, 2799); (2918, 2927); (3046, 3055);
   (3174, 3183); (3302, 3311); (3430, 3439); (3558, 3567); (3664, 3673);
   (3792, 3801); (3872, 3881); (4160, 4169); (4240, 4249); (6112, 6121);
   (6160, 6169); (6470, 6479); (6608, 6617); (6784, 6793); (6800, 6809);
   (6992, 7001); (7088, 7097); (7232, 7241); (7248, 7257); (42528, 42537);
   (43216, 43225); (43264, 43273); (43472, 43481); (43504, 43513);
   (43600, 43609); (44016, 44025); (65296, 65305); (66720, 66729);
   (68912, 68921); (69734, 69743); (69872, 69881); (69942, 69951);
   (70096, 70105); (70384, 70393); (70736, 70745); (70864, 70873);
   (71248, 71257); (71360, 71369); (71472, 71481); (71904, 71913);
   (72016, 72025); (72784, 72793); (73040, 73049); (73120, 73129);
   (92768, 92777); (92864, 92873); (93008, 93017); (120782, 120831);
   (123200, 123209); (123632, 123641); (125264, 125273); (130032, 130041) ]%N.

(** The characters with a digit value: the decimal digits, and the
    superscript, subscript, circled and similar digits. *)
Definition digit_ranges : list (N * N) :=
  [(48, 57); (178, 179); (185, 185); (1632, 1641); (1776, 1785);
   (1984, 1993); (2406, 2415); (2534, 2543); (2662, 2671); (2790, 2799);
   (2918, 2927); (3046, 3055); (3174, 3183); (3302, 3311); (3430, 3439);
   (3558, 3567); (3664, 3673); (3792, 3801); (3872, 3881); (4160, 4169);
   (4240, 4249); (4969, 4977); (6112, 6121); (6160, 6169); (6470, 6479);
   (6608, 6618); (6784, 6793); (6800, 6809); (6992, 7001); (7088, 7097);
   (7232, 7241); (7248, 7257); (8304, 8304); (8308, 8313); (8320, 8329);
   (9312, 9320); (9332, 9340); (9352, 9360); (9450, 9450); (9461, 9469);
   (9471, 9471); (10102, 10110); (10112, 10120); (10122, 10130);
   (42528, 42537); (43216, 43225); (43264, 43273); (43472, 43481);
   (43504, 43513); (43600, 43609); (44016, 44025); (65296, 65305);
   (66720, 66729); (68160, 68163); (68912, 68921); (69216, 69224);
   (69714, 69722); (69734, 69743); (69872, 69881); (69942, 69951);
   (70096, 70105); (70384, 70393); (70736, 70745); (70864, 70873);
   (71248, 71257); (71360, 71369); (71472, 71481); (71904, 71913);
   (72016, 72025); (72784, 72793); (73040, 73049); (73120, 73129);
   (92768, 92777); (92864, 92873); (93008, 93017); (120782, 120831);
   (123200, 123209); (123632, 123641); (125264, 125273); (127232, 127242);
   (130032, 130041) ]%N.

(** The white-space characters. *)
Definition space_ranges : list (N * N) :=
  [(9, 13); (28, 32); (133, 133); (160, 160); (5760, 5760); (8192, 8202);
   (8232, 8233); (8239, 8239); (8287, 8287); (12288, 12288) ]%N.

(** [unicodedata.decimal(c)], when [c] has one. *)
Definition decimal_value (c : N) : option N :=
  match find (fun r => (fst r <=? c)%N && (c <=? snd r)%N) decimal_ranges with
  | Some r => Some ((c - fst r) mod 10)%N
  | None => None
  end.

(** [s.isdigit()]: at least one character, and every character has a digit
    value. *)
Definition isdigit (s : string) : bool :=
  match decode s with
  | [] => false
  | c :: r => forallb (fun c => in_ranges c digit_ranges) (c :: r)
  end.

(** What [int] makes of a character before parsing: ASCII is kept, other
    white space becomes a space, another decimal digit becomes the ASCII
    digit of its value, and anything else a character no literal holds. *)
Definition to_ascii (c : N) : ascii :=
  if (c <? 128)%N then ascii_of_N c
  else if in_ranges c space_ranges then " "%char
  else match decimal_value c with
       | Some d => ascii_of_N (48 + d)
       | None => "?"%char
       end.

Fixpoint lstrip (s : string) : string :=
  match s with
  | EmptyString => EmptyString
  | String c r => if is_space c then lstrip r else s
  end.

Fixpoint rstrip (s : string) : string :=
  match s with
  | EmptyString => EmptyString
  | String c r =>
      match rstrip r with
      | EmptyString => if is_space c then EmptyString else String c EmptyString
      | r' => String c r'
      end
  end.

Definition strip (s : string) : string := rstrip (lstrip s).

(** The value of a run of digits in which single underscores may separate
    digits; [after_digit] tells whether the character before was a digit. *)
Fixpoint digits_value (acc : Z) (after_digit : bool) (s : string) : option Z :=
  match s with
  | EmptyString => if after_digit then Some acc else None
  | String c r =>
      if is_digit c
      then digits_value (10 * acc + Z.of_nat (nat_of_ascii c - 48)) true r
      else if Ascii.eqb c "_"%char && after_digit
           then digits_value acc false r
           else None
  end.

Fixpoint count_digits (s : string) : nat :=
  match s with
  | EmptyString => 0
  | String c r => if is_digit c then S (count_digits r) else count_digits r
  end.

(** [sys.int_info.default_max_str_digits]: a literal with more digits is
    refused. *)
Definition max_str_digits : nat := 4300.

Definition unsigned_value (s : string) : option Z :=
  if (count_digits s <=? max_str_digits)%nat then digits_value 0 false s
  else None.

(** [int(s)] for a string [s]: surrounding white space is dropped, one
    sign is allowed, and the rest must be decimal digits, which single
    underscores may separate.  [None] stands for the [ValueError] Python
    raises. *)
Definition int (s : string) : option Z :=
  match strip (string_of_list_ascii (map to_ascii (decode s))) with
  | String "+"%char r => unsigned_value r
  | String "-"%char r => option_map Z.opp (unsigned_value r)
  | t => unsigned_value t
  end.

(** [c in s] for a one-character string [c]. *)
Fixpoint contains (c : ascii) (s : string) : bool :=
  match s with
  | EmptyString => false
  | String d r => Ascii.eqb c d || contains c r
  end.

(** [s.split(c, 1)] for a string that contains [c]: the text before the
    first [c] and the text after it.  (Without a [c] Python returns the
    one-element list [[s]]; the caller checks [c in s] first.) *)
Fixpoint split1 (c : ascii) (s : string) : string * string :=
  match s with
  | EmptyString => (EmptyString, EmptyString)
  | String d r =>
      if Ascii.eqb c d then (EmptyString, r)
      else let (a, b) := split1 c r in (String d a, b)
  end.

(** The one-character string holding a line feed. *)
Definition newline : string := String (ascii_of_nat 10) EmptyString.

(** The one-character string holding a double quote. *)
Definition dquote : string := String (ascii_of_nat 34) EmptyString.

(** [sep.join(l)]. *)
Fixpoint join (sep : string) (l : list string) : string :=
  match l with
  | [] => EmptyString
  | [x] => x
  | x :: r => x ++ sep ++ join sep r
  end.

(** [x in l] for a list of strings. *)
Definition mem (x : string) (l : list string) : bool :=
  existsb (String.eqb x) l.

(** Truth value of a list: empty lists are false. *)
Definition truthy_list {A} (l : list A) : bool :=
  match l with [] => false | _ => true end.

(** Truth value of a string or [None]. *)
Definition truthy_str (s : option string) : bool :=
  match s with
  | None | Some EmptyString => false
  | Some _ => true
  end.

End Py.

(** ** Exceptions

    The exception classes the handlers raise, catch or let through.
    [SystemExit] carries the argument of [sys.exit]; [None] is
    [sys.exit(None)]. *)

Inductive exn : Type :=
| KeyboardInterrupt
| ShutdownException
| UserError (msg : string)
| NoSuchService (msg : string)
| ConfigurationError (msg : string)
| BuildError (service_name reason : string)
| StreamOutputError (msg : string)
| NeedsBuildError (service_name : string)
| ConnectionError
| ValueError (msg : string)
| NameError (name : string)
| SystemExit (code : option Z)
| OtherError (description : string).

(** ** Values handed to and received from the collaborators *)

(** [compose.service.ConvergenceStrategy]: the enumeration is declared in
    [compose/service.py]; the handlers only name its members. *)
Module ConvergenceStrategy.
Inductive t : Type := changed | always | never.
End ConvergenceStrategy.

(** [compose.service.BuildAction], likewise. *)
Module BuildAction.
Inductive t : Type := none | force | skip.
End BuildAction.

Module Container.
Record t : Type := mk { id : string; name : string; service : string }.
End Container.

(** The [command] entry of a service's options: a string or a list. *)
Inductive command_value : Type :=
| CommandStr (s : string)
| CommandList (l : list string).

Module Service.
Record t : Type := mk { name : string; options_command : option command_value }.
End Service.

(** The project of a [TopLevelCommand]; [service_names] is the property read
    by [log_printer_from_project].  Every other use of the project is a call
    (see [Call]). *)
Module Project.
Record t : Type := mk { service_names : list string }.
End Project.

Record TopLevelCommand : Type :=
  { project : Project.t; project_dir : string }.

(** Keyword arguments of [project.up]; [None] is an argument left out. *)
Record UpArgs : Type :=
  { up_service_names : list string;
    up_start_deps : bool;
    up_strategy : ConvergenceStrategy.t;
    up_do_build : option BuildAction.t;
    up_timeout : option Z;
    up_detached : option bool;
    up_remove_orphans : option bool }.

(** The result of [config.parse_environment] on the [-e] words; the parser
    lives in [compose/config], so its result is kept as the parser applied
    to its argument. *)
Inductive Environment : Type :=
| parse_environment (entries : list string).

(** The dictionary built by [build_container_options]; an optional field is
    a key that may be left out.  [restart] holds [Some tt] when the key is
    present (its value is then [None]). *)
Record ContainerOptions : Type :=
  { co_command : option command_value;
    co_tty : bool;
    co_stdin_open : bool;
    co_detach : bool;
    co_environment : option Environment;
    co_entrypoint : option string;
    co_restart : option unit;
    co_user : option string;
    co_ports : option (list string);
    co_name : option string;
    co_working_dir : option string }.

(** [create_exec_options] of [exec_command]. *)
Record CreateExecOptions : Type :=
  { ce_privileged : bool;
    ce_user : option string;
    ce_tty : bool;
    ce_stdin : bool }.

(** [dockerpty] operations; building one only stores its arguments. *)
Inductive Operation : Type :=
| RunOperation (container_id : string) (interactive : bool) (logs : bool)
| ExecOperation (exec_id : string) (interactive : bool).

(** Opaque handles: an event stream, the sockets of a pseudo-terminal. *)
Definition EventStream : Type := nat.
Definition Sockets : Type := nat.

(** The value of [tail] handed to the log printer. *)
Inductive tail_value : Type :=
| TailNone
| TailStr (s : string)
| TailInt (n : Z).

(** [log_args]; [None] is a key left out. *)
Record LogArgs : Type :=
  { la_follow : bool;
    la_tail : option tail_value;
    la_timestamps : option bool }.

(** The result of [build_log_presenters(service_names, monochrome)]. *)
Record LogPresenters : Type :=
  { lp_service_names : list string; lp_monochrome : bool }.

Module LogPrinter.
Record t : Type := mk
  { containers : list Container.t;
    presenters : LogPresenters;
    event_stream : EventStream;
    cascade_stop : bool;
    log_args : LogArgs }.
End LogPrinter.

(** The dictionary returned by [client.exec_inspect], read with
    [.get("ExitCode")]. *)
Record ExecInfo : Type := { ExitCode : option Z }.

(** ** Parsed command lines

    [docopt] hands each handler a dictionary with one key per option and
    argument of the handler's usage pattern: a flag is a boolean, an option
    with an argument is [None] or the string given, a repeated argument is a
    list.  Each usage pattern is a record with those keys as fields, so that
    subscripting cannot raise [KeyError]. *)

Module UpOptions.
Record t : Type := mk
  { d : bool;
    no_color : bool;
    no_deps : bool;
    force_recreate : bool;
    no_recreate : bool;
    no_build : bool;
    build : bool;
    abort_on_container_exit : bool;
    timeout : option string;
    remove_orphans : bool;
    SERVICE : list string }.
End UpOptions.

Module CreateOptions.
Record t : Type := mk
  { force_recreate : bool;
    no_recreate : bool;
    no_build : bool;
    build : bool;
    SERVICE : list string }.
End CreateOptions.

Module ExecOptions.
Record t : Type := mk
  { d : bool;
    privileged : bool;
    user : option string;
    T : bool;
    index : string;
    SERVICE : string;
    COMMAND : string;
    ARGS : list string }.
End ExecOptions.

Module RunOptions.
Record t : Type := mk
  { d : bool;
    name : option string;
    entrypoint : option string;
    e : list string;
    user : option string;
    no_deps : bool;
    rm : bool;
    publish : list string;
    service_ports : bool;
    T : bool;
    workdir : option string;
    SERVICE : string;
    COMMAND : option string;
    ARGS : list string }.
End RunOptions.

Module ScaleOptions.
Record t : Type := mk
  { timeout : option string;
    SERVICE_NUM : list string }.
End ScaleOptions.

Module LogsOptions.
Record t : Type := mk
  { no_color : bool;
    follow : bool;
    timestamps : bool;
    tail : option string;
    SERVICE : list string }.
End LogsOptions.

(** The four flags read by [convergence_strategy_from_opts] and
    [build_action_from_opts]; [up] and [create] both carry them. *)
Class StrategyFlags (O : Type) : Type :=
  { opt_no_recreate : O -> bool;
    opt_force_recreate : O -> bool;
    opt_build : O -> bool;
    opt_no_build : O -> bool }.

#[global] Instance up_strategy_flags : StrategyFlags UpOptions.t :=
  { opt_no_recreate := UpOptions.no_recreate;
    opt_force_recreate := UpOptions.force_recreate;
    opt_build := UpOptions.build;
    opt_no_build := UpOptions.no_build }.

#[global] Instance create_strategy_flags : StrategyFlags CreateOptions.t :=
  { opt_no_recreate := CreateOptions.no_recreate;
    opt_force_recreate := CreateOptions.force_recreate;
    opt_build := CreateOptions.build;
    opt_no_build := CreateOptions.no_build }.

(** ** Calls made outside of this file

    One constructor per operation the handlers invoke on a collaborator,
    with the arguments the handler passes.  [ret] gives the type of the
    value the operation returns. *)

Inductive Call : Type :=
(* signals, standard streams, logging *)
| set_signal_handler_to_shutdown
| stdin_isatty
| py_print (line : string)
| log_error (msg : string)
| log_info (msg : string)
(* project *)
| project_up (args : UpArgs)
| project_create (service_names : list string)
    (strategy : ConvergenceStrategy.t) (do_build : BuildAction.t)
| project_stop (service_names : list string) (timeout : Z)
| project_kill (service_names : list string)
| project_events (service_names : option (list string))
| project_containers (service_names : list string) (stopped : bool)
| project_get_service (name : string)
| project_initialize
(* service *)
| service_scale (s : Service.t) (num : Z) (timeout : Z)
| service_get_container (s : Service.t) (number : Z)
| service_get_dependency_names (s : Service.t)
| service_create_container (s : Service.t) (quiet one_off : bool)
    (container_options : ContainerOptions)
| service_start_container (s : Service.t) (c : Container.t)
(* container *)
| container_create_exec (c : Container.t) (command : list string)
    (create_exec_options : CreateExecOptions)
| container_start_exec (c : Container.t) (exec_id : string) (tty : bool)
| container_wait (c : Container.t)
(* docker client *)
| client_exec_inspect (exec_id : string)
| client_stop (container_id : string)
| client_kill (container_id : string)
| client_remove_container (container_id : string) (force : bool)
(* dockerpty.PseudoTerminal *)
| pty_sockets (operation : Operation)
| pty_start (operation : Operation) (sockets : option Sockets)
(* LogPrinter *)
| log_printer_run (log_printer : LogPrinter.t).

Definition ret (c : Call) : Type :=
  match c with
  | stdin_isatty => bool
  | project_up _ => list Container.t
  | project_events _ => EventStream
  | project_containers _ _ => list Container.t
  | project_get_service _ => Service.t
  | service_get_container _ _ => Container.t
  | service_get_dependency_names _ => list string
  | service_create_container _ _ _ _ => Container.t
  | container_create_exec _ _ _ => string
  | container_wait _ => Z
  | client_exec_inspect _ => ExecInfo
  | pty_sockets _ => Sockets
  | _ => unit
  end.

(** How a call ends. *)
Inductive Res (R : Type) : Type :=
| Returns (r : R)
| Throws (e : exn).
Arguments Returns {R} r.
Arguments Throws {R} e.

(** ** Programs *)

Inductive Prog (A : Type) : Type :=
| Ret (a : A)
| Raise (e : exn)
| Vis (c : Call) (k : Res (ret c) -> Prog A).
Arguments Ret {A} a.
Arguments Raise {A} e.
Arguments Vis {A} c k.

(** Make a call; an exception raised inside it propagates. *)
Definition call (c : Call) : Prog (ret c) :=
  Vis c (fun r => match r with Returns v => Ret v | Throws e => Raise e end).

Fixpoint bind {A B} (p : Prog A) (f : A -> Prog B) : Prog B :=
  match p with
  | Ret a => f a
  | Raise e => Raise e
  | Vis c k => Vis c (fun r => bind (k r) f)
  end.

(** [try: p  except ...: h]: [handler e] is the body of the [except] clause
    that matches [e], if one does. *)
Fixpoint try_except {A} (p : Prog A) (handler : exn -> option (Prog A)) : Prog A :=
  match p with
  | Ret a => Ret a
  | Raise e => match handler e with Some h => h | None => Raise e end
  | Vis c k => Vis c (fun r => try_except (k r) handler)
  end.

(** [except signals.ShutdownException: h]. *)
Definition except_ShutdownException {A} (h : Prog A) (e : exn) : option (Prog A) :=
  match e with
  | ShutdownException => Some h
  | _ => None
  end.

Definition sys_exit {A} (code : option Z) : Prog A := Raise (SystemExit code).

Declare Scope prog_scope.
Delimit Scope prog_scope with prog.
Notation "x <- p ;; q" := (bind p (fun x => q))
  (at level 61, p at next level, right associativity) : prog_scope.
Notation "p ;; q" := (bind p (fun _ => q))
  (at level 61, right associativity) : prog_scope.
Local Open Scope prog_scope.

(** ** Executing a program

    The environment answers a call knowing the calls made before it.  The
    result of an execution is the outcome of the program and the calls made,
    the given history first. *)

Definition Env : Type := list Call -> forall c : Call, Res (ret c).

Inductive Outcome (A : Type) : Type :=
| Returned (a : A)
| Raised (e : exn).
Arguments Returned {A} a.
Arguments Raised {A} e.

Fixpoint execute {A} (env : Env) (history : list Call) (p : Prog A)
  : Outcome A * list Call :=
  match p with
  | Ret a => (Returned a, history)
  | Raise e => (Raised e, history)
  | Vis c k => execute env (history ++ [c]) (k (env history c))
  end.

(** The exit status of the interpreter: the argument of [sys.exit], 0 after
    a normal return or [sys.exit(None)], and 1 after an exception nobody
    caught. *)
Definition process_exit_code {A} (o : Outcome A) : Z :=
  match o with
  | Returned _ => 0
  | Raised (SystemExit (Some n)) => n
  | Raised (SystemExit None) => 0
  | Raised _ => 1
  end.

(** A scenario: the calls an execution is expected to make from a given history on,
    each with the way the environment ends it. *)
Record Answer : Type := answer { asked : Call; given : Res (ret asked) }.
Notation "c ~> r" := (answer c r) (at level 70, no associativity).

Fixpoint answers (env : Env) (history : list Call) (script : list Answer) : Prop :=
  match script with
  | [] => True
  | a :: rest =>
      env history (asked a) = given a /\ answers env (history ++ [asked a]) rest
  end.

(** The calls a program can make, whatever the environment does. *)
Fixpoint may_call {A} (p : Prog A) (c : Call) : Prop :=
  match p with
  | Ret _ | Raise _ => False
  | Vis c' k => c' = c \/ exists r, may_call (k r) c
  end.

(** The values a program can return, whatever the environment does. *)
Fixpoint may_return {A} (p : Prog A) (a : A) : Prop :=
  match p with
  | Ret a' => a' = a
  | Raise _ => False
  | Vis _ k => exists r, may_return (k r) a
  end.

(** ** The handlers *)

(** [int(s)] inside a program: the [ValueError] is raised.  Its text is the
    one Python gives for a word of printable characters without quote or
    backslash. *)
Definition int_ (s : string) : Prog Z :=
  match Py.int s with
  | Some n => Ret n
  | None => Raise (ValueError ("invalid literal for int() with base 10: '" ++ s ++ "'"))
  end.

Definition list_containers (containers : list Container.t) : string :=
  Py.join ", " (map Container.name containers).

Definition filter_containers_to_service_names
    (containers : list Container.t) (service_names : list string)
  : list Container.t :=
  if negb (Py.truthy_list service_names) then containers
  else filter (fun container => Py.mem (Container.service container) service_names)
              containers.

Definition build_log_presenters (service_names : list string) (monochrome : bool)
  : LogPresenters :=
  {| lp_service_names := service_names; lp_monochrome := monochrome |}.

(** A generator object is true, [None] is not: [event_stream or
    project.events()] calls the project only without a stream. *)
Definition log_printer_from_project (project : Project.t)
    (containers : list Container.t) (monochrome : bool) (log_args : LogArgs)
    (cascade_stop : bool) (event_stream : option EventStream)
  : Prog LogPrinter.t :=
  let presenters := build_log_presenters (Project.service_names project) monochrome in
  stream <- match event_stream with
            | Some s => Ret s
            | None => call (project_events None)
            end ;;
  Ret (LogPrinter.mk containers presenters stream cascade_stop log_args).

Definition convergence_strategy_from_opts {O} `{StrategyFlags O} (options : O)
  : Prog ConvergenceStrategy.t :=
  let no_recreate := opt_no_recreate options in
  let force_recreate := opt_force_recreate options in
  if force_recreate && no_recreate
  then Raise (UserError "--force-recreate and --no-recreate cannot be combined.")
  else if force_recreate then Ret ConvergenceStrategy.always
  else if no_recreate then Ret ConvergenceStrategy.never
  else Ret ConvergenceStrategy.changed.

Definition build_action_from_opts {O} `{StrategyFlags O} (options : O)
  : Prog BuildAction.t :=
  if opt_build options && opt_no_build options
  then Raise (UserError "--build and --no-build can not be combined.")
  else if opt_build options then Ret BuildAction.force
  else if opt_no_build options then Ret BuildAction.skip
  else Ret BuildAction.none.

(** The context manager [up_shutdown_context]; [body] is the block of the
    [with] statement, which runs at the [yield]. *)
Definition up_shutdown_context (service_names : list string) (timeout : Z)
    (detached : bool) (body : Prog unit) : Prog unit :=
  if detached then body
  else
    call set_signal_handler_to_shutdown ;;
    try_except
      (try_except body
         (except_ShutdownException
            (call (py_print "Gracefully stopping... (press Ctrl+C again to force)") ;;
             call (project_stop service_names timeout))))
      (except_ShutdownException
         (call (project_kill service_names) ;;
          sys_exit (Some 2%Z))).

(** [main], given the command [dispatch] returned. *)
Definition main (command : Prog unit) : Prog unit :=
  try_except command
    (fun e =>
       match e with
       | KeyboardInterrupt | ShutdownException =>
           Some (call (log_error "Aborting.") ;; sys_exit (Some 1%Z))
       | UserError msg | NoSuchService msg | ConfigurationError msg =>
           Some (call (log_error msg) ;; sys_exit (Some 1%Z))
       | BuildError service_name reason =>
           Some (call (log_error ("Service '" ++ service_name
                                    ++ "' failed to build: " ++ reason)) ;;
                 sys_exit (Some 1%Z))
       | StreamOutputError msg =>
           Some (call (log_error msg) ;; sys_exit (Some 1%Z))
       | NeedsBuildError service_name =>
           Some (call (log_error ("Service '" ++ service_name
                    ++ "' needs to be built, but --no-build was passed.")) ;;
                 sys_exit (Some 1%Z))
       | ConnectionError => Some (sys_exit (Some 1%Z))
       | _ => None
       end).

Section Handlers.

(** [compose.const]: the default shutdown timeout and the platform test. *)
Variable DEFAULT_TIMEOUT : Z.
Variable IS_WINDOWS_PLATFORM : bool.

(** [int(options.get('--timeout') or DEFAULT_TIMEOUT)]. *)
Definition int_timeout_or_default (timeout : option string) : Prog Z :=
  match timeout with
  | Some s => if Py.truthy_str timeout then int_ s else Ret DEFAULT_TIMEOUT
  | None => Ret DEFAULT_TIMEOUT
  end.

Definition create (self : TopLevelCommand) (options : CreateOptions.t) : Prog unit :=
  let service_names := CreateOptions.SERVICE options in
  strategy <- convergence_strategy_from_opts options ;;
  do_build <- build_action_from_opts options ;;
  call (project_create service_names strategy do_build).

(** The block of the [with] statement of [up]. *)
Definition up_body (self : TopLevelCommand) (options : UpOptions.t)
    (timeout : Z) : Prog unit :=
  let start_deps := negb (UpOptions.no_deps options) in
  let cascade_stop := UpOptions.abort_on_container_exit options in
  let service_names := UpOptions.SERVICE options in
  let remove_orphans := UpOptions.remove_orphans options in
  let detached := UpOptions.d options in
  strategy <- convergence_strategy_from_opts options ;;
  do_build <- build_action_from_opts options ;;
  to_attach <- call (project_up
                       {| up_service_names := service_names;
                          up_start_deps := start_deps;
                          up_strategy := strategy;
                          up_do_build := Some do_build;
                          up_timeout := Some timeout;
                          up_detached := Some detached;
                          up_remove_orphans := Some remove_orphans |}) ;;
  if detached then Ret tt
  else
    event_stream <- call (project_events (Some service_names)) ;;
    log_printer <- log_printer_from_project (project self)
                     (filter_containers_to_service_names to_attach service_names)
                     (UpOptions.no_color options)
                     {| la_follow := true; la_tail := None; la_timestamps := None |}
                     cascade_stop
                     (Some event_stream) ;;
    call (py_print ("Attaching to "
                      ++ list_containers (LogPrinter.containers log_printer))) ;;
    call (log_printer_run log_printer) ;;
    if cascade_stop
    then call (py_print "Aborting on container exit...") ;;
         call (project_stop service_names timeout)
    else Ret tt.

Definition up (self : TopLevelCommand) (options : UpOptions.t) : Prog unit :=
  let cascade_stop := UpOptions.abort_on_container_exit options in
  let service_names := UpOptions.SERVICE options in
  timeout <- int_timeout_or_default (UpOptions.timeout options) ;;
  let detached := UpOptions.d options in
  if detached && cascade_stop
  then Raise (UserError "--abort-on-container-exit and -d cannot be combined.")
  else up_shutdown_context service_names timeout detached
         (up_body self options timeout).

Definition logs (self : TopLevelCommand) (options : LogsOptions.t) : Prog unit :=
  containers <- call (project_containers (LogsOptions.SERVICE options) true) ;;
  tail <- match LogsOptions.tail options with
          | None => Ret TailNone
          | Some tail =>
              if Py.isdigit tail then n <- int_ tail ;; Ret (TailInt n)
              else if negb (String.eqb tail "all")
                   then Raise (UserError "tail flag must be all or a number")
                   else Ret (TailStr tail)
          end ;;
  let log_args :=
    {| la_follow := LogsOptions.follow options;
       la_tail := Some tail;
       la_timestamps := Some (LogsOptions.timestamps options) |} in
  call (py_print ("Attaching to " ++ list_containers containers)) ;;
  log_printer <- log_printer_from_project (project self) containers
                   (LogsOptions.no_color options) log_args false None ;;
  call (log_printer_run log_printer).

(** The loop of [scale] over [options['SERVICE=NUM']]. *)
Fixpoint scale_each (timeout : Z) (arguments : list string) : Prog unit :=
  match arguments with
  | [] => Ret tt
  | s :: rest =>
      if negb (Py.contains "="%char s)
      then Raise (UserError "Arguments to scale should be in the form service=num")
      else
        let (service_name, num) := Py.split1 "="%char s in
        num <- try_except (int_ num)
                 (fun e =>
                    match e with
                    | ValueError _ =>
                        Some (Raise (UserError
                                ("Number of containers for service "
                                   ++ Py.dquote ++ service_name ++ Py.dquote
                                   ++ " is not a number")))
                    | _ => None
                    end) ;;
        service <- call (project_get_service service_name) ;;
        call (service_scale service num timeout) ;;
        scale_each timeout rest
  end.

Definition scale (self : TopLevelCommand) (options : ScaleOptions.t) : Prog unit :=
  timeout <- int_timeout_or_default (ScaleOptions.timeout options) ;;
  scale_each timeout (ScaleOptions.SERVICE_NUM options).

Definition build_container_options (options : RunOptions.t) (detach : bool)
    (command : option command_value) : Prog ContainerOptions :=
  (* not (detach or options['-T'] or not sys.stdin.isatty()) *)
  tty <- (if detach then Ret false
          else if RunOptions.T options then Ret false
          else isatty <- call stdin_isatty ;; Ret (negb (negb isatty))) ;;
  Ret {| co_command := command;
         co_tty := tty;
         co_stdin_open := negb detach;
         co_detach := detach;
         co_environment :=
           if Py.truthy_list (RunOptions.e options)
           then Some (parse_environment (RunOptions.e options)) else None;
         co_entrypoint :=
           if Py.truthy_str (RunOptions.entrypoint options)
           then RunOptions.entrypoint options else None;
         co_restart := if RunOptions.rm options then Some tt else None;
         co_user :=
           if Py.truthy_str (RunOptions.user options)
           then RunOptions.user options else None;
         co_ports :=
           if Py.truthy_list (RunOptions.publish options)
           then Some (RunOptions.publish options)
           else if negb (RunOptions.service_ports options) then Some [] else None;
         co_name :=
           if Py.truthy_str (RunOptions.name options)
           then RunOptions.name options else None;
         co_working_dir :=
           if Py.truthy_str (RunOptions.workdir options)
           then RunOptions.workdir options else None |}.

(** The local function [remove_container] of [run_one_off_container]; it
    ignores [force] and always passes [force=True]. *)
Definition remove_container (options : RunOptions.t) (container : Container.t)
    (force : bool) : Prog unit :=
  if RunOptions.rm options
  then call (client_remove_container (Container.id container) true)
  else Ret tt.

(** The block of the inner [try] of [run_one_off_container]; its value is
    [exit_code].  [RunOperation] and [PseudoTerminal] are imported only
    off Windows. *)
Definition run_one_off_session (service : Service.t) (options : RunOptions.t)
    (container : Container.t) : Prog Z :=
  if IS_WINDOWS_PLATFORM then Raise (NameError "RunOperation")
  else
    let operation :=
      RunOperation (Container.id container) (negb (RunOptions.T options)) false in
    sockets <- call (pty_sockets operation) ;;
    call (service_start_container service container) ;;
    call (pty_start operation (Some sockets)) ;;
    call (container_wait container).

(** What [run_one_off_container] does once the container exists and [-d]
    was not given. *)
Definition run_one_off_attached (service : Service.t) (options : RunOptions.t)
    (container : Container.t) : Prog unit :=
  call set_signal_handler_to_shutdown ;;
  exit_code <-
    try_except
      (try_except (run_one_off_session service options container)
         (except_ShutdownException
            (call (client_stop (Container.id container)) ;;
             Ret 1%Z)))
      (except_ShutdownException
         (call (client_kill (Container.id container)) ;;
          remove_container options container true ;;
          sys_exit (Some 2%Z))) ;;
  remove_container options container false ;;
  sys_exit (Some exit_code).

(** The first part of [run_one_off_container]: the dependencies are
    brought up and the one-off container is created. *)
Definition create_one_off_container (container_options : ContainerOptions)
    (project : Project.t) (service : Service.t) (options : RunOptions.t)
  : Prog Container.t :=
  (if negb (RunOptions.no_deps options)
   then deps <- call (service_get_dependency_names service) ;;
        if Py.truthy_list deps
        then call (project_up
                     {| up_service_names := deps;
                        up_start_deps := true;
                        up_strategy := ConvergenceStrategy.never;
                        up_do_build := None;
                        up_timeout := None;
                        up_detached := None;
                        up_remove_orphans := None |}) ;;
             Ret tt
        else Ret tt
   else Ret tt) ;;
  call project_initialize ;;
  call (service_create_container service true true container_options).

Definition run_one_off_container (container_options : ContainerOptions)
    (project : Project.t) (service : Service.t) (options : RunOptions.t)
  : Prog unit :=
  container <- create_one_off_container container_options project service options ;;
  if RunOptions.d options
  then call (service_start_container service container) ;;
       call (py_print (Container.name container))
  else run_one_off_attached service options container.

Definition run (self : TopLevelCommand) (options : RunOptions.t) : Prog unit :=
  service <- call (project_get_service (RunOptions.SERVICE options)) ;;
  let detach := RunOptions.d options in
  if IS_WINDOWS_PLATFORM && negb detach
  then Raise (UserError
         ("Interactive mode is not yet supported on Windows." ++ Py.newline
            ++ "Please pass the -d flag when using `docker-compose run`."))
  else if Py.truthy_list (RunOptions.publish options)
          && RunOptions.service_ports options
  then Raise (UserError
         "Service port mapping and manual port mapping can not be used togather")
  else
    let command :=
      if Py.truthy_str (RunOptions.COMMAND options)
      then match RunOptions.COMMAND options with
           | Some c => Some (CommandList (c :: RunOptions.ARGS options))
           | None => None
           end
      else Service.options_command service in
    container_options <- build_container_options options detach command ;;
    run_one_off_container container_options (project self) service options.

Definition exec_command (self : TopLevelCommand) (options : ExecOptions.t) : Prog unit :=
  index <- int_ (ExecOptions.index options) ;;
  service <- call (project_get_service (ExecOptions.SERVICE options)) ;;
  container <- try_except (call (service_get_container service index))
                 (fun e =>
                    match e with
                    | ValueError msg => Some (Raise (UserError msg))
                    | _ => None
                    end) ;;
  let command := ExecOptions.COMMAND options :: ExecOptions.ARGS options in
  let tty := negb (ExecOptions.T options) in
  let create_exec_options :=
    {| ce_privileged := ExecOptions.privileged options;
       ce_user := ExecOptions.user options;
       ce_tty := tty;
       ce_stdin := tty |} in
  exec_id <- call (container_create_exec container command create_exec_options) ;;
  if ExecOptions.d options
  then call (container_start_exec container exec_id tty)
  else
    call set_signal_handler_to_shutdown ;;
    try_except
      (if IS_WINDOWS_PLATFORM then Raise (NameError "ExecOperation")
       else
         let operation := ExecOperation exec_id tty in
         call (pty_start operation None))
      (except_ShutdownException
         (call (log_info "received shutdown exception: closing"))) ;;
    info <- call (client_exec_inspect exec_id) ;;
    let exit_code := ExitCode info in
    sys_exit exit_code.

End Handlers.


(** ** Handlers that use further operations

    [start], [pause], [unpause], [restart], [rm] and [ps] call operations of
    the project that the handlers above do not, ask the user a question, log
    a warning and print a table.  [WideCall] adds those operations to
    [Call], and [WideProg] is the type of the programs that make them; a
    program of the handlers above is one of them ([lift]). *)

(** [compose.project.OneOffFilter], declared in [compose/project.py]; the
    handlers name its three members. *)
Module OneOffFilter.
Inductive t : Type := include | exclude | only.
End OneOffFilter.

Inductive WideCall : Type :=
| core (c : Call)
| log_warn (msg : string)
(* utils.yesno: the truth value of the answer *)
| yesno (prompt : string) (default : bool)
(* print(Formatter().table(headers, rows)) *)
| print_table (headers : list string) (rows : list (list string))
| project_start (service_names : list string)
| project_pause (service_names : list string)
| project_unpause (service_names : list string)
| project_restart (service_names : list string) (timeout : Z)
(* project.containers with a one_off argument; stopped may be left out *)
| project_containers_one_off (service_names : list string)
    (stopped : option bool) (one_off : OneOffFilter.t)
| project_remove_stopped (service_names : list string) (v : bool)
    (one_off : OneOffFilter.t).

Definition wide_ret (c : WideCall) : Type :=
  match c with
  | core c => ret c
  | yesno _ _ => bool
  | project_start _ | project_pause _ | project_unpause _
  | project_restart _ _ | project_containers_one_off _ _ _ => list Container.t
  | _ => unit
  end.

Inductive WideProg (A : Type) : Type :=
| WRet (a : A)
| WRaise (e : exn)
| WVis (c : WideCall) (k : Res (wide_ret c) -> WideProg A).
Arguments WRet {A} a.
Arguments WRaise {A} e.
Arguments WVis {A} c k.

Definition wide_call (c : WideCall) : WideProg (wide_ret c) :=
  WVis c (fun r => match r with Returns v => WRet v | Throws e => WRaise e end).

Fixpoint wide_bind {A B} (p : WideProg A) (f : A -> WideProg B) : WideProg B :=
  match p with
  | WRet a => f a
  | WRaise e => WRaise e
  | WVis c k => WVis c (fun r => wide_bind (k r) f)
  end.

(** A program of the handlers above, its calls unchanged. *)
Fixpoint lift {A} (p : Prog A) : WideProg A :=
  match p with
  | Ret a => WRet a
  | Raise e => WRaise e
  | Vis c k => WVis (core c) (fun r => lift (k r))
  end.

Definition WideEnv : Type := list WideCall -> forall c : WideCall, Res (wide_ret c).

Fixpoint wide_execute {A} (env : WideEnv) (history : list WideCall) (p : WideProg A)
  : Outcome A * list WideCall :=
  match p with
  | WRet a => (Returned a, history)
  | WRaise e => (Raised e, history)
  | WVis c k => wide_execute env (history ++ [c]) (k (env history c))
  end.

Declare Scope wide_scope.
Delimit Scope wide_scope with wide.
Notation "x <- p ;; q" := (wide_bind p (fun x => q))
  (at level 61, p at next level, right associativity) : wide_scope.
Notation "p ;; q" := (wide_bind p (fun _ => q))
  (at level 61, right associativity) : wide_scope.

(** The usage pattern of [start], [pause] and [unpause]. *)
Module ServicesOptions.
Record t : Type := mk { SERVICE : list string }.
End ServicesOptions.

Module RestartOptions.
Record t : Type := mk { timeout : option string; SERVICE : list string }.
End RestartOptions.

Module RmOptions.
Record t : Type := mk
  { force : bool;
    v : bool;
    all : bool;
    SERVICE : list string }.
End RmOptions.

Module PsOptions.
Record t : Type := mk { q : bool; SERVICE : list string }.
End PsOptions.

Definition exit_if (condition : bool) (message : string) (exit_code : Z)
  : Prog unit :=
  if condition
  then call (log_error message) ;; sys_exit (Some exit_code)
  else Ret tt.

(** [sorted(containers, key=attrgetter('name'))]: the stable sort by name,
    strings compared character by character. *)
Fixpoint insert_by_name (c : Container.t) (sorted : list Container.t)
  : list Container.t :=
  match sorted with
  | [] => [c]
  | c' :: rest =>
      if (Container.name c <=? Container.name c')%string
      then c :: c' :: rest
      else c' :: insert_by_name c rest
  end.

Fixpoint sorted_by_name (containers : list Container.t) : list Container.t :=
  match containers with
  | [] => []
  | c :: rest => insert_by_name c (sorted_by_name rest)
  end.

Section WideHandlers.

Local Open Scope wide_scope.

Variable DEFAULT_TIMEOUT : Z.

(** Properties of [compose.container.Container] read by [rm] and [ps]. *)
Variable is_running : Container.t -> bool.
Variable human_readable_command : Container.t -> string.
Variable human_readable_state : Container.t -> string.
Variable human_readable_ports : Container.t -> string.

Definition pause (self : TopLevelCommand) (options : ServicesOptions.t)
  : WideProg unit :=
  containers <- wide_call (project_pause (ServicesOptions.SERVICE options)) ;;
  lift (exit_if (negb (Py.truthy_list containers)) "No containers to pause" 1%Z).

Definition start (self : TopLevelCommand) (options : ServicesOptions.t)
  : WideProg unit :=
  containers <- wide_call (project_start (ServicesOptions.SERVICE options)) ;;
  lift (exit_if (negb (Py.truthy_list containers)) "No containers to start" 1%Z).

Definition restart (self : TopLevelCommand) (options : RestartOptions.t)
  : WideProg unit :=
  timeout <- lift (int_timeout_or_default DEFAULT_TIMEOUT
                          (RestartOptions.timeout options)) ;;
  containers <- wide_call (project_restart (RestartOptions.SERVICE options)
                             timeout) ;;
  lift (exit_if (negb (Py.truthy_list containers)) "No containers to restart" 1%Z).

Definition unpause (self : TopLevelCommand) (options : ServicesOptions.t)
  : WideProg unit :=
  containers <- wide_call (project_unpause (ServicesOptions.SERVICE options)) ;;
  lift (exit_if (negb (Py.truthy_list containers)) "No containers to unpause" 1%Z).

Definition rm_warning : string :=
  "Not including one-off containers created by `docker-compose run`."
    ++ Py.newline
    ++ "To include them, use `docker-compose rm --all`." ++ Py.newline
    ++ "This will be the default behavior in the next version of Compose."
    ++ Py.newline.

Definition rm (self : TopLevelCommand) (options : RmOptions.t) : WideProg unit :=
  one_off <- (if RmOptions.all options
              then WRet OneOffFilter.include
              else wide_call (log_warn rm_warning) ;;
                   WRet OneOffFilter.exclude) ;;
  all_containers <- wide_call (project_containers_one_off
                                 (RmOptions.SERVICE options) (Some true) one_off) ;;
  let stopped_containers := filter (fun c => negb (is_running c)) all_containers in
  if (0 <? List.length stopped_containers)%nat
  then
    wide_call (core (py_print ("Going to remove "
                                      ++ list_containers stopped_containers))) ;;
    confirmed <- (if RmOptions.force options then WRet true
                  else wide_call (yesno "Are you sure? [yN] " false)) ;;
    if confirmed
    then wide_call (project_remove_stopped (RmOptions.SERVICE options)
                      (RmOptions.v options) one_off)
    else WRet tt
  else wide_call (core (py_print "No stopped containers")).

(** The command column of [ps]. *)
Definition ps_command (container : Container.t) : string :=
  let command := human_readable_command container in
  if (30 <? String.length command)%nat
  then substring 0 26 command ++ " ..."
  else command.

Definition ps_row (container : Container.t) : list string :=
  [ Container.name container;
    ps_command container;
    human_readable_state container;
    human_readable_ports container ].

(** [for container in containers: print(container.id)]. *)
Fixpoint print_ids (containers : list Container.t) : WideProg unit :=
  match containers with
  | [] => WRet tt
  | container :: rest =>
      wide_call (core (py_print (Container.id container))) ;;
      print_ids rest
  end.

Definition ps (self : TopLevelCommand) (options : PsOptions.t) : WideProg unit :=
  services <- wide_call (core (project_containers
                                      (PsOptions.SERVICE options) true)) ;;
  one_offs <- wide_call (project_containers_one_off
                           (PsOptions.SERVICE options) None OneOffFilter.only) ;;
  let containers := sorted_by_name (services ++ one_offs) in
  if PsOptions.q options
  then print_ids containers
  else
    let headers := ["Name"; "Command"; "State"; "Ports"] in
    let rows := map ps_row containers in
    wide_call (print_table headers rows).

End WideHandlers.

(** ** Environments and command lines for the examples *)

Definition default_ret (c : Call) : ret c :=
  match c as c0 return ret c0 with
  | stdin_isatty => true
  | project_up _ => [Container.mk "c0ffee" "web_1" "web"]
  | project_events _ => 0%nat
  | project_containers _ _ => [Container.mk "c0ffee" "web_1" "web"]
  | project_get_service name => Service.mk name None
  | service_get_container s number =>
      Container.mk "c0ffee" (Service.name s ++ "_1") (Service.name s)
  | service_get_dependency_names _ => []
  | service_create_container s _ _ _ =>
      Container.mk "0ddba11" (Service.name s ++ "_run_1") (Service.name s)
  | container_create_exec _ _ _ => "e4ec"
  | container_wait _ => 3%Z
  | client_exec_inspect _ => {| ExitCode := Some 7%Z |}
  | pty_sockets _ => 0%nat
  | _ => tt
  end.

(** Every call returns, no signal arrives. *)
Definition quiet : Env := fun _ c => Returns (default_ret c).

(** A signal arrives during the calls made at the given positions of the
    history (the first call of an execution is at position 0). *)
Definition interrupted_at (positions : list nat) (base : Env) : Env :=
  fun history c =>
    if existsb (Nat.eqb (List.length history)) positions
    then Throws ShutdownException
    else base history c.

Definition a_command : TopLevelCommand :=
  {| project := Project.mk ["web"; "db"]; project_dir := "." |}.

Definition up_plain : UpOptions.t :=
  {| UpOptions.d := false; UpOptions.no_color := false;
     UpOptions.no_deps := false; UpOptions.force_recreate := false;
     UpOptions.no_recreate := false; UpOptions.no_build := false;
     UpOptions.build := false; UpOptions.abort_on_container_exit := false;
     UpOptions.timeout := None; UpOptions.remove_orphans := false;
     UpOptions.SERVICE := ["web"] |}.

Definition up_with (d force_recreate no_recreate abort_on_container_exit : bool)
    (timeout : option string) : UpOptions.t :=
  {| UpOptions.d := d; UpOptions.no_color := false;
     UpOptions.no_deps := false; UpOptions.force_recreate := force_recreate;
     UpOptions.no_recreate := no_recreate; UpOptions.no_build := false;
     UpOptions.build := false;
     UpOptions.abort_on_container_exit := abort_on_container_exit;
     UpOptions.timeout := timeout; UpOptions.remove_orphans := false;
     UpOptions.SERVICE := ["web"] |}.

Definition create_with (force_recreate no_recreate build no_build : bool)
  : CreateOptions.t :=
  {| CreateOptions.force_recreate := force_recreate;
     CreateOptions.no_recreate := no_recreate;
     CreateOptions.no_build := no_build;
     CreateOptions.build := build;
     CreateOptions.SERVICE := ["web"] |}.

Definition exec_with (d T : bool) : ExecOptions.t :=
  {| ExecOptions.d := d; ExecOptions.privileged := false;
     ExecOptions.user := None; ExecOptions.T := T;
     ExecOptions.index := "1"; ExecOptions.SERVICE := "web";
     ExecOptions.COMMAND := "sh"; ExecOptions.ARGS := [] |}.

Definition run_with (d T rm : bool) : RunOptions.t :=
  {| RunOptions.d := d; RunOptions.name := None;
     RunOptions.entrypoint := None; RunOptions.e := [];
     RunOptions.user := None; RunOptions.no_deps := false;
     RunOptions.rm := rm; RunOptions.publish := [];
     RunOptions.service_ports := false; RunOptions.T := T;
     RunOptions.workdir := None; RunOptions.SERVICE := "web";
     RunOptions.COMMAND := Some "sh"; RunOptions.ARGS := [] |}.

Definition scale_with (timeout : option string) (arguments : list string)
  : ScaleOptions.t :=
  {| ScaleOptions.timeout := timeout; ScaleOptions.SERVICE_NUM := arguments |}.

Definition logs_with (tail : option string) : LogsOptions.t :=
  {| LogsOptions.no_color := false; LogsOptions.follow := false;
     LogsOptions.timestamps := false; LogsOptions.tail := tail;
     LogsOptions.SERVICE := ["web"] |}.

(** The word holding the Arabic-Indic digit three, U+0663, alone. *)
Definition arabic_indic_three : string :=
  String (ascii_of_nat 217) (String (ascii_of_nat 163) EmptyString).

(** The word holding the superscript two, U+00B2, alone. *)
Definition superscript_two : string :=
  String (ascii_of_nat 194) (String (ascii_of_nat 178) EmptyString).

(** The calls of an attached [up --timeout 5 web] up to the log printer,
    which a signal interrupts. *)
Definition up_interrupted_history : list Call :=
  Eval vm_compute in
    snd (execute (interrupted_at [4%nat] quiet) [set_signal_handler_to_shutdown]
           (up_body a_command (up_with false false false false (Some "5")) 5%Z)).

(** The container options of [run web sh] on a terminal. *)
Definition one_off_options : ContainerOptions :=
  {| co_command := Some (CommandList ["sh"]);
     co_tty := true;
     co_stdin_open := true;
     co_detach := false;
     co_environment := None;
     co_entrypoint := None;
     co_restart := Some tt;
     co_user := None;
     co_ports := Some [];
     co_name := None;
     co_working_dir := None |}.

(** The calls of [run --rm web sh] up to the creation of the container. *)
Definition run_created_history : list Call :=
  Eval vm_compute in
    snd (execute quiet []
           (create_one_off_container one_off_options (project a_command)
              (Service.mk "web" None) (run_with false false true))).

(** The calls of that run up to [pty.start], which a signal interrupts. *)
Definition run_interrupted_history : list Call :=
  Eval vm_compute in
    snd (execute (interrupted_at [6%nat] quiet)
           (run_created_history ++ [set_signal_handler_to_shutdown])
           (run_one_off_session false (Service.mk "web" None)
              (run_with false false true)
              (Container.mk "0ddba11" "web_run_1" "web"))).

(** The calls of [run --rm web sh], from [run] on, up to and including
    [pty.start]. *)
Definition run_bridged_history : list Call :=
  Eval vm_compute in
    firstn 9 (snd (execute quiet [] (run false a_command (run_with false false true)))).

(** The calls of that [up] when the signal is the only one. *)
Definition up_interrupted_stop_history : list Call :=
  Eval vm_compute in
    snd (execute (interrupted_at [4%nat] quiet) []
           (up 10%Z a_command (up_with false false false false (Some "5")))).

(** An environment for the handlers over [WideCall]: every call that
    returns containers returns the given ones, the user answers the default,
    and the calls of [Call] end as in [quiet]. *)
Definition wide_quiet (containers : list Container.t) : WideEnv :=
  fun _ c =>
    match c as c0 return Res (wide_ret c0) with
    | core (project_containers names stopped) => Returns containers
    | core c0 => Returns (default_ret c0)
    | yesno _ default => Returns default
    | project_start _ => Returns containers
    | project_pause _ => Returns containers
    | project_unpause _ => Returns containers
    | project_restart _ _ => Returns containers
    | project_containers_one_off _ _ _ => Returns containers
    | log_warn _ => Returns tt
    | print_table _ _ => Returns tt
    | project_remove_stopped _ _ _ => Returns tt
    end.

(** Three containers, the second one running. *)
Definition some_containers : list Container.t :=
  [ Container.mk "0a" "app_web_1" "web";
    Container.mk "0b" "app_db_1" "db";
    Container.mk "0c" "app_cache_1" "cache" ].

Definition only_db_runs (c : Container.t) : bool :=
  String.eqb (Container.service c) "db".

(** ** Vocabulary of the properties *)

(** Force-recreate together with no-recreate, or build together with
    no-build. *)
Definition conflicting_flags {O} `{StrategyFlags O} (options : O) : Prop :=
  (opt_force_recreate options = true /\ opt_no_recreate options = true)
  \/ (opt_build options = true /\ opt_no_build options = true).

(** The messages of the errors raised by the two option conversions. *)
Definition conversion_messages : list string :=
  [ "--force-recreate and --no-recreate cannot be combined.";
    "--build and --no-build can not be combined." ].

(** The strategy the recreate flags ask for. *)
Definition follows_flags (force_recreate no_recreate : bool)
    (strategy : ConvergenceStrategy.t) : Prop :=
  (force_recreate = true -> strategy = ConvergenceStrategy.always)
  /\ (no_recreate = true -> strategy = ConvergenceStrategy.never)
  /\ (force_recreate = false -> no_recreate = false ->
      strategy = ConvergenceStrategy.changed).

(** The errors [main] reports before leaving with the generic failure
    code: user, configuration, build and pull errors. *)
Definition generic_failure (e : exn) : bool :=
  match e with
  | UserError _ | NoSuchService _ | ConfigurationError _
  | BuildError _ _ | StreamOutputError _ | NeedsBuildError _ => true
  | _ => false
  end.

(** What a well-formed [SERVICE=NUM] argument asks for: the service named
    before the first [=] and the integer after it.  [None] for an argument
    without [=] or whose count [int] rejects. *)
Definition scale_request (argument : string) : option (string * Z) :=
  if Py.contains "="%char argument
  then option_map (pair (fst (Py.split1 "="%char argument)))
         (Py.int (snd (Py.split1 "="%char argument)))
  else None.

(** The services looked up in a sequence of calls, in order. *)
Fixpoint looked_up (trace : list Call) : list string :=
  match trace with
  | [] => []
  | project_get_service name :: rest => name :: looked_up rest
  | _ :: rest => looked_up rest
  end.

(** The scalings made in a sequence of calls, in order: the service scaled,
    the count and the timeout. *)
Fixpoint scalings (trace : list Call) : list (Service.t * Z * Z) :=
  match trace with
  | [] => []
  | service_scale s num timeout :: rest => (s, num, timeout) :: scalings rest
  | _ :: rest => scalings rest
  end.

(** The calls [scale] makes for well-formed requests, from a given history
    on: each service is looked up by the name given, and the service the
    project returns is the one scaled, to the count given. *)
Fixpoint scale_calls (env : Env) (timeout : Z) (requests : list (string * Z))
    (history : list Call) : list Call :=
  match requests with
  | [] => []
  | (name, num) :: rest =>
      match env history (project_get_service name) with
      | Returns service =>
          let made := [project_get_service name; service_scale service num timeout] in
          made ++ scale_calls env timeout rest (history ++ made)
      | Throws _ => [project_get_service name]
      end
  end.

(** No call fails and no signal arrives. *)
Definition cooperative (env : Env) : Prop :=
  forall history c, exists v, env history c = Returns v.

(** The [tail] entry of [log_args] for an accepted [--tail]. *)
Definition accepted_tail (tail : option string) (value : tail_value) : Prop :=
  (tail = None /\ value = TailNone)
  \/ (tail = Some "all" /\ value = TailStr "all")
  \/ (exists s n, tail = Some s /\ Py.isdigit s = true
                  /\ Py.int s = Some n /\ value = TailInt n).

(** The build action the build flags ask for. *)
Definition follows_build_flags (build no_build : bool)
    (do_build : BuildAction.t) : Prop :=
  (build = true -> do_build = BuildAction.force)
  /\ (no_build = true -> do_build = BuildAction.skip)
  /\ (build = false -> no_build = false -> do_build = BuildAction.none).

(** The calls that stop, kill or remove something. *)
Definition tears_down (c : Call) : bool :=
  match c with
  | project_stop _ _ | project_kill _
  | client_stop _ | client_kill _ | client_remove_container _ _ => true
  | _ => false
  end.

(** The calls of an attached session: the installation of the signal
    handler, the pseudo-terminal and the reading of the exit status. *)
Definition bridges (c : Call) : bool :=
  match c with
  | set_signal_handler_to_shutdown | pty_sockets _ | pty_start _ _
  | container_wait _ | client_exec_inspect _ => true
  | _ => false
  end.

(** An environment in which every service depends on [db]. *)
Definition with_dependencies (base : Env) : Env :=
  fun history c =>
    match c as c0 return Res (ret c0) with
    | service_get_dependency_names _ => Returns ["db"]
    | c0 => base history c0
    end.

(** An environment that lets the call at one position fail. *)
Definition failing_at (position : nat) (e : exn) (base : Env) : Env :=
  fun history c =>
    if Nat.eqb (List.length history) position then Throws e else base history c.

(** [up], attached and detached, and [create] pass the given strategy to
    the project under the given recreate flags, when nothing else is asked
    and no call fails. *)
Definition plans_with (force_recreate no_recreate : bool)
    (strategy : ConvergenceStrategy.t) : Prop :=
  (exists args made,
     up_strategy args = strategy
     /\ snd (execute quiet []
               (up 10%Z a_command (up_with false force_recreate no_recreate false None))) =
          set_signal_handler_to_shutdown :: project_up args :: made)
  /\ (exists args made,
        up_strategy args = strategy
        /\ snd (execute quiet []
                  (up 10%Z a_command (up_with true force_recreate no_recreate false None))) =
             project_up args :: made)
  /\ (exists do_build,
        snd (execute quiet []
               (create a_command (create_with force_recreate no_recreate false false))) =
          [project_create ["web"] strategy do_build]).

(** * Properties *)

(** ** Executing composite programs *)

Lemma execute_bind {A B} (env : Env) (p : Prog A) (f : A -> Prog B) :
  forall history,
    execute env history (bind p f) =
    match execute env history p with
    | (Returned a, history') => execute env history' (f a)
    | (Raised e, history') => (Raised e, history')
    end.
Proof.
  induction p as [a | e | c k IH]; intros history; simpl; auto.
Qed.

Lemma execute_try_except {A} (env : Env) (p : Prog A) handler :
  forall history,
    execute env history (try_except p handler) =
    match execute env history p with
    | (Returned a, history') => (Returned a, history')
    | (Raised e, history') =>
        match handler e with
        | Some h => execute env history' h
        | None => (Raised e, history')
        end
    end.
Proof.
  induction p as [a | e | c k IH]; intros history; simpl; auto.
  destruct (handler e); reflexivity.
Qed.

Lemma execute_call (env : Env) (c : Call) history :
  execute env history (call c) =
  match env history c with
  | Returns v => (Returned v, history ++ [c])
  | Throws e => (Raised e, history ++ [c])
  end.
Proof.
  simpl. destruct (env history c); reflexivity.
Qed.

(** An execution only appends to the history. *)
Lemma execute_extends {A} (env : Env) (p : Prog A) :
  forall history, exists made, snd (execute env history p) = history ++ made.
Proof.
  induction p as [a | e | c k IH]; intros history; simpl.
  - exists []. now rewrite app_nil_r.
  - exists []. now rewrite app_nil_r.
  - destruct (IH (env history c) (history ++ [c])) as [made E].
    exists (c :: made). rewrite E, <- app_assoc. reflexivity.
Qed.

Lemma execute_try_except_extends {A} (env : Env) (p : Prog A) handler history :
  exists made,
    snd (execute env history (try_except p handler)) =
    snd (execute env history p) ++ made.
Proof.
  rewrite execute_try_except.
  destruct (execute env history p) as [[a | e] history']; simpl.
  - exists []. now rewrite app_nil_r.
  - destruct (handler e) as [h |]; [apply execute_extends |].
    exists []. now rewrite app_nil_r.
Qed.

(** Whatever the environment does, a call found in the history after an
    execution was there before or is one the program can make. *)
Lemma execute_may_call {A} (env : Env) (p : Prog A) (c : Call) :
  forall history,
    In c (snd (execute env history p)) -> In c history \/ may_call p c.
Proof.
  induction p as [a | e | c' k IH]; intros history Hin; simpl in *; auto.
  apply IH in Hin. destruct Hin as [Hin | Hin].
  - apply in_app_or in Hin. destruct Hin as [Hin | [Hin | []]]; auto.
  - right. right. eauto.
Qed.

Lemma may_call_bind {A B} (p : Prog A) (f : A -> Prog B) (c : Call) :
  may_call (bind p f) c ->
  may_call p c \/ exists a, may_return p a /\ may_call (f a) c.
Proof.
  induction p as [a | e | c' k IH]; simpl; intros Hc.
  - right. eauto.
  - contradiction.
  - destruct Hc as [Hc | [r Hc]]; auto.
    apply IH in Hc. destruct Hc as [Hc | [a [Ha Hc]]]; eauto.
Qed.

Lemma may_call_try_except {A} (p : Prog A) handler (c : Call) :
  may_call (try_except p handler) c ->
  may_call p c \/ exists e h, handler e = Some h /\ may_call h c.
Proof.
  induction p as [a | e | c' k IH]; simpl; intros Hc.
  - contradiction.
  - destruct (handler e) as [h |] eqn:E; [right; eauto | contradiction].
  - destruct Hc as [Hc | [r Hc]]; auto.
    apply IH in Hc. destruct Hc as [Hc | Hc]; eauto.
Qed.

(** ** Option conversion *)

Lemma int_timeout_or_default_cases (DEFAULT_TIMEOUT : Z) (timeout : option string) :
  (exists n, int_timeout_or_default DEFAULT_TIMEOUT timeout = Ret n)
  \/ (exists msg, int_timeout_or_default DEFAULT_TIMEOUT timeout = Raise (ValueError msg)).
Proof.
  unfold int_timeout_or_default, int_.
  destruct timeout as [s |]; [| eauto].
  destruct (Py.truthy_str (Some s)); [| eauto].
  destruct (Py.int s); eauto.
Qed.

Lemma convergence_strategy_may_return {O} `{StrategyFlags O} (options : O) strategy :
  may_return (convergence_strategy_from_opts options) strategy ->
  follows_flags (opt_force_recreate options) (opt_no_recreate options) strategy.
Proof.
  unfold convergence_strategy_from_opts, follows_flags.
  destruct (opt_force_recreate options), (opt_no_recreate options); simpl;
    intros Hr; try contradiction; subst; repeat split; congruence.
Qed.

Lemma convergence_strategy_no_call {O} `{StrategyFlags O} (options : O) c :
  ~ may_call (convergence_strategy_from_opts options) c.
Proof.
  unfold convergence_strategy_from_opts.
  destruct (opt_force_recreate options), (opt_no_recreate options); simpl; auto.
Qed.

Lemma build_action_no_call {O} `{StrategyFlags O} (options : O) c :
  ~ may_call (build_action_from_opts options) c.
Proof.
  unfold build_action_from_opts.
  destruct (opt_build options), (opt_no_build options); simpl; auto.
Qed.

(** With conflicting flags the two conversions, run in the order the
    handlers run them, raise one of the two conversion errors. *)
Lemma conversions_raise {O} `{StrategyFlags O} (options : O) {A}
    (k : ConvergenceStrategy.t -> BuildAction.t -> Prog A) :
  conflicting_flags options ->
  exists msg, In msg conversion_messages /\
    (strategy <- convergence_strategy_from_opts options ;;
     do_build <- build_action_from_opts options ;;
     k strategy do_build) = Raise (UserError msg).
Proof.
  unfold conflicting_flags, convergence_strategy_from_opts, build_action_from_opts,
    conversion_messages.
  intros [[-> ->] | [-> ->]]; simpl.
  - eexists; split; [left; reflexivity | reflexivity].
  - destruct (opt_force_recreate options), (opt_no_recreate options); simpl;
      eexists; (split; [| reflexivity]); simpl; auto.
Qed.

(** A [--timeout] word that [int] refuses: the conversion raises the
    [ValueError]. *)
Lemma int_timeout_or_default_refused (DEFAULT_TIMEOUT : Z) (s : string) :
  s <> EmptyString -> Py.int s = None ->
  exists msg,
    int_timeout_or_default DEFAULT_TIMEOUT (Some s) = Raise (ValueError msg).
Proof.
  intros Hne Hs. unfold int_timeout_or_default, int_.
  destruct s as [| c r]; [congruence |]. simpl. rewrite Hs. eauto.
Qed.

(** C1 (as amended).  With force-recreate and no-recreate both set, or build
    and no-build both set: [create] raises the conversion's [UserError]
    having made no call at all; [up] makes no call but the installation of
    the signal handler and never returns normally; when its [--timeout]
    value converts, [up] raises a [UserError], which is the conversion's
    unless [-d] and [--abort-on-container-exit] are both set, in which case
    it is the error for that pair; and when [--timeout] is a non-empty word
    that [int] refuses, [up] raises the [ValueError] of [int], having made
    no call at all. *)
Theorem conflicting_flags_fail_before_planning
    (DEFAULT_TIMEOUT : Z) (env : Env) (self : TopLevelCommand)
    (create_options : CreateOptions.t) (up_options : UpOptions.t) :
  conflicting_flags create_options ->
  conflicting_flags up_options ->
  (exists msg, In msg conversion_messages /\
     execute env [] (create self create_options) = (Raised (UserError msg), []))
  /\ (forall c, In c (snd (execute env [] (up DEFAULT_TIMEOUT self up_options))) ->
        c = set_signal_handler_to_shutdown)
  /\ (forall v, fst (execute env [] (up DEFAULT_TIMEOUT self up_options)) <> Returned v)
  /\ (forall timeout,
        int_timeout_or_default DEFAULT_TIMEOUT (UpOptions.timeout up_options) = Ret timeout ->
        env [] set_signal_handler_to_shutdown = Returns tt ->
        exists msg,
          execute env [] (up DEFAULT_TIMEOUT self up_options) =
            (Raised (UserError msg),
             if UpOptions.d up_options then [] else [set_signal_handler_to_shutdown])
          /\ (if UpOptions.d up_options && UpOptions.abort_on_container_exit up_options
              then msg = "--abort-on-container-exit and -d cannot be combined."
              else In msg conversion_messages))
  /\ (forall s,
        UpOptions.timeout up_options = Some s ->
        s <> EmptyString ->
        Py.int s = None ->
        exists msg,
          execute env [] (up DEFAULT_TIMEOUT self up_options) =
            (Raised (ValueError msg), [])).
Proof.
  intros Hc Hu.
  assert (Hup : forall timeout,
    exists msg, In msg conversion_messages /\
      up_body self up_options timeout = Raise (UserError msg)).
  { intros timeout. unfold up_body. now apply conversions_raise. }
  split; [| split; [| split; [| split]]].
  - unfold create.
    destruct (conversions_raise create_options
      (fun strategy do_build =>
         call (project_create (CreateOptions.SERVICE create_options) strategy do_build))
      Hc) as [msg [Hin E]].
    exists msg. split; [exact Hin |]. rewrite E. reflexivity.
  - intros c. unfold up.
    destruct (int_timeout_or_default_cases DEFAULT_TIMEOUT (UpOptions.timeout up_options))
      as [[n E] | [m E]]; rewrite E; simpl; [| tauto].
    destruct (UpOptions.d up_options && UpOptions.abort_on_container_exit up_options);
      simpl; [tauto |].
    unfold up_shutdown_context. destruct (Hup n) as [msg [_ Eb]]. rewrite Eb.
    destruct (UpOptions.d up_options); simpl; [tauto |].
    destruct (env [] set_signal_handler_to_shutdown); simpl;
      intros [<- | []]; reflexivity.
  - intros v. unfold up.
    destruct (int_timeout_or_default_cases DEFAULT_TIMEOUT (UpOptions.timeout up_options))
      as [[n E] | [m E]]; rewrite E; simpl; [| discriminate].
    destruct (UpOptions.d up_options && UpOptions.abort_on_container_exit up_options);
      simpl; [discriminate |].
    unfold up_shutdown_context. destruct (Hup n) as [msg [_ Eb]]. rewrite Eb.
    destruct (UpOptions.d up_options); simpl; [discriminate |].
    destruct (env [] set_signal_handler_to_shutdown); simpl; discriminate.
  - intros timeout Et Henv. unfold up. rewrite Et. simpl.
    destruct (UpOptions.d up_options) eqn:Ed; simpl.
    + destruct (UpOptions.abort_on_container_exit up_options); simpl.
      * eexists. split; reflexivity.
      * unfold up_shutdown_context. destruct (Hup timeout) as [msg [Hin Eb]].
        rewrite Eb. exists msg. split; [reflexivity | exact Hin].
    + unfold up_shutdown_context. destruct (Hup timeout) as [msg [Hin Eb]].
      rewrite Eb. simpl. rewrite Henv. simpl.
      exists msg. split; [reflexivity | exact Hin].
  - intros s Es Hne Hs. unfold up. rewrite Es.
    destruct (int_timeout_or_default_refused DEFAULT_TIMEOUT s Hne Hs) as [msg ->].
    exists msg. reflexivity.
Qed.

Lemma conflicting_flags_fail_before_planning_witness :
  (exists msg,
     execute quiet []
       (up 10%Z a_command (up_with false true true false (Some "5"))) =
       (Raised (UserError msg), [set_signal_handler_to_shutdown])
     /\ In msg conversion_messages)
  /\ (exists msg,
        execute quiet []
          (up 10%Z a_command (up_with false true true false (Some "1.5"))) =
          (Raised (ValueError msg), [])).
Proof.
  split.
  - destruct (conflicting_flags_fail_before_planning 10%Z quiet a_command
                (create_with true true false false)
                (up_with false true true false (Some "5")))
      as (_ & _ & _ & H & _).
    + left. split; reflexivity.
    + left. split; reflexivity.
    + destruct (H 5%Z eq_refl eq_refl) as [msg [E Hin]].
      exists msg. split; [exact E | exact Hin].
  - destruct (conflicting_flags_fail_before_planning 10%Z quiet a_command
                (create_with true true false false)
                (up_with false true true false (Some "1.5")))
      as (_ & _ & _ & _ & H).
    + left. split; reflexivity.
    + left. split; reflexivity.
    + apply (H "1.5" eq_refl); [discriminate | reflexivity].
Defined.

(** C1 as stated fails: [up --force-recreate --no-recreate --timeout abc]
    raises the [ValueError] of [int('abc')], not a conflicting-options
    error. *)
Lemma conflicting_flags_bad_timeout :
  conflicting_flags (up_with false true true false (Some "abc"))
  /\ Py.int "abc" = None
  /\ execute quiet []
       (up 10%Z a_command (up_with false true true false (Some "abc"))) =
       (Raised (ValueError "invalid literal for int() with base 10: 'abc'"), [])
  /\ ~ (exists msg,
          fst (execute quiet []
                 (up 10%Z a_command (up_with false true true false (Some "abc"))))
          = Raised (UserError msg)).
Proof.
  split; [| split; [| split]].
  - left. split; reflexivity.
  - reflexivity.
  - reflexivity.
  - intros [msg E]. vm_compute in E. discriminate E.
Qed.

(** C8 (as amended).  [up] given both [-d] and
    [--abort-on-container-exit] makes no call at all and never returns
    normally; when its [--timeout] value converts, what it raises is the
    [UserError] for that pair; when [--timeout] is a non-empty word that
    [int] refuses, what it raises is the [ValueError] of [int]. *)
Theorem detached_abort_on_exit_rejected
    (DEFAULT_TIMEOUT : Z) (env : Env) (self : TopLevelCommand)
    (options : UpOptions.t) :
  UpOptions.d options = true ->
  UpOptions.abort_on_container_exit options = true ->
  snd (execute env [] (up DEFAULT_TIMEOUT self options)) = []
  /\ (forall v, fst (execute env [] (up DEFAULT_TIMEOUT self options)) <> Returned v)
  /\ (forall timeout,
        int_timeout_or_default DEFAULT_TIMEOUT (UpOptions.timeout options) = Ret timeout ->
        execute env [] (up DEFAULT_TIMEOUT self options) =
          (Raised (UserError "--abort-on-container-exit and -d cannot be combined."),
           []))
  /\ (forall s,
        UpOptions.timeout options = Some s ->
        s <> EmptyString ->
        Py.int s = None ->
        exists msg,
          execute env [] (up DEFAULT_TIMEOUT self options) =
            (Raised (ValueError msg), [])).
Proof.
  intros Hd Ha. unfold up. rewrite Hd, Ha. simpl.
  split; [| split; [| split]].
  - destruct (int_timeout_or_default_cases DEFAULT_TIMEOUT (UpOptions.timeout options))
      as [[n E] | [m E]]; rewrite E; reflexivity.
  - destruct (int_timeout_or_default_cases DEFAULT_TIMEOUT (UpOptions.timeout options))
      as [[n E] | [m E]]; rewrite E; discriminate.
  - intros timeout Et. rewrite Et. reflexivity.
  - intros s Es Hne Hs. rewrite Es.
    destruct (int_timeout_or_default_refused DEFAULT_TIMEOUT s Hne Hs) as [msg ->].
    exists msg. reflexivity.
Qed.

Lemma detached_abort_on_exit_rejected_witness :
  execute quiet [] (up 10%Z a_command (up_with true false false true (Some "30"))) =
    (Raised (UserError "--abort-on-container-exit and -d cannot be combined."), [])
  /\ (exists msg,
        execute quiet []
          (up 10%Z a_command (up_with true false false true (Some "ten"))) =
          (Raised (ValueError msg), [])).
Proof.
  split.
  - destruct (detached_abort_on_exit_rejected 10%Z quiet a_command
                (up_with true false false true (Some "30")) eq_refl eq_refl)
      as (_ & _ & H & _).
    exact (H 30%Z eq_refl).
  - destruct (detached_abort_on_exit_rejected 10%Z quiet a_command
                (up_with true false false true (Some "ten")) eq_refl eq_refl)
      as (_ & _ & _ & H).
    apply (H "ten" eq_refl); [discriminate | reflexivity].
Defined.

(** C8 as stated fails: [up -d --abort-on-container-exit --timeout abc]
    raises the [ValueError] of [int('abc')], not a user error. *)
Lemma detached_abort_on_exit_bad_timeout :
  UpOptions.d (up_with true false false true (Some "abc")) = true
  /\ UpOptions.abort_on_container_exit (up_with true false false true (Some "abc")) = true
  /\ Py.int "abc" = None
  /\ execute quiet []
       (up 10%Z a_command (up_with true false false true (Some "abc"))) =
       (Raised (ValueError "invalid literal for int() with base 10: 'abc'"), [])
  /\ ~ (exists msg,
          fst (execute quiet []
                 (up 10%Z a_command (up_with true false false true (Some "abc"))))
          = Raised (UserError msg)).
Proof.
  split; [reflexivity | split; [reflexivity | split; [reflexivity | split; [reflexivity |]]]].
  intros [msg E]. vm_compute in E. discriminate E.
Qed.

(** ** The strategy handed to the project *)

Ltac no_such_call :=
  repeat match goal with
    | H : False |- _ => contradiction
    | H : _ \/ _ |- _ => destruct H
    | H : exists r : Res _, _ |- _ =>
        let r := fresh "r" in destruct H as [r H]; destruct r; simpl in H
    | H : may_call (if ?b then _ else _) _ |- _ => destruct b; simpl in H
    | H : _ = _ |- _ => discriminate H
    end.

Lemma int_timeout_or_default_no_call (DEFAULT_TIMEOUT : Z) timeout c :
  ~ may_call (int_timeout_or_default DEFAULT_TIMEOUT timeout) c.
Proof.
  destruct (int_timeout_or_default_cases DEFAULT_TIMEOUT timeout)
    as [[n E] | [m E]]; rewrite E; simpl; auto.
Qed.

Lemma up_body_strategy (self : TopLevelCommand) (options : UpOptions.t)
    (timeout : Z) (args : UpArgs) :
  may_call (up_body self options timeout) (project_up args) ->
  follows_flags (UpOptions.force_recreate options) (UpOptions.no_recreate options)
    (up_strategy args).
Proof.
  unfold up_body. intros Hc.
  apply may_call_bind in Hc.
  destruct Hc as [Hc | [strategy [Hs Hc]]];
    [now apply convergence_strategy_no_call in Hc |].
  apply convergence_strategy_may_return in Hs.
  apply may_call_bind in Hc.
  destruct Hc as [Hc | [do_build [_ Hc]]];
    [now apply build_action_no_call in Hc |].
  simpl in Hc. destruct Hc as [Hc | Hc].
  - inversion Hc; subst; simpl. exact Hs.
  - exfalso. no_such_call.
Qed.

(** Without conflicting flags both conversions return, and the strategy
    is the one the recreate flags ask for. *)
Lemma conversions_return {O} `{StrategyFlags O} (options : O) :
  ~ conflicting_flags options ->
  exists strategy do_build,
    convergence_strategy_from_opts options = Ret strategy
    /\ build_action_from_opts options = Ret do_build
    /\ follows_flags (opt_force_recreate options) (opt_no_recreate options) strategy.
Proof.
  unfold conflicting_flags, convergence_strategy_from_opts, build_action_from_opts,
    follows_flags.
  intros Hnc.
  destruct (opt_force_recreate options), (opt_no_recreate options);
    try (exfalso; apply Hnc; left; split; reflexivity);
    destruct (opt_build options), (opt_no_build options);
    try (exfalso; apply Hnc; right; split; reflexivity);
    simpl; do 2 eexists; (split; [reflexivity |]); (split; [reflexivity |]);
    repeat split; congruence.
Qed.

(** Without conflicting flags the first thing the block of [up] does is to
    call [project.up], with the strategy the recreate flags ask for. *)
Lemma up_body_plans (env : Env) (self : TopLevelCommand) (options : UpOptions.t)
    (timeout : Z) (history : list Call) :
  ~ conflicting_flags options ->
  exists args made,
    follows_flags (UpOptions.force_recreate options) (UpOptions.no_recreate options)
      (up_strategy args)
    /\ snd (execute env history (up_body self options timeout)) =
         history ++ project_up args :: made.
Proof.
  intros Hnc.
  destruct (conversions_return options Hnc) as (strategy & do_build & Es & Eb & Hf).
  unfold up_body. rewrite Es. simpl. rewrite Eb. simpl.
  match goal with
  | |- context [execute env (history ++ [project_up ?a]) ?p] =>
      destruct (execute_extends env p (history ++ [project_up a])) as [made E];
      exists a, made
  end.
  split; [exact Hf |]. rewrite E, <- app_assoc. reflexivity.
Qed.

(** C4.  Without conflicting flags [create] calls [project.create], and
    [up], once its [--timeout] is converted and unless [-d] and
    [--abort-on-container-exit] are both set, calls [project.up] right after
    the installation of the signal handler; the strategy they pass is the
    one the flags ask for: [always] with force-recreate, [never] with
    no-recreate, [changed] with neither.  And whatever the environment
    does, every [project.up] call made by [up] and every [project.create]
    call made by [create] carries that strategy. *)
Theorem strategy_passed_to_planning
    (DEFAULT_TIMEOUT : Z) (env : Env) (self : TopLevelCommand)
    (up_options : UpOptions.t) (create_options : CreateOptions.t) :
  (forall args,
      In (project_up args) (snd (execute env [] (up DEFAULT_TIMEOUT self up_options))) ->
      follows_flags (UpOptions.force_recreate up_options)
        (UpOptions.no_recreate up_options) (up_strategy args))
  /\ (forall service_names strategy do_build,
        In (project_create service_names strategy do_build)
           (snd (execute env [] (create self create_options))) ->
        follows_flags (CreateOptions.force_recreate create_options)
          (CreateOptions.no_recreate create_options) strategy)
  /\ (~ conflicting_flags up_options ->
      forall timeout,
        int_timeout_or_default DEFAULT_TIMEOUT (UpOptions.timeout up_options) = Ret timeout ->
        UpOptions.d up_options && UpOptions.abort_on_container_exit up_options = false ->
        (UpOptions.d up_options = false ->
         env [] set_signal_handler_to_shutdown = Returns tt) ->
        exists args made,
          follows_flags (UpOptions.force_recreate up_options)
            (UpOptions.no_recreate up_options) (up_strategy args)
          /\ snd (execute env [] (up DEFAULT_TIMEOUT self up_options)) =
               (if UpOptions.d up_options then [] else [set_signal_handler_to_shutdown])
               ++ project_up args :: made)
  /\ (~ conflicting_flags create_options ->
      exists strategy do_build,
        follows_flags (CreateOptions.force_recreate create_options)
          (CreateOptions.no_recreate create_options) strategy
        /\ snd (execute env [] (create self create_options)) =
             [project_create (CreateOptions.SERVICE create_options) strategy do_build]).
Proof.
  split; [| split; [| split]].
  - intros args Hin.
    apply execute_may_call in Hin. destruct Hin as [[] | Hc].
    unfold up in Hc. apply may_call_bind in Hc.
    destruct Hc as [Hc | [timeout [_ Hc]]];
      [now apply int_timeout_or_default_no_call in Hc |].
    destruct (UpOptions.d up_options && UpOptions.abort_on_container_exit up_options);
      [contradiction |].
    unfold up_shutdown_context in Hc.
    destruct (UpOptions.d up_options); [now apply up_body_strategy in Hc |].
    simpl in Hc. destruct Hc as [Hc | [r Hc]]; [discriminate Hc |].
    destruct r as [[] | e]; simpl in Hc; [| contradiction].
    apply may_call_try_except in Hc.
    destruct Hc as [Hc | [e [h [Eh Hc]]]].
    + apply may_call_try_except in Hc.
      destruct Hc as [Hc | [e [h [Eh Hc]]]]; [now apply up_body_strategy in Hc |].
      destruct e; simpl in Eh; try discriminate Eh.
      inversion Eh; subst; simpl in Hc. exfalso. no_such_call.
    + destruct e; simpl in Eh; try discriminate Eh.
      inversion Eh; subst; simpl in Hc. exfalso. no_such_call.
  - intros service_names strategy do_build Hin.
    apply execute_may_call in Hin. destruct Hin as [[] | Hc].
    unfold create in Hc. apply may_call_bind in Hc.
    destruct Hc as [Hc | [strategy' [Hs Hc]]];
      [now apply convergence_strategy_no_call in Hc |].
    apply convergence_strategy_may_return in Hs.
    apply may_call_bind in Hc.
    destruct Hc as [Hc | [do_build' [_ Hc]]];
      [now apply build_action_no_call in Hc |].
    simpl in Hc. destruct Hc as [Hc | [r Hc]].
    + inversion Hc; subst. exact Hs.
    + destruct r; simpl in Hc; contradiction.
  - intros Hnc timeout Et Hda Henv.
    unfold up. rewrite Et. simpl. rewrite Hda.
    unfold up_shutdown_context.
    destruct (UpOptions.d up_options) eqn:Ed.
    + destruct (up_body_plans env self up_options timeout [] Hnc)
        as (args & made & Hf & E).
      exists args, made. split; [exact Hf | exact E].
    + simpl. rewrite (Henv eq_refl). simpl.
      destruct (up_body_plans env self up_options timeout
                  [set_signal_handler_to_shutdown] Hnc)
        as (args & made & Hf & E).
      match goal with
      | |- context [execute env ?h (try_except (try_except ?b ?h1) ?h2)] =>
          destruct (execute_try_except_extends env (try_except b h1) h2 h)
            as [made2 E2];
          destruct (execute_try_except_extends env b h1 h) as [made1 E1]
      end.
      exists args, (made ++ made1 ++ made2). split; [exact Hf |].
      rewrite E2, E1, E. simpl. rewrite <- !app_assoc. reflexivity.
  - intros Hnc.
    destruct (conversions_return create_options Hnc)
      as (strategy & do_build & Es & Eb & Hf).
    exists strategy, do_build. split; [exact Hf |].
    unfold create. rewrite Es. simpl. rewrite Eb. simpl.
    destruct (env [] _); reflexivity.
Qed.

Lemma strategy_passed_to_planning_witness :
  plans_with true false ConvergenceStrategy.always
  /\ plans_with false true ConvergenceStrategy.never
  /\ plans_with false false ConvergenceStrategy.changed
  /\ follows_flags true false ConvergenceStrategy.always.
Proof.
  assert (Hnu : forall d force_recreate no_recreate,
            force_recreate && no_recreate = false ->
            ~ conflicting_flags (up_with d force_recreate no_recreate false None)).
  { intros d f n Hfn [[Hf Hn] | [Hb _]]; simpl in *; [| discriminate Hb].
    rewrite Hf, Hn in Hfn. discriminate Hfn. }
  assert (Hncr : forall force_recreate no_recreate,
            force_recreate && no_recreate = false ->
            ~ conflicting_flags (create_with force_recreate no_recreate false false)).
  { intros f n Hfn [[Hf Hn] | [Hb _]]; simpl in *; [| discriminate Hb].
    rewrite Hf, Hn in Hfn. discriminate Hfn. }
  assert (H : forall force_recreate no_recreate strategy,
            force_recreate && no_recreate = false ->
            (forall s, follows_flags force_recreate no_recreate s -> s = strategy) ->
            plans_with force_recreate no_recreate strategy).
  { intros f n strategy Hfn Hs. split; [| split].
    - destruct (strategy_passed_to_planning 10%Z quiet a_command
                  (up_with false f n false None) (create_with f n false false))
        as (_ & _ & Hup & _).
      destruct (Hup (Hnu false f n Hfn) 10%Z eq_refl eq_refl (fun _ => eq_refl))
        as (args & made & Hf & E).
      exists args, made. split; [exact (Hs _ Hf) | exact E].
    - destruct (strategy_passed_to_planning 10%Z quiet a_command
                  (up_with true f n false None) (create_with f n false false))
        as (_ & _ & Hup & _).
      destruct (Hup (Hnu true f n Hfn) 10%Z eq_refl eq_refl
                  (fun E : true = false => match Bool.diff_true_false E with end))
        as (args & made & Hf & E).
      exists args, made. split; [exact (Hs _ Hf) | exact E].
    - destruct (strategy_passed_to_planning 10%Z quiet a_command
                  (up_with false f n false None) (create_with f n false false))
        as (_ & _ & _ & Hcreate).
      destruct (Hcreate (Hncr f n Hfn)) as (strategy' & do_build & Hf & E).
      exists do_build. rewrite <- (Hs _ Hf). exact E. }
  split; [| split; [| split]].
  - apply H; [reflexivity |]. intros s (Hs & _ & _). exact (Hs eq_refl).
  - apply H; [reflexivity |]. intros s (_ & Hs & _). exact (Hs eq_refl).
  - apply H; [reflexivity |]. intros s (_ & _ & Hs). exact (Hs eq_refl eq_refl).
  - assert (Hin : In (project_up
                        {| up_service_names := ["web"]; up_start_deps := true;
                           up_strategy := ConvergenceStrategy.always;
                           up_do_build := Some BuildAction.none;
                           up_timeout := Some 10%Z;
                           up_detached := Some true;
                           up_remove_orphans := Some false |})
      (snd (execute quiet [] (up 10%Z a_command (up_with true true false false None))))).
    { left. reflexivity. }
    exact (proj1 (strategy_passed_to_planning 10%Z quiet a_command
                    (up_with true true false false None)
                    (create_with false false false false)) _ Hin).
Defined.

(** ** Exit codes *)

Lemma main_generic_failure (env : Env) (history : list Call) (e : exn) :
  generic_failure e = true ->
  (forall msg, env history (log_error msg) = Returns tt) ->
  exists msg,
    execute env history (main (Raise e)) =
      (Raised (SystemExit (Some 1%Z)), history ++ [log_error msg]).
Proof.
  intros He Hlog.
  destruct e; try discriminate He; simpl; rewrite Hlog; simpl; eauto.
Qed.

(** [main] lets [sys.exit] through. *)
Lemma main_system_exit (env : Env) (history : list Call) (command : Prog unit) code trace :
  execute env history command = (Raised (SystemExit code), trace) ->
  execute env history (main command) = (Raised (SystemExit code), trace).
Proof.
  intros E. unfold main. rewrite execute_try_except, E. reflexivity.
Qed.

(** ** Interrupts during an attached [up] *)

Lemma up_attached_execute (DEFAULT_TIMEOUT : Z) (env : Env) (self : TopLevelCommand)
    (options : UpOptions.t) (timeout : Z) :
  UpOptions.d options = false ->
  int_timeout_or_default DEFAULT_TIMEOUT (UpOptions.timeout options) = Ret timeout ->
  env [] set_signal_handler_to_shutdown = Returns tt ->
  execute env [] (up DEFAULT_TIMEOUT self options) =
  execute env [set_signal_handler_to_shutdown]
    (try_except
       (try_except (up_body self options timeout)
          (except_ShutdownException
             (call (py_print "Gracefully stopping... (press Ctrl+C again to force)") ;;
              call (project_stop (UpOptions.SERVICE options) timeout))))
       (except_ShutdownException
          (call (project_kill (UpOptions.SERVICE options)) ;;
           sys_exit (Some 2%Z)))).
Proof.
  intros Hd Et Henv. unfold up, up_shutdown_context. rewrite Et, Hd. simpl.
  rewrite Henv. reflexivity.
Qed.

(** C2.  An attached [up] whose [--timeout] converted: when a first
    interrupt ends the block of the [with] statement, [up] announces the
    graceful stop and calls [project.stop] once, on the targeted services
    with the timeout; if that call returns, [up] returns.  When a second
    interrupt ends that [project.stop], [up] calls [project.kill] on the same
    services and leaves through [sys.exit(2)], which [main] lets through: the
    process exits with 2, while the errors [main] reports (user,
    configuration, build, pull) exit with 1. *)
Theorem up_second_interrupt_forces_exit
    (DEFAULT_TIMEOUT : Z) (env : Env) (self : TopLevelCommand)
    (options : UpOptions.t) (timeout : Z) (interrupted : list Call) :
  let service_names := UpOptions.SERVICE options in
  let announce := py_print "Gracefully stopping... (press Ctrl+C again to force)" in
  let stopping := interrupted ++ [announce; project_stop service_names timeout] in
  UpOptions.d options = false ->
  int_timeout_or_default DEFAULT_TIMEOUT (UpOptions.timeout options) = Ret timeout ->
  env [] set_signal_handler_to_shutdown = Returns tt ->
  execute env [set_signal_handler_to_shutdown] (up_body self options timeout) =
    (Raised ShutdownException, interrupted) ->
  env interrupted announce = Returns tt ->
  (exists outcome made,
      execute env [] (up DEFAULT_TIMEOUT self options) = (outcome, stopping ++ made))
  /\ (env (interrupted ++ [announce]) (project_stop service_names timeout) = Returns tt ->
      execute env [] (up DEFAULT_TIMEOUT self options) = (Returned tt, stopping))
  /\ (env (interrupted ++ [announce]) (project_stop service_names timeout)
        = Throws ShutdownException ->
      env stopping (project_kill service_names) = Returns tt ->
      execute env [] (main (up DEFAULT_TIMEOUT self options)) =
        (Raised (SystemExit (Some 2%Z)), stopping ++ [project_kill service_names])
      /\ process_exit_code
           (fst (execute env [] (main (up DEFAULT_TIMEOUT self options)))) = 2%Z
      /\ forall (env' : Env) history e,
           generic_failure e = true ->
           (forall msg, env' history (log_error msg) = Returns tt) ->
           process_exit_code (fst (execute env' history (main (Raise e)))) = 1%Z).
Proof.
  intros service_names announce stopping Hd Et Henv Hbody Hannounce.
  subst service_names announce stopping.
  pose proof (up_attached_execute DEFAULT_TIMEOUT env self options timeout Hd Et Henv) as Eup.
  rewrite !execute_try_except, Hbody in Eup. simpl in Eup.
  rewrite Hannounce in Eup. simpl in Eup.
  split; [| split].
  - rewrite Eup.
    destruct (env _ (project_stop _ _)) as [[] | e]; simpl.
    + exists (Returned tt), []. now rewrite app_nil_r, <- app_assoc.
    + destruct e; simpl;
        try (eexists _, []; rewrite app_nil_r, <- app_assoc; reflexivity).
      destruct (env _ (project_kill _)) as [[] | e]; simpl;
        eexists _, [_]; rewrite <- !app_assoc; reflexivity.
  - intros Hstop. rewrite Eup, Hstop. simpl. now rewrite <- app_assoc.
  - intros Hstop Hkill.
    assert (E : execute env [] (up DEFAULT_TIMEOUT self options) =
                (Raised (SystemExit (Some 2%Z)),
                 (interrupted ++
                    [py_print "Gracefully stopping... (press Ctrl+C again to force)";
                     project_stop (UpOptions.SERVICE options) timeout])
                 ++ [project_kill (UpOptions.SERVICE options)])).
    { rewrite Eup, Hstop. simpl.
      rewrite <- (app_assoc interrupted [_] [_]). simpl.
      rewrite Hkill. simpl. reflexivity. }
    split; [now apply main_system_exit |].
    split.
    + rewrite (main_system_exit _ _ _ _ _ E). reflexivity.
    + intros env' history e He Hlog.
      destruct (main_generic_failure env' history e He Hlog) as [msg Em].
      rewrite Em. reflexivity.
Qed.

Lemma up_second_interrupt_forces_exit_witness :
  process_exit_code
    (fst (execute (interrupted_at [4; 6]%nat quiet) []
            (main (up 10%Z a_command (up_with false false false false (Some "5"))))))
  = 2%Z.
Proof.
  destruct (up_second_interrupt_forces_exit 10%Z (interrupted_at [4; 6]%nat quiet)
              a_command (up_with false false false false (Some "5")) 5%Z
              up_interrupted_history
              eq_refl eq_refl eq_refl eq_refl eq_refl) as (_ & _ & H).
  destruct (H eq_refl eq_refl) as (_ & E & _). exact E.
Defined.

(** ** Cascade stop *)

(** C3.  An attached [up] with [--abort-on-container-exit]: once the log
    printer's [run] has returned and the abort has been announced, [up]
    calls [project.stop] on the targeted services with the timeout, before
    anything else and before it returns; if that call returns, [up] returns
    and has made no further call. *)
Theorem up_cascade_stop_issues_stop
    (DEFAULT_TIMEOUT : Z) (env : Env) (self : TopLevelCommand)
    (options : UpOptions.t) (timeout : Z)
    (strategy : ConvergenceStrategy.t) (do_build : BuildAction.t)
    (to_attach : list Container.t) (stream : EventStream) :
  let service_names := UpOptions.SERVICE options in
  let args :=
    {| up_service_names := service_names;
       up_start_deps := negb (UpOptions.no_deps options);
       up_strategy := strategy;
       up_do_build := Some do_build;
       up_timeout := Some timeout;
       up_detached := Some false;
       up_remove_orphans := Some (UpOptions.remove_orphans options) |} in
  let log_printer :=
    LogPrinter.mk
      (filter_containers_to_service_names to_attach service_names)
      (build_log_presenters (Project.service_names (project self))
         (UpOptions.no_color options))
      stream true
      {| la_follow := true; la_tail := None; la_timestamps := None |} in
  let attaching :=
    py_print ("Attaching to " ++ list_containers (LogPrinter.containers log_printer)) in
  let aborting := py_print "Aborting on container exit..." in
  let exited :=
    [set_signal_handler_to_shutdown; project_up args;
     project_events (Some service_names); attaching;
     log_printer_run log_printer; aborting] in
  UpOptions.d options = false ->
  UpOptions.abort_on_container_exit options = true ->
  int_timeout_or_default DEFAULT_TIMEOUT (UpOptions.timeout options) = Ret timeout ->
  convergence_strategy_from_opts options = Ret strategy ->
  build_action_from_opts options = Ret do_build ->
  answers env []
    [ set_signal_handler_to_shutdown ~> Returns tt;
      project_up args ~> Returns to_attach;
      project_events (Some service_names) ~> Returns stream;
      attaching ~> Returns tt;
      log_printer_run log_printer ~> Returns tt;
      aborting ~> Returns tt ] ->
  (exists outcome made,
      execute env [] (up DEFAULT_TIMEOUT self options) =
        (outcome, exited ++ [project_stop service_names timeout] ++ made))
  /\ (env exited (project_stop service_names timeout) = Returns tt ->
      execute env [] (up DEFAULT_TIMEOUT self options) =
        (Returned tt, exited ++ [project_stop service_names timeout])).
Proof.
  intros service_names args log_printer attaching aborting exited
    Hd Ha Et Hs Hb Hans.
  subst service_names args log_printer attaching aborting exited.
  simpl in Hans. destruct Hans as (H1 & H2 & H3 & H4 & H5 & H6 & _).
  rewrite (up_attached_execute DEFAULT_TIMEOUT env self options timeout Hd Et H1).
  match goal with
  | |- (exists outcome made, _ = (outcome, ?exited ++ [?stop] ++ made)) /\ _ =>
      assert (Ebody : exists outcome,
        execute env [set_signal_handler_to_shutdown] (up_body self options timeout) =
          (outcome, exited ++ [stop])
        /\ (env exited stop = Returns tt -> outcome = Returned tt))
  end.
  { unfold up_body. rewrite Hs, Hb, Hd, Ha. simpl.
    rewrite H2. simpl. rewrite H3. simpl. rewrite H4. simpl.
    rewrite H5. simpl. rewrite H6. simpl.
    destruct (env _ (project_stop _ _)) as [[] | e]; simpl.
    - exists (Returned tt). split; reflexivity.
    - exists (Raised e). split; [reflexivity | discriminate]. }
  destruct Ebody as [outcome [Ebody Hreturned]].
  split.
  - destruct (execute_try_except_extends env
                (try_except (up_body self options timeout)
                   (except_ShutdownException
                      (call (py_print "Gracefully stopping... (press Ctrl+C again to force)") ;;
                       call (project_stop (UpOptions.SERVICE options) timeout))))
                (except_ShutdownException
                   (call (project_kill (UpOptions.SERVICE options)) ;;
                    sys_exit (Some 2%Z)))
                [set_signal_handler_to_shutdown]) as [outer Eouter].
    destruct (execute_try_except_extends env (up_body self options timeout)
                (except_ShutdownException
                   (call (py_print "Gracefully stopping... (press Ctrl+C again to force)") ;;
                    call (project_stop (UpOptions.SERVICE options) timeout)))
                [set_signal_handler_to_shutdown]) as [inner Einner].
    rewrite Einner, Ebody in Eouter. cbn [snd] in Eouter.
    eexists _, (inner ++ outer).
    rewrite (surjective_pairing (execute _ _ _)), Eouter.
    rewrite <- !app_assoc. reflexivity.
  - intros Hstop. rewrite (Hreturned Hstop) in Ebody.
    rewrite !execute_try_except, Ebody. reflexivity.
Qed.

Lemma up_cascade_stop_issues_stop_witness :
  In (project_stop ["web"] 10%Z)
     (snd (execute quiet [] (up 10%Z a_command (up_with false false false true None)))).
Proof.
  destruct (up_cascade_stop_issues_stop 10%Z quiet a_command
              (up_with false false false true None) 10%Z
              ConvergenceStrategy.changed BuildAction.none
              [Container.mk "c0ffee" "web_1" "web"] 0%nat
              eq_refl eq_refl eq_refl eq_refl eq_refl) as [_ H].
  - simpl. repeat split.
  - rewrite (H eq_refl). apply in_or_app. right. left. reflexivity.
Defined.

(** ** Attached [exec] and [run] sessions *)

(** An attached one-off [run] whose session is ended by an interrupt goes
    on with [client.stop]: what follows depends on how that call ends. *)
Lemma run_one_off_container_interrupted (env : Env) (project : Project.t)
    (container_options : ContainerOptions) (service : Service.t)
    (options : RunOptions.t) (container : Container.t)
    (before created interrupted : list Call) :
  RunOptions.d options = false ->
  execute env before
    (create_one_off_container container_options project service options) =
    (Returned container, created) ->
  env created set_signal_handler_to_shutdown = Returns tt ->
  execute env (created ++ [set_signal_handler_to_shutdown])
    (run_one_off_session false service options container) =
    (Raised ShutdownException, interrupted) ->
  execute env before
    (run_one_off_container false container_options project service options) =
  match env interrupted (client_stop (Container.id container)) with
  | Returns _ =>
      execute env (interrupted ++ [client_stop (Container.id container)])
        (remove_container options container false ;; sys_exit (Some 1%Z))
  | Throws ShutdownException =>
      execute env (interrupted ++ [client_stop (Container.id container)])
        (call (client_kill (Container.id container)) ;;
         remove_container options container true ;;
         sys_exit (Some 2%Z))
  | Throws e => (Raised e, interrupted ++ [client_stop (Container.id container)])
  end.
Proof.
  intros Hd Hcreated Hhandler Hsession.
  unfold run_one_off_container. rewrite execute_bind, Hcreated, Hd.
  unfold run_one_off_attached.
  rewrite execute_bind, execute_call, Hhandler.
  rewrite execute_bind, !execute_try_except, Hsession.
  cbn [except_ShutdownException].
  rewrite execute_bind, execute_call.
  destruct (env interrupted (client_stop (Container.id container))) as [[] | e].
  - cbn [execute]. reflexivity.
  - destruct e; cbn [except_ShutdownException]; try reflexivity.
    rewrite !execute_bind.
    destruct (execute env _ (call _)) as [[[] | e] t']; [| reflexivity].
    rewrite !execute_bind.
    destruct (execute env t' (remove_container options container true))
      as [[[] | e] t'']; reflexivity.
Qed.

(** C5 (as amended).  An attached [exec] whose bridging ([pty.start]) has
    returned, or was ended by one interrupt, reads the exit status with
    [client.exec_inspect] and leaves through [sys.exit] with the [ExitCode]
    it read.  An attached one-off [run] whose bridging has returned reads
    the status with [container.wait], as its next call, removes the
    container if [--rm] was given, and leaves through [sys.exit] with that
    status.  [main] lets these through, so the process exits with the
    remote status.  An attached one-off [run] whose session is ended by one
    interrupt stops the container, removes it if [--rm] was given, and
    leaves through [sys.exit(1)], whatever the remote status. *)
Theorem attached_session_exit_code (env : Env) (self : TopLevelCommand) :
  (forall (options : ExecOptions.t) (index : Z) (service : Service.t)
          (container : Container.t) (exec_id : string) (info : ExecInfo),
      let tty := negb (ExecOptions.T options) in
      let bridged :=
        [project_get_service (ExecOptions.SERVICE options);
         service_get_container service index;
         container_create_exec container
           (ExecOptions.COMMAND options :: ExecOptions.ARGS options)
           {| ce_privileged := ExecOptions.privileged options;
              ce_user := ExecOptions.user options;
              ce_tty := tty; ce_stdin := tty |};
         set_signal_handler_to_shutdown;
         pty_start (ExecOperation exec_id tty) None] in
      ExecOptions.d options = false ->
      Py.int (ExecOptions.index options) = Some index ->
      answers env []
        [ project_get_service (ExecOptions.SERVICE options) ~> Returns service;
          service_get_container service index ~> Returns container;
          container_create_exec container
            (ExecOptions.COMMAND options :: ExecOptions.ARGS options)
            {| ce_privileged := ExecOptions.privileged options;
               ce_user := ExecOptions.user options;
               ce_tty := tty; ce_stdin := tty |} ~> Returns exec_id;
          set_signal_handler_to_shutdown ~> Returns tt;
          pty_start (ExecOperation exec_id tty) None ~> Returns tt;
          client_exec_inspect exec_id ~> Returns info ] ->
      execute env [] (main (exec_command false self options)) =
        (Raised (SystemExit (ExitCode info)), bridged ++ [client_exec_inspect exec_id])
      /\ forall status,
           ExitCode info = Some status ->
           process_exit_code
             (fst (execute env [] (main (exec_command false self options)))) = status)
  /\
  (forall (options : ExecOptions.t) (index : Z) (service : Service.t)
          (container : Container.t) (exec_id : string) (info : ExecInfo),
      let tty := negb (ExecOptions.T options) in
      let bridged :=
        [project_get_service (ExecOptions.SERVICE options);
         service_get_container service index;
         container_create_exec container
           (ExecOptions.COMMAND options :: ExecOptions.ARGS options)
           {| ce_privileged := ExecOptions.privileged options;
              ce_user := ExecOptions.user options;
              ce_tty := tty; ce_stdin := tty |};
         set_signal_handler_to_shutdown;
         pty_start (ExecOperation exec_id tty) None] in
      ExecOptions.d options = false ->
      Py.int (ExecOptions.index options) = Some index ->
      answers env []
        [ project_get_service (ExecOptions.SERVICE options) ~> Returns service;
          service_get_container service index ~> Returns container;
          container_create_exec container
            (ExecOptions.COMMAND options :: ExecOptions.ARGS options)
            {| ce_privileged := ExecOptions.privileged options;
               ce_user := ExecOptions.user options;
               ce_tty := tty; ce_stdin := tty |} ~> Returns exec_id;
          set_signal_handler_to_shutdown ~> Returns tt;
          pty_start (ExecOperation exec_id tty) None ~> Throws ShutdownException;
          log_info "received shutdown exception: closing" ~> Returns tt;
          client_exec_inspect exec_id ~> Returns info ] ->
      execute env [] (main (exec_command false self options)) =
        (Raised (SystemExit (ExitCode info)),
         bridged ++ [log_info "received shutdown exception: closing";
                     client_exec_inspect exec_id])
      /\ forall status,
           ExitCode info = Some status ->
           process_exit_code
             (fst (execute env [] (main (exec_command false self options)))) = status)
  /\
  (forall (container_options : ContainerOptions) (service : Service.t)
          (options : RunOptions.t) (container : Container.t)
          (sockets : Sockets) (status : Z) (before created : list Call),
      let operation :=
        RunOperation (Container.id container) (negb (RunOptions.T options)) false in
      let bridged :=
        [set_signal_handler_to_shutdown;
         pty_sockets operation;
         service_start_container service container;
         pty_start operation (Some sockets)] in
      let removal :=
        if RunOptions.rm options
        then [client_remove_container (Container.id container) true] else [] in
      RunOptions.d options = false ->
      execute env before
        (create_one_off_container container_options (project self) service options) =
        (Returned container, created) ->
      answers env created
        [ set_signal_handler_to_shutdown ~> Returns tt;
          pty_sockets operation ~> Returns sockets;
          service_start_container service container ~> Returns tt;
          pty_start operation (Some sockets) ~> Returns tt;
          container_wait container ~> Returns status ] ->
      (RunOptions.rm options = true ->
       env (created ++ bridged ++ [container_wait container])
         (client_remove_container (Container.id container) true) = Returns tt) ->
      execute env before
        (main (run_one_off_container false container_options (project self)
                 service options)) =
        (Raised (SystemExit (Some status)),
         created ++ bridged ++ [container_wait container] ++ removal)
      /\ process_exit_code
           (fst (execute env before
                   (main (run_one_off_container false container_options (project self)
                            service options)))) = status)
  /\
  (forall (container_options : ContainerOptions) (service : Service.t)
          (options : RunOptions.t) (container : Container.t)
          (before created interrupted : list Call),
      let id := Container.id container in
      let removal :=
        if RunOptions.rm options then [client_remove_container id true] else [] in
      RunOptions.d options = false ->
      execute env before
        (create_one_off_container container_options (project self) service options) =
        (Returned container, created) ->
      env created set_signal_handler_to_shutdown = Returns tt ->
      execute env (created ++ [set_signal_handler_to_shutdown])
        (run_one_off_session false service options container) =
        (Raised ShutdownException, interrupted) ->
      env interrupted (client_stop id) = Returns tt ->
      (RunOptions.rm options = true ->
       env (interrupted ++ [client_stop id]) (client_remove_container id true)
         = Returns tt) ->
      execute env before
        (main (run_one_off_container false container_options (project self)
                 service options)) =
        (Raised (SystemExit (Some 1%Z)), interrupted ++ [client_stop id] ++ removal)
      /\ process_exit_code
           (fst (execute env before
                   (main (run_one_off_container false container_options (project self)
                            service options)))) = 1%Z).
Proof.
  split; [| split; [| split]].
  - intros options index service container exec_id info tty bridged Hd Hindex Hans.
    subst tty bridged. simpl in Hans.
    destruct Hans as (H1 & H2 & H3 & H4 & H5 & H6 & _).
    assert (E : execute env [] (exec_command false self options) =
      (Raised (SystemExit (ExitCode info)),
       [project_get_service (ExecOptions.SERVICE options);
        service_get_container service index;
        container_create_exec container
          (ExecOptions.COMMAND options :: ExecOptions.ARGS options)
          {| ce_privileged := ExecOptions.privileged options;
             ce_user := ExecOptions.user options;
             ce_tty := negb (ExecOptions.T options);
             ce_stdin := negb (ExecOptions.T options) |};
        set_signal_handler_to_shutdown;
        pty_start (ExecOperation exec_id (negb (ExecOptions.T options))) None]
       ++ [client_exec_inspect exec_id])).
    { unfold exec_command, int_. rewrite Hindex, Hd. simpl.
      rewrite H1. simpl. rewrite H2. simpl. rewrite H3. simpl.
      rewrite H4. simpl. rewrite H5. simpl. rewrite H6. reflexivity. }
    split; [now apply main_system_exit |].
    intros status Hs. rewrite (main_system_exit _ _ _ _ _ E), Hs. reflexivity.
  - intros options index service container exec_id info tty bridged Hd Hindex Hans.
    subst tty bridged. simpl in Hans.
    destruct Hans as (H1 & H2 & H3 & H4 & H5 & H6 & H7 & _).
    assert (E : execute env [] (exec_command false self options) =
      (Raised (SystemExit (ExitCode info)),
       [project_get_service (ExecOptions.SERVICE options);
        service_get_container service index;
        container_create_exec container
          (ExecOptions.COMMAND options :: ExecOptions.ARGS options)
          {| ce_privileged := ExecOptions.privileged options;
             ce_user := ExecOptions.user options;
             ce_tty := negb (ExecOptions.T options);
             ce_stdin := negb (ExecOptions.T options) |};
        set_signal_handler_to_shutdown;
        pty_start (ExecOperation exec_id (negb (ExecOptions.T options))) None]
       ++ [log_info "received shutdown exception: closing";
           client_exec_inspect exec_id])).
    { unfold exec_command, int_. rewrite Hindex, Hd. simpl.
      rewrite H1. simpl. rewrite H2. simpl. rewrite H3. simpl.
      rewrite H4. simpl. rewrite H5. simpl. rewrite H6. simpl.
      rewrite H7. reflexivity. }
    split; [now apply main_system_exit |].
    intros status Hs. rewrite (main_system_exit _ _ _ _ _ E), Hs. reflexivity.
  - intros container_options service options container sockets status before created
      operation bridged removal Hd Hcreated Hans Hremove.
    subst operation bridged removal. simpl in Hans.
    destruct Hans as (H1 & H2 & H3 & H4 & H5 & _).
    match goal with
    | |- execute _ _ (main ?p) = (?o, ?t) /\ _ =>
        assert (E : execute env before p = (o, t))
    end.
    { unfold run_one_off_container. rewrite execute_bind, Hcreated, Hd.
      unfold run_one_off_attached, run_one_off_session, remove_container. simpl.
      rewrite H1. simpl. rewrite H2. simpl. rewrite H3. simpl. rewrite H4. simpl.
      rewrite H5. simpl.
      destruct (RunOptions.rm options); simpl.
      - rewrite <- !app_assoc in *. simpl in *. rewrite (Hremove eq_refl). simpl.
        reflexivity.
      - rewrite <- !app_assoc. reflexivity. }
    split; [now apply main_system_exit |].
    rewrite (main_system_exit _ _ _ _ _ E). reflexivity.
  - intros container_options service options container before created interrupted
      id removal Hd Hcreated Hhandler Hsession Hstop Hremove.
    subst id removal.
    match goal with
    | |- execute _ _ (main ?p) = (?o, ?t) /\ _ =>
        assert (E : execute env before p = (o, t))
    end.
    { rewrite (run_one_off_container_interrupted env (project self) container_options
                 service options container before created interrupted
                 Hd Hcreated Hhandler Hsession), Hstop.
      unfold remove_container. simpl.
      destruct (RunOptions.rm options); simpl.
      - rewrite (Hremove eq_refl). simpl. now rewrite <- !app_assoc.
      - reflexivity. }
    split; [now apply main_system_exit |].
    rewrite (main_system_exit _ _ _ _ _ E). reflexivity.
Qed.

Lemma attached_session_exit_code_witness :
  process_exit_code
    (fst (execute quiet [] (main (exec_command false a_command (exec_with false false)))))
  = 7%Z
  /\ process_exit_code
       (fst (execute (interrupted_at [4]%nat quiet) []
               (main (exec_command false a_command (exec_with false false)))))
     = 7%Z
  /\ process_exit_code
       (fst (execute quiet []
               (main (run_one_off_container false one_off_options (project a_command)
                        (Service.mk "web" None) (run_with false false true)))))
     = 3%Z
  /\ process_exit_code
       (fst (execute (interrupted_at [6]%nat quiet) []
               (main (run_one_off_container false one_off_options (project a_command)
                        (Service.mk "web" None) (run_with false false true)))))
     = 1%Z.
Proof.
  split; [| split; [| split]].
  - destruct (attached_session_exit_code quiet a_command) as (Hexec & _).
    destruct (Hexec (exec_with false false) 1%Z (Service.mk "web" None)
                (Container.mk "c0ffee" "web_1" "web") "e4ec" {| ExitCode := Some 7%Z |}
                eq_refl eq_refl) as [_ H].
    + simpl. repeat split.
    + exact (H 7%Z eq_refl).
  - destruct (attached_session_exit_code (interrupted_at [4]%nat quiet) a_command)
      as (_ & Hexec & _).
    destruct (Hexec (exec_with false false) 1%Z (Service.mk "web" None)
                (Container.mk "c0ffee" "web_1" "web") "e4ec" {| ExitCode := Some 7%Z |}
                eq_refl eq_refl) as [_ H].
    + simpl. repeat split.
    + exact (H 7%Z eq_refl).
  - destruct (attached_session_exit_code quiet a_command) as (_ & _ & Hrun & _).
    destruct (Hrun one_off_options (Service.mk "web" None) (run_with false false true)
                (Container.mk "0ddba11" "web_run_1" "web") 0%nat 3%Z
                [] run_created_history eq_refl eq_refl) as [_ H].
    + simpl. repeat split.
    + intros _. reflexivity.
    + exact H.
  - destruct (attached_session_exit_code (interrupted_at [6]%nat quiet) a_command)
      as (_ & _ & _ & Hrun).
    destruct (Hrun one_off_options (Service.mk "web" None) (run_with false false true)
                (Container.mk "0ddba11" "web_run_1" "web")
                [] run_created_history run_interrupted_history
                eq_refl eq_refl eq_refl eq_refl eq_refl (fun _ => eq_refl)) as [_ H].
    exact H.
Defined.

(** C5 as stated fails: [run --rm web sh] attached, with one interrupt
    during [pty.start].  Nothing is killed and the process does not leave
    with the forced-shutdown code; it stops and removes the container and
    exits with 1, while the status [container.wait] would report is 3 and
    is never asked for. *)
Lemma run_interrupted_once_exits_1 :
  let env := interrupted_at [8]%nat quiet in
  let command := main (run false a_command (run_with false false true)) in
  let container := Container.mk "0ddba11" "web_run_1" "web" in
  execute env [] command =
    (Raised (SystemExit (Some 1%Z)),
     run_bridged_history
       ++ [client_stop "0ddba11"; client_remove_container "0ddba11" true])
  /\ last run_bridged_history project_initialize =
       pty_start (RunOperation "0ddba11" true false) (Some 0%nat)
  /\ ~ In (client_kill "0ddba11") (snd (execute env [] command))
  /\ ~ In (container_wait container) (snd (execute env [] command))
  /\ env (snd (execute env [] command)) (container_wait container) = Returns 3%Z
  /\ process_exit_code (fst (execute env [] command)) = 1%Z.
Proof.
  repeat split; try reflexivity;
    intros H; vm_compute in H; repeat destruct H as [H | H]; try discriminate H; auto.
Qed.

(** C6 (as amended).  An attached one-off [run] whose container was
    created: when a first interrupt ends the bridged session, [run] stops the
    container, removes it if [--rm] was given, and leaves through
    [sys.exit(1)], the code [main] uses for the errors it reports.  When a
    second interrupt ends that stop, [run] kills the container, removes it
    if [--rm] was given, and leaves through [sys.exit(2)].  When the stop
    has returned and a second interrupt ends the removal [--rm] asked for,
    nothing is killed: [main] logs that it is aborting and leaves through
    [sys.exit(1)]. *)
Theorem run_interrupts (env : Env) (self : TopLevelCommand)
    (container_options : ContainerOptions) (service : Service.t)
    (options : RunOptions.t) (container : Container.t)
    (before created interrupted : list Call) :
  let id := Container.id container in
  let removal :=
    if RunOptions.rm options then [client_remove_container id true] else [] in
  let command :=
    main (run_one_off_container false container_options (project self)
            service options) in
  RunOptions.d options = false ->
  execute env before
    (create_one_off_container container_options (project self) service options) =
    (Returned container, created) ->
  env created set_signal_handler_to_shutdown = Returns tt ->
  execute env (created ++ [set_signal_handler_to_shutdown])
    (run_one_off_session false service options container) =
    (Raised ShutdownException, interrupted) ->
  (env interrupted (client_stop id) = Returns tt ->
   (RunOptions.rm options = true ->
    env (interrupted ++ [client_stop id]) (client_remove_container id true)
      = Returns tt) ->
   execute env before command =
     (Raised (SystemExit (Some 1%Z)), interrupted ++ [client_stop id] ++ removal)
   /\ process_exit_code (fst (execute env before command)) = 1%Z)
  /\ (env interrupted (client_stop id) = Throws ShutdownException ->
      env (interrupted ++ [client_stop id]) (client_kill id) = Returns tt ->
      (RunOptions.rm options = true ->
       env (interrupted ++ [client_stop id; client_kill id])
         (client_remove_container id true) = Returns tt) ->
      execute env before command =
        (Raised (SystemExit (Some 2%Z)),
         interrupted ++ [client_stop id; client_kill id] ++ removal)
      /\ process_exit_code (fst (execute env before command)) = 2%Z)
  /\ (env interrupted (client_stop id) = Returns tt ->
      RunOptions.rm options = true ->
      env (interrupted ++ [client_stop id]) (client_remove_container id true)
        = Throws ShutdownException ->
      env (interrupted ++ [client_stop id; client_remove_container id true])
        (log_error "Aborting.") = Returns tt ->
      execute env before command =
        (Raised (SystemExit (Some 1%Z)),
         interrupted ++ [client_stop id; client_remove_container id true;
                         log_error "Aborting."])
      /\ process_exit_code (fst (execute env before command)) = 1%Z)
  /\ (forall (env' : Env) history e,
        generic_failure e = true ->
        (forall msg, env' history (log_error msg) = Returns tt) ->
        process_exit_code (fst (execute env' history (main (Raise e)))) = 1%Z).
Proof.
  intros id removal command Hd Hcreated Hhandler Hsession.
  subst id removal command.
  pose proof (run_one_off_container_interrupted env (project self) container_options
                service options container before created interrupted
                Hd Hcreated Hhandler Hsession) as Estart.
  split; [| split; [| split]].
  - intros Hstop Hremove.
    match goal with
    | |- execute _ _ (main ?p) = (?o, ?t) /\ _ =>
        assert (E : execute env before p = (o, t))
    end.
    { rewrite Estart, Hstop. unfold remove_container. simpl.
      destruct (RunOptions.rm options); simpl.
      - rewrite (Hremove eq_refl). simpl. now rewrite <- !app_assoc.
      - reflexivity. }
    split; [now apply main_system_exit |].
    rewrite (main_system_exit _ _ _ _ _ E). reflexivity.
  - intros Hstop Hkill Hremove.
    match goal with
    | |- execute _ _ (main ?p) = (?o, ?t) /\ _ =>
        assert (E : execute env before p = (o, t))
    end.
    { rewrite Estart, Hstop. unfold remove_container. simpl.
      rewrite Hkill. simpl.
      destruct (RunOptions.rm options); simpl.
      - rewrite <- (app_assoc interrupted [_] [_]). simpl.
        rewrite (Hremove eq_refl). simpl. now rewrite <- !app_assoc.
      - now rewrite <- !app_assoc. }
    split; [now apply main_system_exit |].
    rewrite (main_system_exit _ _ _ _ _ E). reflexivity.
  - intros Hstop Hrm Hremove Hlog.
    match goal with
    | |- ?l = ?r /\ _ => assert (E : l = r)
    end.
    { unfold main. rewrite execute_try_except, Estart, Hstop.
      unfold remove_container. rewrite Hrm. simpl.
      rewrite Hremove. simpl.
      rewrite <- (app_assoc interrupted [_] [_]). simpl.
      rewrite Hlog. simpl. now rewrite <- !app_assoc. }
    split; [exact E |]. rewrite E. reflexivity.
  - intros env' history e He Hlog.
    destruct (main_generic_failure env' history e He Hlog) as [msg Em].
    rewrite Em. reflexivity.
Qed.

Lemma run_interrupts_witness :
  process_exit_code
    (fst (execute (interrupted_at [6]%nat quiet) []
            (main (run_one_off_container false one_off_options (project a_command)
                     (Service.mk "web" None) (run_with false false true)))))
  = 1%Z
  /\ process_exit_code
       (fst (execute (interrupted_at [6; 7]%nat quiet) []
               (main (run_one_off_container false one_off_options (project a_command)
                        (Service.mk "web" None) (run_with false false true)))))
     = 2%Z
  /\ execute (interrupted_at [6; 8]%nat quiet) []
       (main (run_one_off_container false one_off_options (project a_command)
                (Service.mk "web" None) (run_with false false true)))
     = (Raised (SystemExit (Some 1%Z)),
        run_interrupted_history
          ++ [client_stop "0ddba11"; client_remove_container "0ddba11" true;
              log_error "Aborting."]).
Proof.
  split; [| split].
  - destruct (run_interrupts (interrupted_at [6]%nat quiet) a_command
                one_off_options (Service.mk "web" None) (run_with false false true)
                (Container.mk "0ddba11" "web_run_1" "web")
                [] run_created_history run_interrupted_history
                eq_refl eq_refl eq_refl eq_refl) as (H & _).
    destruct (H eq_refl (fun _ => eq_refl)) as [_ E]. exact E.
  - destruct (run_interrupts (interrupted_at [6; 7]%nat quiet) a_command
                one_off_options (Service.mk "web" None) (run_with false false true)
                (Container.mk "0ddba11" "web_run_1" "web")
                [] run_created_history run_interrupted_history
                eq_refl eq_refl eq_refl eq_refl) as (_ & H & _).
    destruct (H eq_refl eq_refl (fun _ => eq_refl)) as [_ E]. exact E.
  - destruct (run_interrupts (interrupted_at [6; 8]%nat quiet) a_command
                one_off_options (Service.mk "web" None) (run_with false false true)
                (Container.mk "0ddba11" "web_run_1" "web")
                [] run_created_history run_interrupted_history
                eq_refl eq_refl eq_refl eq_refl) as (_ & _ & H & _).
    destruct (H eq_refl eq_refl eq_refl eq_refl) as [E _]. exact E.
Defined.

(** C6 as stated fails: [run --rm web sh] attached, with a first interrupt
    during [pty.start] and a second during the removal of the container.
    The container is stopped, never killed, and the process leaves with 1,
    not with the forced-shutdown code 2. *)
Lemma run_second_interrupt_during_removal :
  let env := interrupted_at [8; 10]%nat quiet in
  let command := main (run false a_command (run_with false false true)) in
  execute env [] command =
    (Raised (SystemExit (Some 1%Z)),
     run_bridged_history
       ++ [client_stop "0ddba11"; client_remove_container "0ddba11" true;
           log_error "Aborting."])
  /\ env run_bridged_history (client_stop "0ddba11") = Returns tt
  /\ env (run_bridged_history ++ [client_stop "0ddba11"])
       (client_remove_container "0ddba11" true) = Throws ShutdownException
  /\ ~ In (client_kill "0ddba11") (snd (execute env [] command))
  /\ process_exit_code (fst (execute env [] command)) = 1%Z
  /\ process_exit_code (fst (execute env [] command)) <> 2%Z.
Proof.
  repeat split; try reflexivity; try discriminate;
    intros H; vm_compute in H; repeat destruct H as [H | H]; try discriminate H; auto.
Qed.

(** ** Pseudo-terminal allocation *)

Ltac trace_calls :=
  repeat match goal with
    | H : False |- _ => contradiction
    | H : _ \/ _ |- _ => destruct H
    | H : exists r : Res _, _ |- _ =>
        let r := fresh "r" in destruct H as [r H]; destruct r; simpl in H
    | H : may_call (if ?b then _ else _) _ |- _ => destruct b; simpl in H
    | H : may_call (match ?o with Some _ => _ | None => _ end) _ |- _ =>
        destruct o; simpl in H
    | H : context [except_ShutdownException _ ?e] |- _ =>
        is_var e; destruct e; simpl in H
    | H : context [match ?e with
                   | KeyboardInterrupt => _ | ShutdownException => _
                   | UserError _ => _ | NoSuchService _ => _
                   | ConfigurationError _ => _ | BuildError _ _ => _
                   | StreamOutputError _ => _ | NeedsBuildError _ => _
                   | ConnectionError => _ | ValueError _ => _
                   | NameError _ => _ | SystemExit _ => _
                   | OtherError _ => _
                   end] |- _ =>
        is_var e; destruct e; simpl in H
    | H : _ = _ |- _ => discriminate H
    end.

Lemma build_container_options_execute (env : Env) (options : RunOptions.t)
    (detach : bool) (command : option command_value) (isatty : bool) history :
  (forall h, env h stdin_isatty = Returns isatty) ->
  exists container_options history',
    execute env history (build_container_options options detach command) =
      (Returned container_options, history')
    /\ co_tty container_options = negb detach && negb (RunOptions.T options) && isatty
    /\ (forall c, In c history' -> In c history \/ c = stdin_isatty).
Proof.
  intros Htty. unfold build_container_options.
  destruct detach; simpl.
  - eexists _, _. split; [reflexivity |]. split; [reflexivity | auto].
  - destruct (RunOptions.T options); simpl.
    + eexists _, _. split; [reflexivity |]. split; [reflexivity | auto].
    + rewrite Htty. simpl. eexists _, _. split; [reflexivity |].
      split; [now rewrite negb_involutive |].
      intros c Hc. apply in_app_or in Hc. destruct Hc as [Hc | [Hc | []]]; auto.
Qed.

Lemma run_one_off_container_creates (IS_WINDOWS_PLATFORM : bool)
    (container_options : ContainerOptions) (project : Project.t)
    (service : Service.t) (options : RunOptions.t) s quiet one_off co :
  may_call (run_one_off_container IS_WINDOWS_PLATFORM container_options project
              service options)
           (service_create_container s quiet one_off co) ->
  co = container_options.
Proof.
  unfold run_one_off_container, create_one_off_container, run_one_off_attached,
    run_one_off_session, remove_container.
  destruct IS_WINDOWS_PLATFORM, (RunOptions.no_deps options),
    (RunOptions.d options), (RunOptions.rm options); simpl; intros Hc;
    trace_calls; try congruence.
  all: try match goal with
    | H : context [Py.truthy_list ?l] |- _ => destruct l; simpl in H
    end; trace_calls; congruence.
Qed.

(** C7 (as amended).  [run] hands [service.create_container] a [tty]
    option that is true exactly when the run is not detached, [-T] was not
    given and standard input is a terminal.  [exec_command] hands
    [container.create_exec] (and, detached, [container.start_exec]) a [tty]
    that is true exactly when [-T] was not given, whether the session is
    detached or not and whatever standard input is. *)
Theorem tty_allocation (IS_WINDOWS_PLATFORM : bool) (env : Env)
    (self : TopLevelCommand) :
  (forall (options : RunOptions.t) (isatty : bool) service quiet one_off
          container_options,
      (forall history, env history stdin_isatty = Returns isatty) ->
      In (service_create_container service quiet one_off container_options)
         (snd (execute env [] (run IS_WINDOWS_PLATFORM self options))) ->
      (co_tty container_options = true <->
       RunOptions.d options = false /\ RunOptions.T options = false /\ isatty = true))
  /\
  (forall (options : ExecOptions.t) container command create_exec_options,
      In (container_create_exec container command create_exec_options)
         (snd (execute env [] (exec_command IS_WINDOWS_PLATFORM self options))) ->
      (ce_tty create_exec_options = true <-> ExecOptions.T options = false))
  /\
  (forall (options : ExecOptions.t) container exec_id tty,
      In (container_start_exec container exec_id tty)
         (snd (execute env [] (exec_command IS_WINDOWS_PLATFORM self options))) ->
      (tty = true <-> ExecOptions.T options = false)).
Proof.
  split; [| split].
  - intros options isatty service quiet one_off container_options Htty Hin.
    assert (Hco : co_tty container_options =
                  negb (RunOptions.d options) && negb (RunOptions.T options) && isatty).
    { unfold run in Hin. rewrite execute_bind, execute_call in Hin.
      destruct (env [] (project_get_service (RunOptions.SERVICE options)))
        as [found | e]; simpl in Hin; [| destruct Hin as [Hin | []]; discriminate Hin].
      destruct (IS_WINDOWS_PLATFORM && negb (RunOptions.d options));
        [simpl in Hin; destruct Hin as [Hin | []]; discriminate Hin |].
      destruct (Py.truthy_list (RunOptions.publish options)
                && RunOptions.service_ports options);
        [simpl in Hin; destruct Hin as [Hin | []]; discriminate Hin |].
      rewrite execute_bind in Hin.
      match type of Hin with
      | context [execute env ?h (build_container_options options ?d ?c)] =>
          destruct (build_container_options_execute env options d c isatty h Htty)
            as (co0 & history' & E & Hco0 & Hhist)
      end.
      rewrite E in Hin.
      apply execute_may_call in Hin. destruct Hin as [Hin | Hcall].
      - apply Hhist in Hin. destruct Hin as [[Hin | []] | Hin]; discriminate Hin.
      - apply run_one_off_container_creates in Hcall. subst. exact Hco0. }
    rewrite Hco.
    destruct (RunOptions.d options), (RunOptions.T options), isatty; simpl;
      intuition congruence.
  - intros options container command create_exec_options Hin.
    apply execute_may_call in Hin. destruct Hin as [[] | Hc].
    assert (Ht : ce_tty create_exec_options = negb (ExecOptions.T options)).
    { unfold exec_command, int_ in Hc.
      destruct (Py.int (ExecOptions.index options)); simpl in Hc; [| contradiction].
      destruct IS_WINDOWS_PLATFORM, (ExecOptions.d options);
        simpl in Hc; trace_calls;
        match goal with
        | H : container_create_exec _ _ _ = container_create_exec _ _ _ |- _ =>
            inversion H; subst; reflexivity
        end. }
    rewrite Ht. destruct (ExecOptions.T options); simpl; intuition congruence.
  - intros options container exec_id tty Hin.
    apply execute_may_call in Hin. destruct Hin as [[] | Hc].
    assert (Ht : tty = negb (ExecOptions.T options)).
    { unfold exec_command, int_ in Hc.
      destruct (Py.int (ExecOptions.index options)); simpl in Hc; [| contradiction].
      destruct IS_WINDOWS_PLATFORM, (ExecOptions.d options);
        simpl in Hc; trace_calls;
        match goal with
        | H : container_start_exec _ _ _ = container_start_exec _ _ _ |- _ =>
            inversion H; subst; reflexivity
        end. }
    rewrite Ht. destruct (ExecOptions.T options); simpl; intuition congruence.
Qed.

Lemma tty_allocation_witness :
  (co_tty one_off_options = true <->
   RunOptions.d (run_with false false true) = false
   /\ RunOptions.T (run_with false false true) = false /\ true = true)
  /\ (ce_tty {| ce_privileged := false; ce_user := None;
                ce_tty := true; ce_stdin := true |} = true <->
      ExecOptions.T (exec_with true false) = false)
  /\ (true = true <-> ExecOptions.T (exec_with true false) = false).
Proof.
  destruct (tty_allocation false quiet a_command) as (Hrun & Hcreate & Hstart).
  split; [| split].
  - apply (Hrun (run_with false false true) true (Service.mk "web" None) true true
             one_off_options).
    + intros history. reflexivity.
    + vm_compute. tauto.
  - apply (Hcreate (exec_with true false) (Container.mk "c0ffee" "web_1" "web") ["sh"]).
    vm_compute. tauto.
  - apply (Hstart (exec_with true false) (Container.mk "c0ffee" "web_1" "web") "e4ec").
    vm_compute. tauto.
Defined.

(** C7 as stated fails for [exec]: [exec -d web sh] is detached, yet the
    exec instance is created with [tty] set. *)
Lemma exec_detached_allocates_tty :
  exists container command create_exec_options,
    In (container_create_exec container command create_exec_options)
       (snd (execute quiet [] (exec_command false a_command (exec_with true false))))
    /\ quiet [] stdin_isatty = Returns true
    /\ ~ (ce_tty create_exec_options = true <->
          ExecOptions.d (exec_with true false) = false
          /\ ExecOptions.T (exec_with true false) = false
          /\ true = true).
Proof.
  exists (Container.mk "c0ffee" "web_1" "web"), ["sh"],
    {| ce_privileged := false; ce_user := None; ce_tty := true; ce_stdin := true |}.
  split; [vm_compute; tauto |].
  split; [reflexivity |].
  simpl. intros [H _]. destruct (H eq_refl) as [Hd _]. discriminate Hd.
Qed.

(** ** Decimal strings *)

(** [isdigit] and [int] on some words: signs, white space and single
    underscores between digits are for [int] only, digits of other scripts
    count for both, and the superscript digits for [isdigit] only. *)
Lemma isdigit_int_examples :
  (Py.isdigit "42" = true /\ Py.int "42" = Some 42%Z)
  /\ (Py.isdigit "-42" = false /\ Py.int "-42" = Some (-42)%Z)
  /\ (Py.isdigit " 42 " = false /\ Py.int " 42 " = Some 42%Z)
  /\ (Py.isdigit "1_0" = false /\ Py.int "1_0" = Some 10%Z)
  /\ (Py.isdigit "1__0" = false /\ Py.int "1__0" = None)
  /\ (Py.isdigit EmptyString = false /\ Py.int EmptyString = None)
  /\ (Py.isdigit "4.2" = false /\ Py.int "4.2" = None)
  /\ (Py.isdigit arabic_indic_three = true /\ Py.int arabic_indic_three = Some 3%Z)
  /\ (Py.isdigit superscript_two = true /\ Py.int superscript_two = None).
Proof.
  repeat split; reflexivity.
Qed.

Lemma digit_not_space (c : ascii) : Py.is_digit c = true -> Py.is_space c = false.
Proof.
  unfold Py.is_digit, Py.is_space. intros H.
  apply andb_true_iff in H. destruct H as [H1 H2].
  apply Nat.leb_le in H1. apply Nat.leb_le in H2.
  apply orb_false_iff. split.
  - apply andb_false_iff. right. apply Nat.leb_gt. lia.
  - apply Nat.eqb_neq. lia.
Qed.

(** A digit is its own code point, has a digit value and is kept by
    [to_ascii]. *)
Lemma digit_code (c : ascii) :
  Py.is_digit c = true ->
  (N_of_ascii c <? 128)%N = true
  /\ Py.in_ranges (N_of_ascii c) Py.digit_ranges = true
  /\ Py.to_ascii (N_of_ascii c) = c.
Proof.
  destruct c as [[] [] [] [] [] [] [] []]; intros H;
    try discriminate H; vm_compute; auto.
Qed.

Lemma all_digits_decode (s : string) :
  Py.all_digits s = true ->
  forallb (fun c => Py.in_ranges c Py.digit_ranges) (Py.decode s) = true
  /\ string_of_list_ascii (map Py.to_ascii (Py.decode s)) = s.
Proof.
  induction s as [| c r IH]; intros H; [split; reflexivity |].
  simpl in H. apply andb_true_iff in H. destruct H as [Hc Hr].
  destruct (digit_code c Hc) as (Hlow & Hin & Hto).
  destruct (IH Hr) as [IH1 IH2].
  cbn [Py.decode]. cbv zeta. rewrite Hlow.
  cbn [forallb map string_of_list_ascii]. rewrite Hin, Hto, IH1, IH2.
  split; reflexivity.
Qed.

Lemma all_digits_value (s : string) :
  Py.all_digits s = true ->
  forall acc after_digit, s <> EmptyString \/ after_digit = true ->
    exists n, Py.digits_value acc after_digit s = Some n.
Proof.
  induction s as [| c r IH]; simpl; intros H acc after_digit Hne.
  - destruct Hne as [Hne | ->]; [congruence | eauto].
  - apply andb_true_iff in H. destruct H as [Hc Hr].
    rewrite Hc. apply IH; auto.
Qed.

Lemma all_digits_count (s : string) :
  Py.all_digits s = true -> Py.count_digits s = String.length s.
Proof.
  induction s as [| c r IH]; simpl; intros H; [reflexivity |].
  apply andb_true_iff in H. destruct H as [Hc Hr].
  rewrite Hc, (IH Hr). reflexivity.
Qed.

Lemma all_digits_rstrip (s : string) : Py.all_digits s = true -> Py.rstrip s = s.
Proof.
  induction s as [| c r IH]; simpl; intros H; [reflexivity |].
  apply andb_true_iff in H. destruct H as [Hc Hr].
  rewrite (IH Hr), (digit_not_space c Hc). destruct r; reflexivity.
Qed.

Lemma all_digits_strip (s : string) : Py.all_digits s = true -> Py.strip s = s.
Proof.
  destruct s as [| c r]; simpl; intros H; [reflexivity |].
  unfold Py.strip. simpl.
  pose proof H as H'. apply andb_true_iff in H'. destruct H' as [Hc Hr].
  rewrite (digit_not_space c Hc).
  apply (all_digits_rstrip (String c r)). exact H.
Qed.

(** A word made of the characters 0 to 9 passes [isdigit]. *)
Lemma all_digits_isdigit (s : string) :
  s <> EmptyString -> Py.all_digits s = true -> Py.isdigit s = true.
Proof.
  intros Hne H. unfold Py.isdigit.
  destruct (all_digits_decode s H) as [Hall _].
  destruct (Py.decode s) as [| c r] eqn:E; [| exact Hall].
  destruct s as [| c r]; [congruence |].
  simpl in H. apply andb_true_iff in H. destruct H as [Hc _].
  destruct (digit_code c Hc) as (Hlow & _).
  cbn [Py.decode] in E. cbv zeta in E. rewrite Hlow in E. discriminate E.
Qed.

(** A word made of the characters 0 to 9, within the length [int] accepts,
    converts. *)
Lemma all_digits_int (s : string) :
  s <> EmptyString -> Py.all_digits s = true ->
  (String.length s <= Py.max_str_digits)%nat ->
  exists n, Py.int s = Some n.
Proof.
  intros Hne H Hlen. unfold Py.int.
  destruct (all_digits_decode s H) as [_ ->].
  rewrite (all_digits_strip s H).
  assert (Hu : exists n, Py.unsigned_value s = Some n).
  { unfold Py.unsigned_value. rewrite (all_digits_count s H).
    apply Nat.leb_le in Hlen. rewrite Hlen.
    apply all_digits_value; auto. }
  destruct s as [| c r]; [congruence |].
  simpl in H. apply andb_true_iff in H. destruct H as [Hc _].
  destruct c as [[] [] [] [] [] [] [] []]; try discriminate Hc; exact Hu.
Qed.

(** ** [scale] *)

Lemma looked_up_app (a b : list Call) : looked_up (a ++ b) = looked_up a ++ looked_up b.
Proof.
  induction a as [| c a IH]; simpl; [reflexivity |].
  destruct c; simpl; rewrite ?IH; reflexivity.
Qed.

Lemma scalings_app (a b : list Call) : scalings (a ++ b) = scalings a ++ scalings b.
Proof.
  induction a as [| c a IH]; simpl; [reflexivity |].
  destruct c; simpl; rewrite ?IH; reflexivity.
Qed.

Lemma scale_each_stops (env : Env) (timeout : Z)
    (bad : string) (later : list string) :
  cooperative env ->
  scale_request bad = None ->
  forall (earlier : list string) (requests : list (string * Z)) history,
    map scale_request earlier = map Some requests ->
    exists msg made,
      execute env history (scale_each timeout (earlier ++ bad :: later)) =
        (Raised (UserError msg), history ++ made)
      /\ made = scale_calls env timeout requests history
      /\ looked_up made = map fst requests
      /\ map (fun x => (snd (fst x), snd x)) (scalings made)
         = map (fun r => (snd r, timeout)) requests
      /\ List.length made = (2 * List.length earlier)%nat
      /\ (Py.contains "="%char bad = false ->
          msg = "Arguments to scale should be in the form service=num")
      /\ (Py.contains "="%char bad = true ->
          msg = ("Number of containers for service "
                   ++ Py.dquote ++ fst (Py.split1 "="%char bad) ++ Py.dquote
                   ++ " is not a number")%string).
Proof.
  intros Hcoop Hbad.
  induction earlier as [| s earlier IH]; intros requests history Hreq.
  - destruct requests; [| discriminate Hreq]. simpl.
    unfold scale_request in Hbad.
    destruct (Py.contains "="%char bad) eqn:Hc; simpl.
    + destruct (Py.split1 "="%char bad) as [service_name num] eqn:Es. simpl in Hbad.
      unfold int_. destruct (Py.int num); [discriminate Hbad |]. simpl.
      eexists _, []. rewrite app_nil_r.
      repeat split; try reflexivity. discriminate.
    + eexists _, []. rewrite app_nil_r. repeat split; try reflexivity. discriminate.
  - destruct requests as [| [name n] requests]; [discriminate Hreq |].
    simpl in Hreq. injection Hreq as Hs Hrest.
    unfold scale_request in Hs.
    simpl. destruct (Py.contains "="%char s); [| discriminate Hs]. simpl.
    destruct (Py.split1 "="%char s) as [service_name num]. simpl in Hs.
    unfold int_. destruct (Py.int num) as [k |]; [| discriminate Hs].
    injection Hs as -> ->. simpl.
    destruct (Hcoop history (project_get_service name)) as [service E1].
    rewrite E1. simpl.
    destruct (Hcoop (history ++ [project_get_service name])
                (service_scale service n timeout)) as [[] E2].
    rewrite E2. simpl.
    destruct (IH requests
                ((history ++ [project_get_service name])
                   ++ [service_scale service n timeout]) Hrest)
      as (msg & made & E & Hcalls & Hl & Hsc & Hlen & Hmsg).
    exists msg, (project_get_service name :: service_scale service n timeout :: made).
    rewrite E. repeat split.
    + now rewrite <- !app_assoc.
    + rewrite Hcalls, <- app_assoc. reflexivity.
    + simpl. now rewrite Hl.
    + simpl. now rewrite Hsc.
    + simpl. rewrite Hlen. lia.
    + apply Hmsg.
    + apply Hmsg.
Qed.

(** C9.  [scale] whose [--timeout] converted, in an environment where no
    call fails: when the arguments before the first malformed one (no [=],
    or a count [int] rejects) are well formed, [scale] raises a [UserError]
    at the malformed argument, and the calls it has made by then are those
    of the earlier arguments, in the order given: for each one the lookup of
    the service it names, then the scaling of the service the project
    returned, to the count given and with the timeout.  That is two calls
    per earlier argument and none for the later ones.  The message tells
    whether the [=] is missing or the count of the named service is not a
    number. *)
Theorem scale_not_atomic (DEFAULT_TIMEOUT : Z) (env : Env) (self : TopLevelCommand)
    (options : ScaleOptions.t) (timeout : Z)
    (earlier : list string) (requests : list (string * Z))
    (bad : string) (later : list string) :
  int_timeout_or_default DEFAULT_TIMEOUT (ScaleOptions.timeout options) = Ret timeout ->
  ScaleOptions.SERVICE_NUM options = earlier ++ bad :: later ->
  map scale_request earlier = map Some requests ->
  scale_request bad = None ->
  cooperative env ->
  exists msg trace,
    execute env [] (scale DEFAULT_TIMEOUT self options) = (Raised (UserError msg), trace)
    /\ trace = scale_calls env timeout requests []
    /\ looked_up trace = map fst requests
    /\ map (fun x => (snd (fst x), snd x)) (scalings trace)
       = map (fun r => (snd r, timeout)) requests
    /\ List.length trace = (2 * List.length earlier)%nat
    /\ (Py.contains "="%char bad = false ->
        msg = "Arguments to scale should be in the form service=num")
    /\ (Py.contains "="%char bad = true ->
        msg = ("Number of containers for service "
                 ++ Py.dquote ++ fst (Py.split1 "="%char bad) ++ Py.dquote
                 ++ " is not a number")%string).
Proof.
  intros Et Hargs Hreq Hbad Hcoop.
  unfold scale. rewrite Et, Hargs. simpl.
  destruct (scale_each_stops env timeout bad later Hcoop Hbad
              earlier requests [] Hreq) as (msg & made & E & H).
  exists msg, made. split; [exact E | exact H].
Qed.

Lemma scale_not_atomic_witness :
  execute quiet [] (scale 10%Z a_command (scale_with None ["web=2"; "db=1_0"; "w=x"; "db=3"]))
  = (Raised (UserError ("Number of containers for service "
                          ++ Py.dquote ++ "w" ++ Py.dquote ++ " is not a number")),
     [project_get_service "web"; service_scale (Service.mk "web" None) 2%Z 10%Z;
      project_get_service "db"; service_scale (Service.mk "db" None) 10%Z 10%Z]).
Proof.
  destruct (scale_not_atomic 10%Z quiet a_command
              (scale_with None ["web=2"; "db=1_0"; "w=x"; "db=3"]) 10%Z
              ["web=2"; "db=1_0"] [("web", 2%Z); ("db", 10%Z)] "w=x" ["db=3"]
              eq_refl eq_refl eq_refl eq_refl)
    as (msg & trace & E & Ht & _ & _ & _ & _ & Hmsg).
  - intros history c. exists (default_ret c). reflexivity.
  - rewrite E, Ht, (Hmsg eq_refl). reflexivity.
Defined.

(** ** [logs] *)

(** C10.  [logs --tail] with the superscript two (U+00B2) as the word:
    the word passes [isdigit] and is not [all], so [logs] hands it to [int],
    which refuses it.  Having fetched the container list, [logs] raises the
    [ValueError] of [int], not the [UserError] of its validation; [main] has
    no clause for it, so the process ends with that exception, and the log
    printer is not started. *)
Theorem logs_tail_superscript_two :
  Py.decode superscript_two = [178%N]
  /\ Py.isdigit superscript_two = true
  /\ Py.int superscript_two = None
  /\ superscript_two <> "all"
  /\ execute quiet [] (main (logs a_command (logs_with (Some superscript_two)))) =
       (Raised (ValueError ("invalid literal for int() with base 10: '"
                              ++ superscript_two ++ "'")),
        [project_containers ["web"] true])
  /\ ~ (exists msg,
          fst (execute quiet [] (logs a_command (logs_with (Some superscript_two))))
          = Raised (UserError msg)).
Proof.
  repeat split; try reflexivity; try discriminate.
  intros [msg E]. vm_compute in E. discriminate E.
Qed.

(** X23.  [logs] fetches the container list first.  A [--tail] word that
    fails [isdigit] and is not [all] then raises the [UserError], and the
    container list is the only call made: the log printer is not started.  A
    word that passes [isdigit] and that [int] refuses raises the
    [ValueError] of [int], again with the container list as the only call.
    Without [--tail], with [all], or with a word that passes [isdigit] and
    that [int] converts, validation passes: the next call is the
    announcement of the attachment, and a log printer that is run carries
    the tail value as [None], as the string [all], or as the integer.  Every
    non-empty word made of the characters 0 to 9, of at most
    [max_str_digits] characters, is such a word. *)
Theorem logs_tail_validation (env : Env) (self : TopLevelCommand)
    (options : LogsOptions.t) :
  let fetch := project_containers (LogsOptions.SERVICE options) true in
  (forall tail,
      LogsOptions.tail options = Some tail ->
      Py.isdigit tail = false ->
      tail <> "all" ->
      snd (execute env [] (logs self options)) = [fetch]
      /\ forall containers,
           env [] fetch = Returns containers ->
           fst (execute env [] (logs self options)) =
             Raised (UserError "tail flag must be all or a number"))
  /\ (forall tail,
        LogsOptions.tail options = Some tail ->
        Py.isdigit tail = true ->
        Py.int tail = None ->
        snd (execute env [] (logs self options)) = [fetch]
        /\ forall containers,
             env [] fetch = Returns containers ->
             exists msg,
               fst (execute env [] (logs self options)) = Raised (ValueError msg))
  /\ (forall containers value,
        env [] fetch = Returns containers ->
        accepted_tail (LogsOptions.tail options) value ->
        exists outcome made,
          execute env [] (logs self options) =
            (outcome,
             [fetch; py_print ("Attaching to " ++ list_containers containers)] ++ made)
          /\ forall log_printer,
               In (log_printer_run log_printer) made ->
               la_tail (LogPrinter.log_args log_printer) = Some value)
  /\ (forall tail,
        tail <> EmptyString ->
        Py.all_digits tail = true ->
        (String.length tail <= Py.max_str_digits)%nat ->
        tail <> "all" /\ exists n, accepted_tail (Some tail) (TailInt n)).
Proof.
  intros fetch. subst fetch. split; [| split; [| split]].
  - intros tail Et Hd Hall.
    unfold logs. rewrite Et, Hd.
    apply String.eqb_neq in Hall. rewrite Hall. simpl.
    destruct (env [] _) as [containers | e]; simpl.
    + split; [reflexivity |]. intros; reflexivity.
    + split; [reflexivity |]. intros containers H. discriminate H.
  - intros tail Et Hd Hint.
    unfold logs, int_. rewrite Et, Hd, Hint. simpl.
    destruct (env [] _) as [containers | e]; simpl.
    + split; [reflexivity |]. intros; eexists; reflexivity.
    + split; [reflexivity |]. intros containers H. discriminate H.
  - intros containers value Hfetch Hacc.
    assert (Etail :
      match LogsOptions.tail options with
      | None => Ret TailNone
      | Some tail =>
          if Py.isdigit tail then n <- int_ tail ;; Ret (TailInt n)
          else if negb (String.eqb tail "all")
               then Raise (UserError "tail flag must be all or a number")
               else Ret (TailStr tail)
      end = Ret value).
    { destruct Hacc as [[-> ->] | [[-> ->] | (s & n & -> & Hd & Hn & ->)]].
      - reflexivity.
      - reflexivity.
      - rewrite Hd. unfold int_. rewrite Hn. reflexivity. }
    unfold logs. rewrite Etail. simpl. rewrite Hfetch. simpl.
    destruct (env _ (py_print _)) as [[] | e]; simpl;
      [| eexists _, []; split; [reflexivity | intros lp []]].
    destruct (env _ (project_events None)) as [stream | e]; simpl;
      [| eexists _, [_]; split; [reflexivity |];
         intros lp [H | []]; discriminate H].
    destruct (env _ (log_printer_run _)) as [[] | e]; simpl;
      (eexists _, [_; _]; split; [reflexivity |];
       intros lp [H | [H | []]]; [discriminate H |];
       inversion H; subst; reflexivity).
  - intros tail Hne Hd Hlen. split.
    + intros ->. discriminate Hd.
    + destruct (all_digits_int tail Hne Hd Hlen) as [n Hn]. exists n.
      right. right. exists tail, n. repeat split; try assumption.
      now apply all_digits_isdigit.
Qed.

Lemma logs_tail_validation_witness :
  fst (execute quiet [] (logs a_command (logs_with (Some "1x")))) =
    Raised (UserError "tail flag must be all or a number")
  /\ (exists msg,
        fst (execute quiet [] (logs a_command (logs_with (Some superscript_two)))) =
          Raised (ValueError msg))
  /\ (exists n, accepted_tail (Some "0100") (TailInt n))
  /\ (exists outcome made,
        execute quiet [] (logs a_command (logs_with (Some "0100"))) =
          (outcome,
           [project_containers ["web"] true; py_print "Attaching to web_1"] ++ made)
        /\ forall log_printer,
             In (log_printer_run log_printer) made ->
             la_tail (LogPrinter.log_args log_printer) = Some (TailInt 100%Z)).
Proof.
  split; [| split; [| split]].
  - destruct (logs_tail_validation quiet a_command (logs_with (Some "1x")))
      as (H & _).
    destruct (H "1x" eq_refl eq_refl) as [_ E].
    + discriminate.
    + exact (E [Container.mk "c0ffee" "web_1" "web"] eq_refl).
  - destruct (logs_tail_validation quiet a_command (logs_with (Some superscript_two)))
      as (_ & H & _).
    destruct (H superscript_two eq_refl eq_refl eq_refl) as [_ E].
    exact (E [Container.mk "c0ffee" "web_1" "web"] eq_refl).
  - destruct (logs_tail_validation quiet a_command (logs_with (Some "0100")))
      as (_ & _ & _ & H).
    destruct (H "0100") as [_ E].
    + discriminate.
    + reflexivity.
    + unfold Py.max_str_digits. simpl. lia.
    + exact E.
  - destruct (logs_tail_validation quiet a_command (logs_with (Some "0100")))
      as (_ & _ & H & _).
    apply (H [Container.mk "c0ffee" "web_1" "web"] (TailInt 100%Z) eq_refl).
    right. right. exists "0100", 100%Z. repeat split; reflexivity.
Defined.

(** * Further properties of the handlers *)

(** ** What [up] hands to the project *)

Lemma int_timeout_or_default_may_return (DEFAULT_TIMEOUT : Z) timeout n :
  may_return (int_timeout_or_default DEFAULT_TIMEOUT timeout) n ->
  int_timeout_or_default DEFAULT_TIMEOUT timeout = Ret n.
Proof.
  destruct (int_timeout_or_default_cases DEFAULT_TIMEOUT timeout)
    as [[k E] | [m E]]; rewrite E; simpl; [congruence | contradiction].
Qed.

Lemma build_action_may_return {O} `{StrategyFlags O} (options : O) do_build :
  may_return (build_action_from_opts options) do_build ->
  follows_build_flags (opt_build options) (opt_no_build options) do_build.
Proof.
  unfold build_action_from_opts, follows_build_flags.
  destruct (opt_build options), (opt_no_build options); simpl;
    intros Hr; try contradiction; subst; repeat split; congruence.
Qed.

(** The calls of the block of [up]: the [project.up] call carries the
    converted flags and the command line. *)
Lemma up_body_project_up (self : TopLevelCommand) (options : UpOptions.t)
    (timeout : Z) (args : UpArgs) :
  may_call (up_body self options timeout) (project_up args) ->
  exists strategy do_build,
    may_return (convergence_strategy_from_opts options) strategy
    /\ may_return (build_action_from_opts options) do_build
    /\ args =
       {| up_service_names := UpOptions.SERVICE options;
          up_start_deps := negb (UpOptions.no_deps options);
          up_strategy := strategy;
          up_do_build := Some do_build;
          up_timeout := Some timeout;
          up_detached := Some (UpOptions.d options);
          up_remove_orphans := Some (UpOptions.remove_orphans options) |}.
Proof.
  unfold up_body. intros Hc.
  apply may_call_bind in Hc.
  destruct Hc as [Hc | [strategy [Hs Hc]]];
    [now apply convergence_strategy_no_call in Hc |].
  apply may_call_bind in Hc.
  destruct Hc as [Hc | [do_build [Hb Hc]]];
    [now apply build_action_no_call in Hc |].
  simpl in Hc. destruct Hc as [Hc | Hc].
  - exists strategy, do_build. inversion Hc; subst. auto.
  - exfalso. no_such_call.
Qed.

(** Whatever the environment does, a call of [up] is the installation of
    the signal handler, a call of its block, or one of the three calls of
    the shutdown context. *)
Lemma up_calls (DEFAULT_TIMEOUT : Z) (env : Env) (self : TopLevelCommand)
    (options : UpOptions.t) (c : Call) :
  In c (snd (execute env [] (up DEFAULT_TIMEOUT self options))) ->
  exists timeout,
    int_timeout_or_default DEFAULT_TIMEOUT (UpOptions.timeout options) = Ret timeout
    /\ (may_call (up_body self options timeout) c
        \/ (UpOptions.d options = false
            /\ In c [set_signal_handler_to_shutdown;
                     py_print "Gracefully stopping... (press Ctrl+C again to force)";
                     project_stop (UpOptions.SERVICE options) timeout;
                     project_kill (UpOptions.SERVICE options)])).
Proof.
  intros Hin. apply execute_may_call in Hin. destruct Hin as [[] | Hc].
  unfold up in Hc. apply may_call_bind in Hc.
  destruct Hc as [Hc | [timeout [Ht Hc]]];
    [now apply int_timeout_or_default_no_call in Hc |].
  apply int_timeout_or_default_may_return in Ht.
  exists timeout. split; [exact Ht |].
  destruct (UpOptions.d options && UpOptions.abort_on_container_exit options);
    [contradiction |].
  unfold up_shutdown_context in Hc.
  destruct (UpOptions.d options); [now left |].
  simpl in Hc. destruct Hc as [Hc | [r Hc]]; [right; split; [reflexivity | now left] |].
  destruct r as [[] | e]; simpl in Hc; [| contradiction].
  apply may_call_try_except in Hc.
  destruct Hc as [Hc | [e [h [Eh Hc]]]].
  - apply may_call_try_except in Hc.
    destruct Hc as [Hc | [e [h [Eh Hc]]]]; [now left |].
    destruct e; simpl in Eh; try discriminate Eh.
    inversion Eh; subst; simpl in Hc. right. split; [reflexivity |].
    destruct Hc as [Hc | [r Hc]]; [simpl; auto |].
    destruct r as [[] | e]; simpl in Hc; [| contradiction].
    destruct Hc as [Hc | [r Hc]]; [simpl; auto |].
    destruct r; simpl in Hc; contradiction.
  - destruct e; simpl in Eh; try discriminate Eh.
    inversion Eh; subst; simpl in Hc. right. split; [reflexivity |].
    destruct Hc as [Hc | [r Hc]]; [simpl; auto |].
    destruct r; simpl in Hc; contradiction.
Qed.

(** X1.  Whatever the environment does, every [project.up] call made by
    [up], and every [project.create] call made by [create], carries the
    build action the flags ask for: [force] with [--build], [skip] with
    [--no-build], [none] with neither. *)
Theorem build_action_passed_to_planning
    (DEFAULT_TIMEOUT : Z) (env : Env) (self : TopLevelCommand)
    (up_options : UpOptions.t) (create_options : CreateOptions.t) :
  (forall args,
      In (project_up args) (snd (execute env [] (up DEFAULT_TIMEOUT self up_options))) ->
      exists do_build,
        up_do_build args = Some do_build
        /\ follows_build_flags (UpOptions.build up_options)
             (UpOptions.no_build up_options) do_build)
  /\ (forall service_names strategy do_build,
        In (project_create service_names strategy do_build)
           (snd (execute env [] (create self create_options))) ->
        follows_build_flags (CreateOptions.build create_options)
          (CreateOptions.no_build create_options) do_build).
Proof.
  split.
  - intros args Hin.
    destruct (up_calls _ _ _ _ _ Hin) as [timeout [_ [Hc | [_ Hc]]]].
    + destruct (up_body_project_up _ _ _ _ Hc) as (strategy & do_build & _ & Hb & ->).
      exists do_build. split; [reflexivity |].
      now apply build_action_may_return in Hb.
    + simpl in Hc. destruct Hc as [Hc | [Hc | [Hc | [Hc | []]]]]; discriminate Hc.
  - intros service_names strategy do_build Hin.
    apply execute_may_call in Hin. destruct Hin as [[] | Hc].
    unfold create in Hc. apply may_call_bind in Hc.
    destruct Hc as [Hc | [strategy' [_ Hc]]];
      [now apply convergence_strategy_no_call in Hc |].
    apply may_call_bind in Hc.
    destruct Hc as [Hc | [do_build' [Hb Hc]]];
      [now apply build_action_no_call in Hc |].
    apply build_action_may_return in Hb.
    simpl in Hc. destruct Hc as [Hc | [r Hc]].
    + inversion Hc; subst. exact Hb.
    + destruct r; simpl in Hc; contradiction.
Qed.

Lemma build_action_passed_to_planning_witness :
  In (project_create ["web"] ConvergenceStrategy.changed BuildAction.skip)
     (snd (execute quiet [] (create a_command (create_with false false false true))))
  /\ follows_build_flags false true BuildAction.skip.
Proof.
  assert (Hin : In (project_create ["web"] ConvergenceStrategy.changed BuildAction.skip)
     (snd (execute quiet [] (create a_command (create_with false false false true))))).
  { left. reflexivity. }
  split; [exact Hin |].
  exact (proj2 (build_action_passed_to_planning 10%Z quiet a_command up_plain
                  (create_with false false false true)) _ _ _ Hin).
Defined.

(** X2.  Whatever the environment does, every [project.up] call made by
    [up] names the services of the command line, starts dependencies unless
    [--no-deps] was given, and carries the converted [--timeout], the [-d]
    flag and the [--remove-orphans] flag; every [project.stop] and
    [project.kill] call made by [up] names the services of the command line,
    and the stop carries the converted timeout. *)
Theorem up_targets_the_command_line
    (DEFAULT_TIMEOUT : Z) (env : Env) (self : TopLevelCommand)
    (options : UpOptions.t) :
  (forall args,
      In (project_up args) (snd (execute env [] (up DEFAULT_TIMEOUT self options))) ->
      up_service_names args = UpOptions.SERVICE options
      /\ up_start_deps args = negb (UpOptions.no_deps options)
      /\ (exists timeout,
             int_timeout_or_default DEFAULT_TIMEOUT (UpOptions.timeout options)
               = Ret timeout
             /\ up_timeout args = Some timeout)
      /\ up_detached args = Some (UpOptions.d options)
      /\ up_remove_orphans args = Some (UpOptions.remove_orphans options))
  /\ (forall service_names timeout,
        In (project_stop service_names timeout)
           (snd (execute env [] (up DEFAULT_TIMEOUT self options))) ->
        service_names = UpOptions.SERVICE options
        /\ int_timeout_or_default DEFAULT_TIMEOUT (UpOptions.timeout options)
             = Ret timeout
        /\ UpOptions.d options = false)
  /\ (forall service_names,
        In (project_kill service_names)
           (snd (execute env [] (up DEFAULT_TIMEOUT self options))) ->
        service_names = UpOptions.SERVICE options /\ UpOptions.d options = false).
Proof.
  split; [| split].
  - intros args Hin.
    destruct (up_calls _ _ _ _ _ Hin) as [timeout [Ht [Hc | [_ Hc]]]].
    + destruct (up_body_project_up _ _ _ _ Hc) as (strategy & do_build & _ & _ & ->).
      simpl. repeat split. exists timeout. split; [exact Ht | reflexivity].
    + simpl in Hc. destruct Hc as [Hc | [Hc | [Hc | [Hc | []]]]]; discriminate Hc.
  - intros service_names timeout Hin.
    destruct (up_calls _ _ _ _ _ Hin) as [timeout' [Ht [Hc | [Hd Hc]]]].
    + unfold up_body in Hc.
      apply may_call_bind in Hc.
      destruct Hc as [Hc | [strategy [_ Hc]]];
        [now apply convergence_strategy_no_call in Hc |].
      apply may_call_bind in Hc.
      destruct Hc as [Hc | [do_build [_ Hc]]];
        [now apply build_action_no_call in Hc |].
      simpl in Hc.
      destruct (UpOptions.d options) eqn:Hd.
      * exfalso. no_such_call.
      * destruct (UpOptions.abort_on_container_exit options);
          no_such_call;
          match goal with
          | H : project_stop _ _ = project_stop _ _ |- _ =>
              inversion H; subst; auto
          end.
    + simpl in Hc. destruct Hc as [Hc | [Hc | [Hc | [Hc | []]]]];
        try discriminate Hc.
      inversion Hc; subst. auto.
  - intros service_names Hin.
    destruct (up_calls _ _ _ _ _ Hin) as [timeout' [Ht [Hc | [Hd Hc]]]].
    + exfalso. unfold up_body in Hc.
      apply may_call_bind in Hc.
      destruct Hc as [Hc | [strategy [_ Hc]]];
        [now apply convergence_strategy_no_call in Hc |].
      apply may_call_bind in Hc.
      destruct Hc as [Hc | [do_build [_ Hc]]];
        [now apply build_action_no_call in Hc |].
      simpl in Hc. no_such_call.
    + simpl in Hc. destruct Hc as [Hc | [Hc | [Hc | [Hc | []]]]];
        try discriminate Hc.
      inversion Hc; subst. auto.
Qed.

Lemma up_targets_the_command_line_witness :
  In (project_stop ["web"] 5%Z) up_interrupted_stop_history
  /\ ["web"] = UpOptions.SERVICE (up_with false false false false (Some "5"))
  /\ int_timeout_or_default 10%Z
       (UpOptions.timeout (up_with false false false false (Some "5"))) = Ret 5%Z
  /\ UpOptions.d (up_with false false false false (Some "5")) = false.
Proof.
  assert (Hin : In (project_stop ["web"] 5%Z)
    (snd (execute (interrupted_at [4%nat] quiet) []
            (up 10%Z a_command (up_with false false false false (Some "5")))))).
  { vm_compute. tauto. }
  split; [vm_compute; tauto |].
  exact (proj1 (proj2 (up_targets_the_command_line 10%Z (interrupted_at [4%nat] quiet)
                         a_command (up_with false false false false (Some "5"))))
           _ _ Hin).
Defined.

(** ** [up] detached, and what the shutdown context leaves alone *)

(** X3.  [up -d] whose options converted makes one call, [project.up]:
    it installs no signal handler, attaches to nothing and stops nothing.
    It returns when that call returns and lets through whatever that call
    raises, an interrupt included. *)
Theorem up_detached_only_plans
    (DEFAULT_TIMEOUT : Z) (env : Env) (self : TopLevelCommand)
    (options : UpOptions.t) (timeout : Z)
    (strategy : ConvergenceStrategy.t) (do_build : BuildAction.t) :
  let args :=
    {| up_service_names := UpOptions.SERVICE options;
       up_start_deps := negb (UpOptions.no_deps options);
       up_strategy := strategy;
       up_do_build := Some do_build;
       up_timeout := Some timeout;
       up_detached := Some true;
       up_remove_orphans := Some (UpOptions.remove_orphans options) |} in
  UpOptions.d options = true ->
  UpOptions.abort_on_container_exit options = false ->
  int_timeout_or_default DEFAULT_TIMEOUT (UpOptions.timeout options) = Ret timeout ->
  convergence_strategy_from_opts options = Ret strategy ->
  build_action_from_opts options = Ret do_build ->
  execute env [] (up DEFAULT_TIMEOUT self options) =
    (match env [] (project_up args) with
     | Returns _ => Returned tt
     | Throws e => Raised e
     end, [project_up args]).
Proof.
  intros args Hd Ha Et Hs Hb. subst args.
  unfold up, up_shutdown_context, up_body. rewrite Et, Hd, Ha, Hs, Hb. simpl.
  destruct (env [] _); reflexivity.
Qed.

Lemma up_detached_only_plans_witness :
  execute (interrupted_at [0%nat] quiet) []
    (up 10%Z a_command (up_with true false true false None)) =
    (Raised ShutdownException,
     [project_up
        {| up_service_names := ["web"]; up_start_deps := true;
           up_strategy := ConvergenceStrategy.never;
           up_do_build := Some BuildAction.none; up_timeout := Some 10%Z;
           up_detached := Some true; up_remove_orphans := Some false |}]).
Proof.
  exact (up_detached_only_plans 10%Z (interrupted_at [0%nat] quiet) a_command
           (up_with true false true false None) 10%Z
           ConvergenceStrategy.never BuildAction.none
           eq_refl eq_refl eq_refl eq_refl eq_refl).
Defined.

(** X4.  The shutdown context reacts to [ShutdownException] only.
    Detached, it is the block itself.  Attached, once the handler is
    installed, a block that returns, or that raises anything but
    [ShutdownException], ends the context the same way, and the context makes
    no call of its own: nothing is stopped or killed. *)
Theorem up_shutdown_context_only_handles_shutdown
    (env : Env) (service_names : list string) (timeout : Z) (body : Prog unit)
    (history : list Call) :
  execute env history (up_shutdown_context service_names timeout true body)
    = execute env history body
  /\ forall outcome history',
       env history set_signal_handler_to_shutdown = Returns tt ->
       execute env (history ++ [set_signal_handler_to_shutdown]) body
         = (outcome, history') ->
       outcome <> Raised ShutdownException ->
       execute env history (up_shutdown_context service_names timeout false body)
         = (outcome, history').
Proof.
  split; [reflexivity |].
  intros outcome history' Hhandler Hbody Hother.
  unfold up_shutdown_context.
  rewrite execute_bind, execute_call, Hhandler.
  rewrite !execute_try_except, Hbody.
  destruct outcome as [[] | e]; [reflexivity |].
  destruct e; try reflexivity. now contradiction Hother.
Qed.

Lemma up_shutdown_context_only_handles_shutdown_witness :
  execute (failing_at 1 (NoSuchService "No such service: web") quiet) []
    (up_shutdown_context ["web"] 10%Z false
       (up_body a_command (up_with false false false false None) 10%Z))
  = (Raised (NoSuchService "No such service: web"),
     [set_signal_handler_to_shutdown;
      project_up
        {| up_service_names := ["web"]; up_start_deps := true;
           up_strategy := ConvergenceStrategy.changed;
           up_do_build := Some BuildAction.none; up_timeout := Some 10%Z;
           up_detached := Some false; up_remove_orphans := Some false |}]).
Proof.
  apply (proj2 (up_shutdown_context_only_handles_shutdown
                  (failing_at 1 (NoSuchService "No such service: web") quiet)
                  ["web"] 10%Z
                  (up_body a_command (up_with false false false false None) 10%Z) [])).
  - reflexivity.
  - reflexivity.
  - discriminate.
Defined.

(** X5.  An attached [up] interrupted three times: when a third interrupt
    ends the [project.kill] that the second one started, the exception
    leaves the shutdown context, [main] reports [Aborting.], and the process
    exits with 1, not with the code of a forced shutdown. *)
Theorem up_third_interrupt_aborts
    (DEFAULT_TIMEOUT : Z) (env : Env) (self : TopLevelCommand)
    (options : UpOptions.t) (timeout : Z) (interrupted : list Call) :
  let service_names := UpOptions.SERVICE options in
  let announce := py_print "Gracefully stopping... (press Ctrl+C again to force)" in
  let killing :=
    interrupted ++ [announce; project_stop service_names timeout;
                    project_kill service_names] in
  UpOptions.d options = false ->
  int_timeout_or_default DEFAULT_TIMEOUT (UpOptions.timeout options) = Ret timeout ->
  env [] set_signal_handler_to_shutdown = Returns tt ->
  execute env [set_signal_handler_to_shutdown] (up_body self options timeout) =
    (Raised ShutdownException, interrupted) ->
  env interrupted announce = Returns tt ->
  env (interrupted ++ [announce]) (project_stop service_names timeout)
    = Throws ShutdownException ->
  env (interrupted ++ [announce; project_stop service_names timeout])
    (project_kill service_names) = Throws ShutdownException ->
  env killing (log_error "Aborting.") = Returns tt ->
  execute env [] (main (up DEFAULT_TIMEOUT self options)) =
    (Raised (SystemExit (Some 1%Z)), killing ++ [log_error "Aborting."]).
Proof.
  intros service_names announce killing Hd Et Henv Hbody Hannounce Hstop Hkill Hlog.
  subst service_names announce killing.
  unfold main. rewrite execute_try_except.
  rewrite (up_attached_execute DEFAULT_TIMEOUT env self options timeout Hd Et Henv).
  rewrite !execute_try_except, Hbody. simpl.
  rewrite Hannounce. simpl. rewrite Hstop. simpl.
  rewrite <- (app_assoc interrupted [_] [_]). simpl.
  rewrite Hkill. simpl.
  rewrite <- (app_assoc interrupted [_; _] [_]). simpl.
  rewrite Hlog. simpl. now rewrite <- !app_assoc.
Qed.

Lemma up_third_interrupt_aborts_witness :
  process_exit_code
    (fst (execute (interrupted_at [4; 6; 7]%nat quiet) []
            (main (up 10%Z a_command (up_with false false false false (Some "5"))))))
  = 1%Z.
Proof.
  rewrite (up_third_interrupt_aborts 10%Z (interrupted_at [4; 6; 7]%nat quiet)
             a_command (up_with false false false false (Some "5")) 5%Z
             up_interrupted_history
             eq_refl eq_refl eq_refl eq_refl eq_refl eq_refl eq_refl eq_refl).
  reflexivity.
Defined.

(** X6.  An attached [up] without [--abort-on-container-exit] whose log
    printer returns: [up] returns, and it has stopped nothing. *)
Theorem up_attached_returns_without_stopping
    (DEFAULT_TIMEOUT : Z) (env : Env) (self : TopLevelCommand)
    (options : UpOptions.t) (timeout : Z)
    (strategy : ConvergenceStrategy.t) (do_build : BuildAction.t)
    (to_attach : list Container.t) (stream : EventStream) :
  let service_names := UpOptions.SERVICE options in
  let args :=
    {| up_service_names := service_names;
       up_start_deps := negb (UpOptions.no_deps options);
       up_strategy := strategy;
       up_do_build := Some do_build;
       up_timeout := Some timeout;
       up_detached := Some false;
       up_remove_orphans := Some (UpOptions.remove_orphans options) |} in
  let log_printer :=
    LogPrinter.mk
      (filter_containers_to_service_names to_attach service_names)
      (build_log_presenters (Project.service_names (project self))
         (UpOptions.no_color options))
      stream false
      {| la_follow := true; la_tail := None; la_timestamps := None |} in
  let attaching :=
    py_print ("Attaching to " ++ list_containers (LogPrinter.containers log_printer)) in
  UpOptions.d options = false ->
  UpOptions.abort_on_container_exit options = false ->
  int_timeout_or_default DEFAULT_TIMEOUT (UpOptions.timeout options) = Ret timeout ->
  convergence_strategy_from_opts options = Ret strategy ->
  build_action_from_opts options = Ret do_build ->
  answers env []
    [ set_signal_handler_to_shutdown ~> Returns tt;
      project_up args ~> Returns to_attach;
      project_events (Some service_names) ~> Returns stream;
      attaching ~> Returns tt;
      log_printer_run log_printer ~> Returns tt ] ->
  execute env [] (up DEFAULT_TIMEOUT self options) =
    (Returned tt,
     [set_signal_handler_to_shutdown; project_up args;
      project_events (Some service_names); attaching;
      log_printer_run log_printer])
  /\ forall c,
       In c (snd (execute env [] (up DEFAULT_TIMEOUT self options))) ->
       tears_down c = false.
Proof.
  intros service_names args log_printer attaching Hd Ha Et Hs Hb Hans.
  subst service_names args log_printer attaching.
  simpl in Hans. destruct Hans as (H1 & H2 & H3 & H4 & H5 & _).
  match goal with
  | |- ?e = (?o, ?t) /\ _ => assert (E : e = (o, t))
  end.
  { rewrite (up_attached_execute DEFAULT_TIMEOUT env self options timeout Hd Et H1).
    rewrite !execute_try_except.
    unfold up_body. rewrite Hs, Hb, Hd, Ha. simpl.
    rewrite H2. simpl. rewrite H3. simpl. rewrite H4. simpl.
    rewrite H5. reflexivity. }
  split; [exact E |].
  intros c Hin. rewrite E in Hin. simpl in Hin.
  destruct Hin as [<- | [<- | [<- | [<- | [<- | []]]]]]; reflexivity.
Qed.

Lemma up_attached_returns_without_stopping_witness :
  fst (execute quiet [] (up 10%Z a_command up_plain)) = Returned tt.
Proof.
  destruct (up_attached_returns_without_stopping 10%Z quiet a_command up_plain 10%Z
              ConvergenceStrategy.changed BuildAction.none
              [Container.mk "c0ffee" "web_1" "web"] 0%nat
              eq_refl eq_refl eq_refl eq_refl eq_refl) as [E _].
  - simpl. repeat split.
  - rewrite E. reflexivity.
Defined.

(** ** [exec] away from the ordinary attached session *)

(** X7.  A detached [exec] never bridges: whatever the environment does, it
    installs no signal handler, starts no pseudo-terminal and does not read
    the exit status. *)
Theorem exec_detached_never_bridges (IS_WINDOWS_PLATFORM : bool) (env : Env)
    (self : TopLevelCommand) (options : ExecOptions.t) (c : Call) :
  ExecOptions.d options = true ->
  In c (snd (execute env [] (exec_command IS_WINDOWS_PLATFORM self options))) ->
  bridges c = false.
Proof.
  intros Hd Hin. apply execute_may_call in Hin. destruct Hin as [[] | Hc].
  unfold exec_command, int_ in Hc. rewrite Hd in Hc.
  destruct (Py.int (ExecOptions.index options)); simpl in Hc; [| contradiction].
  trace_calls; subst; reflexivity.
Qed.

Lemma exec_detached_never_bridges_witness :
  bridges (container_start_exec (Container.mk "c0ffee" "web_1" "web") "e4ec" true)
  = false.
Proof.
  apply (exec_detached_never_bridges false quiet a_command
           (exec_with true false) _ eq_refl).
  vm_compute. tauto.
Defined.

(** X8.  An attached [exec] whose bridging is interrupted: the handler logs
    that it is closing, and [exec] goes on as after an ordinary session: it
    reads the exit status and leaves through [sys.exit] with it.  Nothing is
    stopped or killed. *)
Theorem exec_interrupt_keeps_exit_status (env : Env) (self : TopLevelCommand)
    (options : ExecOptions.t) (index : Z) (service : Service.t)
    (container : Container.t) (exec_id : string) (info : ExecInfo) :
  let tty := negb (ExecOptions.T options) in
  let create :=
    container_create_exec container
      (ExecOptions.COMMAND options :: ExecOptions.ARGS options)
      {| ce_privileged := ExecOptions.privileged options;
         ce_user := ExecOptions.user options;
         ce_tty := tty; ce_stdin := tty |} in
  ExecOptions.d options = false ->
  Py.int (ExecOptions.index options) = Some index ->
  answers env []
    [ project_get_service (ExecOptions.SERVICE options) ~> Returns service;
      service_get_container service index ~> Returns container;
      create ~> Returns exec_id;
      set_signal_handler_to_shutdown ~> Returns tt;
      pty_start (ExecOperation exec_id tty) None ~> Throws ShutdownException;
      log_info "received shutdown exception: closing" ~> Returns tt;
      client_exec_inspect exec_id ~> Returns info ] ->
  execute env [] (main (exec_command false self options)) =
    (Raised (SystemExit (ExitCode info)),
     [project_get_service (ExecOptions.SERVICE options);
      service_get_container service index;
      create;
      set_signal_handler_to_shutdown;
      pty_start (ExecOperation exec_id tty) None;
      log_info "received shutdown exception: closing";
      client_exec_inspect exec_id]).
Proof.
  intros tty create Hd Hindex Hans. subst tty create. simpl in Hans.
  destruct Hans as (H1 & H2 & H3 & H4 & H5 & H6 & H7 & _).
  apply main_system_exit.
  unfold exec_command, int_. rewrite Hindex, Hd. simpl.
  rewrite H1. simpl. rewrite H2. simpl. rewrite H3. simpl.
  rewrite H4. simpl. rewrite H5. simpl. rewrite H6. simpl.
  rewrite H7. reflexivity.
Qed.

Lemma exec_interrupt_keeps_exit_status_witness :
  process_exit_code
    (fst (execute (interrupted_at [4%nat] quiet) []
            (main (exec_command false a_command (exec_with false false)))))
  = 7%Z.
Proof.
  rewrite (exec_interrupt_keeps_exit_status (interrupted_at [4%nat] quiet) a_command
             (exec_with false false) 1%Z (Service.mk "web" None)
             (Container.mk "c0ffee" "web_1" "web") "e4ec" {| ExitCode := Some 7%Z |}
             eq_refl eq_refl).
  - reflexivity.
  - simpl. repeat split.
Defined.

(** X9.  [exec] on a container that does not exist: the [ValueError] of
    [service.get_container] becomes a [UserError] with the same message, no
    exec instance is created, and [main] reports the message and exits with
    1. *)
Theorem exec_missing_container_is_user_error (IS_WINDOWS_PLATFORM : bool)
    (env : Env) (self : TopLevelCommand) (options : ExecOptions.t)
    (index : Z) (service : Service.t) (msg : string) :
  let looked_up :=
    [project_get_service (ExecOptions.SERVICE options);
     service_get_container service index] in
  Py.int (ExecOptions.index options) = Some index ->
  answers env []
    [ project_get_service (ExecOptions.SERVICE options) ~> Returns service;
      service_get_container service index ~> Throws (ValueError msg) ] ->
  execute env [] (exec_command IS_WINDOWS_PLATFORM self options) =
    (Raised (UserError msg), looked_up)
  /\ (env looked_up (log_error msg) = Returns tt ->
      execute env [] (main (exec_command IS_WINDOWS_PLATFORM self options)) =
        (Raised (SystemExit (Some 1%Z)), looked_up ++ [log_error msg])).
Proof.
  intros looked Hindex Hans. subst looked. simpl in Hans.
  destruct Hans as (H1 & H2 & _).
  assert (E : execute env [] (exec_command IS_WINDOWS_PLATFORM self options) =
              (Raised (UserError msg),
               [project_get_service (ExecOptions.SERVICE options);
                service_get_container service index])).
  { unfold exec_command, int_. rewrite Hindex. simpl.
    rewrite H1. simpl. rewrite H2. reflexivity. }
  split; [exact E |].
  intros Hlog. unfold main. rewrite execute_try_except, E. simpl.
  rewrite Hlog. reflexivity.
Qed.

Lemma exec_missing_container_is_user_error_witness :
  execute (failing_at 1 (ValueError "No container found for web_1") quiet) []
    (exec_command false a_command (exec_with false false)) =
    (Raised (UserError "No container found for web_1"),
     [project_get_service "web"; service_get_container (Service.mk "web" None) 1%Z]).
Proof.
  apply (exec_missing_container_is_user_error false
           (failing_at 1 (ValueError "No container found for web_1") quiet)
           a_command (exec_with false false) 1%Z (Service.mk "web" None)
           "No container found for web_1" eq_refl).
  simpl. repeat split.
Defined.

(** X10.  On Windows, where the pseudo-terminal classes are not imported,
    an attached [exec] creates the exec instance, installs the signal handler
    and then fails with [NameError]: the instance is neither started nor
    inspected. *)
Theorem exec_attached_on_windows (env : Env) (self : TopLevelCommand)
    (options : ExecOptions.t) (index : Z) (service : Service.t)
    (container : Container.t) (exec_id : string) :
  let tty := negb (ExecOptions.T options) in
  let create :=
    container_create_exec container
      (ExecOptions.COMMAND options :: ExecOptions.ARGS options)
      {| ce_privileged := ExecOptions.privileged options;
         ce_user := ExecOptions.user options;
         ce_tty := tty; ce_stdin := tty |} in
  ExecOptions.d options = false ->
  Py.int (ExecOptions.index options) = Some index ->
  answers env []
    [ project_get_service (ExecOptions.SERVICE options) ~> Returns service;
      service_get_container service index ~> Returns container;
      create ~> Returns exec_id;
      set_signal_handler_to_shutdown ~> Returns tt ] ->
  execute env [] (exec_command true self options) =
    (Raised (NameError "ExecOperation"),
     [project_get_service (ExecOptions.SERVICE options);
      service_get_container service index;
      create;
      set_signal_handler_to_shutdown]).
Proof.
  intros tty create Hd Hindex Hans. subst tty create. simpl in Hans.
  destruct Hans as (H1 & H2 & H3 & H4 & _).
  unfold exec_command, int_. rewrite Hindex, Hd. simpl.
  rewrite H1. simpl. rewrite H2. simpl. rewrite H3. simpl.
  rewrite H4. reflexivity.
Qed.

Lemma exec_attached_on_windows_witness :
  fst (execute quiet [] (exec_command true a_command (exec_with false false))) =
    Raised (NameError "ExecOperation").
Proof.
  rewrite (exec_attached_on_windows quiet a_command (exec_with false false) 1%Z
             (Service.mk "web" None) (Container.mk "c0ffee" "web_1" "web") "e4ec"
             eq_refl eq_refl).
  - reflexivity.
  - simpl. repeat split.
Defined.

(** ** [run] before and around the session *)

(** X11.  [run] refuses two command lines after looking the service up and
    before anything else: an attached run on Windows, and [--publish]
    together with [--service-ports].  Both are [UserError]s; no dependency is
    started and no container is created. *)
Theorem run_refuses_before_creating (IS_WINDOWS_PLATFORM : bool) (env : Env)
    (self : TopLevelCommand) (options : RunOptions.t) (service : Service.t) :
  env [] (project_get_service (RunOptions.SERVICE options)) = Returns service ->
  (IS_WINDOWS_PLATFORM = true /\ RunOptions.d options = false)
  \/ (RunOptions.publish options <> [] /\ RunOptions.service_ports options = true) ->
  exists msg,
    execute env [] (run IS_WINDOWS_PLATFORM self options) =
      (Raised (UserError msg), [project_get_service (RunOptions.SERVICE options)]).
Proof.
  intros Hservice Hrefused. unfold run. simpl. rewrite Hservice. simpl.
  destruct (IS_WINDOWS_PLATFORM && negb (RunOptions.d options)) eqn:Hw;
    [eexists; reflexivity |].
  destruct Hrefused as [[-> Hd] | [Hp Hs]].
  - rewrite Hd in Hw. discriminate Hw.
  - rewrite Hs. destruct (RunOptions.publish options); [contradiction |].
    eexists. reflexivity.
Qed.

Lemma run_refuses_before_creating_witness :
  exists msg,
    execute quiet [] (run true a_command (run_with false false true)) =
      (Raised (UserError msg), [project_get_service "web"]).
Proof.
  apply (run_refuses_before_creating true quiet a_command (run_with false false true)
           (Service.mk "web" None) eq_refl).
  left. split; reflexivity.
Defined.

(** X12.  [build_container_options] asks whether standard input is a
    terminal only when the run is neither detached nor given [-T]; it makes
    no other call.  Detached or with [-T] it returns options without a tty;
    otherwise the tty option is the answer, and an exception raised by the
    question is let through. *)
Theorem build_container_options_asks_stdin (env : Env) (options : RunOptions.t)
    (detach : bool) (command : option command_value) (history : list Call) :
  snd (execute env history (build_container_options options detach command)) =
    history ++ (if negb detach && negb (RunOptions.T options)
                then [stdin_isatty] else [])
  /\ (detach || RunOptions.T options = true ->
      exists container_options,
        fst (execute env history (build_container_options options detach command))
          = Returned container_options
        /\ co_tty container_options = false)
  /\ (detach || RunOptions.T options = false ->
      match env history stdin_isatty with
      | Returns isatty =>
          exists container_options,
            fst (execute env history (build_container_options options detach command))
              = Returned container_options
            /\ co_tty container_options = isatty
      | Throws e =>
          fst (execute env history (build_container_options options detach command))
            = Raised e
      end).
Proof.
  unfold build_container_options.
  destruct detach; simpl.
  - rewrite app_nil_r. split; [reflexivity |]. split; [eauto | discriminate].
  - destruct (RunOptions.T options); simpl.
    + rewrite app_nil_r. split; [reflexivity |]. split; [eauto | discriminate].
    + destruct (env history stdin_isatty) as [isatty | e]; simpl.
      * split; [reflexivity |]. split; [discriminate |].
        intros _. eexists. split; [reflexivity |]. simpl. apply negb_involutive.
      * split; [reflexivity |]. split; [discriminate | reflexivity].
Qed.

Lemma build_container_options_asks_stdin_witness :
  exists container_options,
    fst (execute quiet [] (build_container_options (run_with false true false) false None))
      = Returned container_options
    /\ co_tty container_options = false.
Proof.
  apply (proj1 (proj2 (build_container_options_asks_stdin quiet
                         (run_with false true false) false None []))).
  reflexivity.
Defined.

(** Whatever the environment does, a call of [run] is the lookup of the
    service, the question about standard input, or a call of
    [run_one_off_container]. *)
Lemma run_calls (IS_WINDOWS_PLATFORM : bool) (env : Env) (self : TopLevelCommand)
    (options : RunOptions.t) (c : Call) :
  In c (snd (execute env [] (run IS_WINDOWS_PLATFORM self options))) ->
  c = project_get_service (RunOptions.SERVICE options)
  \/ c = stdin_isatty
  \/ exists container_options service,
       may_call (run_one_off_container IS_WINDOWS_PLATFORM container_options
                   (project self) service options) c.
Proof.
  intros Hin. apply execute_may_call in Hin. destruct Hin as [[] | Hc].
  unfold run in Hc. simpl in Hc. destruct Hc as [Hc | [r Hc]]; [auto |].
  destruct r as [service | e]; simpl in Hc; [| contradiction].
  destruct (IS_WINDOWS_PLATFORM && negb (RunOptions.d options)); [contradiction |].
  destruct (Py.truthy_list (RunOptions.publish options)
            && RunOptions.service_ports options); [contradiction |].
  apply may_call_bind in Hc. destruct Hc as [Hc | [co [_ Hc]]].
  - right. left. unfold build_container_options in Hc.
    destruct (RunOptions.d options); simpl in Hc; [contradiction |].
    destruct (RunOptions.T options); simpl in Hc; [contradiction |].
    destruct Hc as [Hc | [r Hc]]; [auto |].
    destruct r; simpl in Hc; contradiction.
  - right. right. eauto.
Qed.

Ltac one_off_calls H :=
  unfold run_one_off_container, create_one_off_container, run_one_off_attached,
    run_one_off_session, remove_container in H;
  repeat match type of H with
    | context [if ?b then _ else _] => is_var b; destruct b
    | context [RunOptions.no_deps ?o] => destruct (RunOptions.no_deps o) eqn:?
    | context [RunOptions.d ?o] => destruct (RunOptions.d o) eqn:?
    | context [RunOptions.rm ?o] => destruct (RunOptions.rm o) eqn:?
    end;
  simpl in H;
  repeat (trace_calls;
          try match goal with
            | H' : context [Py.truthy_list ?l] |- _ =>
                is_var l; destruct l; simpl in H'
            end).

(** X13.  Whatever the environment does, every [project.up] call made by
    [run] is made for the dependencies: it is made only without [--no-deps],
    names a non-empty list of services, asks to start their own dependencies
    and carries the strategy [never], so that existing containers of
    dependencies are not recreated; build action, timeout, detached and
    remove-orphans are left to their defaults. *)
Theorem run_starts_dependencies_without_recreating (IS_WINDOWS_PLATFORM : bool)
    (env : Env) (self : TopLevelCommand) (options : RunOptions.t) (args : UpArgs) :
  In (project_up args) (snd (execute env [] (run IS_WINDOWS_PLATFORM self options))) ->
  RunOptions.no_deps options = false
  /\ up_service_names args <> []
  /\ up_start_deps args = true
  /\ up_strategy args = ConvergenceStrategy.never
  /\ up_do_build args = None /\ up_timeout args = None
  /\ up_detached args = None /\ up_remove_orphans args = None.
Proof.
  intros Hin. apply run_calls in Hin.
  destruct Hin as [Hin | [Hin | (co & service & Hc)]]; try discriminate Hin.
  one_off_calls Hc.
  all: match goal with
    | H : project_up _ = project_up _ |- _ =>
        inversion H; subst; simpl; repeat split; discriminate
    end.
Qed.

Lemma run_starts_dependencies_without_recreating_witness :
  In (project_up
        {| up_service_names := ["db"]; up_start_deps := true;
           up_strategy := ConvergenceStrategy.never;
           up_do_build := None; up_timeout := None;
           up_detached := None; up_remove_orphans := None |})
     (snd (execute (with_dependencies quiet) []
             (run false a_command (run_with true false false))))
  /\ RunOptions.no_deps (run_with true false false) = false.
Proof.
  assert (Hin : In (project_up
        {| up_service_names := ["db"]; up_start_deps := true;
           up_strategy := ConvergenceStrategy.never;
           up_do_build := None; up_timeout := None;
           up_detached := None; up_remove_orphans := None |})
     (snd (execute (with_dependencies quiet) []
             (run false a_command (run_with true false false))))).
  { vm_compute. tauto. }
  split; [exact Hin |].
  exact (proj1 (run_starts_dependencies_without_recreating false
                  (with_dependencies quiet) a_command (run_with true false false)
                  _ Hin)).
Defined.

(** X14.  A detached [run] starts the container and leaves it alone:
    whatever the environment does, it installs no signal handler, opens no
    pseudo-terminal, does not wait for the container, and stops, kills or
    removes nothing, [--rm] or not. *)
Theorem run_detached_leaves_container (IS_WINDOWS_PLATFORM : bool) (env : Env)
    (self : TopLevelCommand) (options : RunOptions.t) (c : Call) :
  RunOptions.d options = true ->
  In c (snd (execute env [] (run IS_WINDOWS_PLATFORM self options))) ->
  bridges c = false /\ tears_down c = false.
Proof.
  intros Hd Hin. apply run_calls in Hin.
  destruct Hin as [-> | [-> | (co & service & Hc)]]; [split; reflexivity .. |].
  unfold run_one_off_container in Hc. rewrite Hd in Hc.
  one_off_calls Hc; subst; split; reflexivity.
Qed.

Lemma run_detached_leaves_container_witness :
  bridges (service_start_container (Service.mk "web" None)
             (Container.mk "0ddba11" "web_run_1" "web")) = false
  /\ tears_down (service_start_container (Service.mk "web" None)
                   (Container.mk "0ddba11" "web_run_1" "web")) = false.
Proof.
  apply (run_detached_leaves_container false quiet a_command
           (run_with true false true) _ eq_refl).
  vm_compute. tauto.
Defined.

(** X15.  Whatever the environment does, [run] removes a container only
    when [--rm] was given and the run is attached, and every removal is
    forced, after an ordinary session as after a forced shutdown. *)
Theorem run_removes_only_with_rm (IS_WINDOWS_PLATFORM : bool) (env : Env)
    (self : TopLevelCommand) (options : RunOptions.t)
    (container_id : string) (force : bool) :
  In (client_remove_container container_id force)
     (snd (execute env [] (run IS_WINDOWS_PLATFORM self options))) ->
  RunOptions.rm options = true /\ RunOptions.d options = false /\ force = true.
Proof.
  intros Hin. apply run_calls in Hin.
  destruct Hin as [Hin | [Hin | (co & service & Hc)]]; try discriminate Hin.
  one_off_calls Hc;
    match goal with
    | H : client_remove_container _ _ = client_remove_container _ _ |- _ =>
        inversion H; subst; repeat split
    end.
Qed.

Lemma run_removes_only_with_rm_witness :
  In (client_remove_container "0ddba11" true)
     (snd (execute quiet [] (run false a_command (run_with false false true))))
  /\ RunOptions.rm (run_with false false true) = true.
Proof.
  assert (Hin : In (client_remove_container "0ddba11" true)
     (snd (execute quiet [] (run false a_command (run_with false false true))))).
  { vm_compute. tauto. }
  split; [exact Hin |].
  exact (proj1 (run_removes_only_with_rm false quiet a_command
                  (run_with false false true) _ _ Hin)).
Defined.

(** ** [scale] with well-formed arguments *)

Lemma scale_each_all (env : Env) (timeout : Z) :
  cooperative env ->
  forall (arguments : list string) (requests : list (string * Z)) history,
    map scale_request arguments = map Some requests ->
    exists made,
      execute env history (scale_each timeout arguments) =
        (Returned tt, history ++ made)
      /\ made = scale_calls env timeout requests history
      /\ looked_up made = map fst requests
      /\ map (fun x => (snd (fst x), snd x)) (scalings made)
         = map (fun r => (snd r, timeout)) requests
      /\ List.length made = (2 * List.length arguments)%nat.
Proof.
  intros Hcoop.
  induction arguments as [| s arguments IH]; intros requests history Hreq.
  - destruct requests; [| discriminate Hreq]. simpl.
    exists []. rewrite app_nil_r. repeat split; reflexivity.
  - destruct requests as [| [name n] requests]; [discriminate Hreq |].
    simpl in Hreq. injection Hreq as Hs Hrest.
    unfold scale_request in Hs.
    simpl. destruct (Py.contains "="%char s); [| discriminate Hs]. simpl.
    destruct (Py.split1 "="%char s) as [service_name num]. simpl in Hs.
    unfold int_. destruct (Py.int num) as [k |]; [| discriminate Hs].
    injection Hs as -> ->. simpl.
    destruct (Hcoop history (project_get_service name)) as [service E1].
    rewrite E1. simpl.
    destruct (Hcoop (history ++ [project_get_service name])
                (service_scale service n timeout)) as [[] E2].
    rewrite E2. simpl.
    destruct (IH requests
                ((history ++ [project_get_service name])
                   ++ [service_scale service n timeout]) Hrest)
      as (made & E & Hcalls & Hl & Hsc & Hlen).
    exists (project_get_service name :: service_scale service n timeout :: made).
    rewrite E. repeat split.
    + now rewrite <- !app_assoc.
    + rewrite Hcalls, <- app_assoc. reflexivity.
    + simpl. now rewrite Hl.
    + simpl. now rewrite Hsc.
    + simpl. rewrite Hlen. lia.
Qed.

(** X16.  [scale] whose [--timeout] converted and whose arguments are all
    well formed, in an environment where no call fails: it returns, and the
    calls it has made are those of the arguments, in the order given and as
    often as they are given: for each one the lookup of the service it
    names, then the scaling of the service the project returned, to the
    count given and with the timeout.  That is two calls per argument;
    without arguments it makes no call. *)
Theorem scale_scales_every_argument (DEFAULT_TIMEOUT : Z) (env : Env)
    (self : TopLevelCommand) (options : ScaleOptions.t) (timeout : Z)
    (requests : list (string * Z)) :
  int_timeout_or_default DEFAULT_TIMEOUT (ScaleOptions.timeout options) = Ret timeout ->
  map scale_request (ScaleOptions.SERVICE_NUM options) = map Some requests ->
  cooperative env ->
  exists trace,
    execute env [] (scale DEFAULT_TIMEOUT self options) = (Returned tt, trace)
    /\ trace = scale_calls env timeout requests []
    /\ looked_up trace = map fst requests
    /\ map (fun x => (snd (fst x), snd x)) (scalings trace)
       = map (fun r => (snd r, timeout)) requests
    /\ List.length trace = (2 * List.length (ScaleOptions.SERVICE_NUM options))%nat.
Proof.
  intros Et Hreq Hcoop. unfold scale. rewrite Et. simpl.
  destruct (scale_each_all env timeout Hcoop _ requests [] Hreq) as (made & E & H).
  exists made. split; [exact E | exact H].
Qed.

Lemma scale_scales_every_argument_witness :
  execute quiet [] (scale 10%Z a_command (scale_with (Some "3") ["web=2"; "db=1"; "web=0"]))
  = (Returned tt,
     [project_get_service "web"; service_scale (Service.mk "web" None) 2%Z 3%Z;
      project_get_service "db"; service_scale (Service.mk "db" None) 1%Z 3%Z;
      project_get_service "web"; service_scale (Service.mk "web" None) 0%Z 3%Z]).
Proof.
  destruct (scale_scales_every_argument 10%Z quiet a_command
              (scale_with (Some "3") ["web=2"; "db=1"; "web=0"]) 3%Z
              [("web", 2%Z); ("db", 1%Z); ("web", 0%Z)] eq_refl eq_refl)
    as (trace & E & Ht & _).
  - intros history c. exists (default_ret c). reflexivity.
  - rewrite E, Ht. reflexivity.
Defined.

(** ** The containers [up] attaches to *)

Lemma mem_In (x : string) (l : list string) : Py.mem x l = true <-> In x l.
Proof.
  unfold Py.mem. rewrite existsb_exists. split.
  - intros [y [Hy E]]. apply String.eqb_eq in E. now subst.
  - intros H. exists x. split; [exact H | apply String.eqb_refl].
Qed.

(** X17.  [filter_containers_to_service_names] keeps exactly the
    containers whose service is named, all of them when no service is named;
    it keeps their order (it distributes over concatenation), and filtering
    twice changes nothing more. *)
Theorem filter_containers_to_service_names_keeps
    (containers : list Container.t) (service_names : list string) :
  (forall c,
      In c (filter_containers_to_service_names containers service_names) <->
      In c containers
      /\ (service_names = [] \/ In (Container.service c) service_names))
  /\ (forall more,
        filter_containers_to_service_names (containers ++ more) service_names =
        filter_containers_to_service_names containers service_names
          ++ filter_containers_to_service_names more service_names)
  /\ filter_containers_to_service_names
       (filter_containers_to_service_names containers service_names) service_names
     = filter_containers_to_service_names containers service_names.
Proof.
  unfold filter_containers_to_service_names.
  destruct service_names as [| name names].
  - simpl. split; [| split]; [| reflexivity ..].
    intros c. split; [auto | tauto].
  - assert (Hl : negb (Py.truthy_list (name :: names)) = false) by reflexivity.
    rewrite Hl. split; [| split].
    + intros c. rewrite filter_In, mem_In. split.
      * intros [H1 H2]. auto.
      * intros [H1 [H2 | H2]]; [discriminate H2 | auto].
    + intros more. apply filter_app.
    + induction containers as [| c cs IH]; [reflexivity |].
      cbn [filter].
      destruct (Py.mem (Container.service c) (name :: names)) eqn:E; cbn [filter].
      * rewrite E, IH. reflexivity.
      * exact IH.
Qed.

(** ** [main] *)

(** X18.  Whatever the command and the environment do, [main] adds at most
    one call to those of the command, an error message; it returns exactly
    when the command returns; and it lets [sys.exit] through unchanged. *)
Theorem main_reports_at_most_once (env : Env) (history : list Call)
    (command : Prog unit) :
  (exists extra,
      snd (execute env history (main command))
        = snd (execute env history command) ++ extra
      /\ (extra = [] \/ exists msg, extra = [log_error msg]))
  /\ (fst (execute env history (main command)) = Returned tt <->
      fst (execute env history command) = Returned tt)
  /\ (forall code,
        fst (execute env history command) = Raised (SystemExit code) ->
        execute env history (main command) = execute env history command).
Proof.
  unfold main. rewrite execute_try_except.
  destruct (execute env history command) as [[[] | e] trace]; simpl.
  - split; [exists []; rewrite app_nil_r; auto |].
    split; [tauto | discriminate].
  - split; [| split].
    + destruct e; simpl;
        try (exists []; rewrite app_nil_r; split; [reflexivity | now left]);
        match goal with
        | |- context [env trace (log_error ?m)] =>
            exists [log_error m]; split; [| right; eauto];
            destruct (env trace (log_error m)); reflexivity
        end.
    + split; [| discriminate].
      destruct e; simpl; try discriminate;
        match goal with
        | |- context [env trace (log_error ?m)] =>
            destruct (env trace (log_error m)); discriminate
        end.
    + intros code H. inversion H; subst. reflexivity.
Qed.

(** ** [start], [pause], [unpause] and [restart] *)

Local Open Scope wide_scope.

(** X19.  [start], [pause], [unpause] and [restart] (once its
    [--timeout] converted) make one call to the project.  When it returns
    containers they return; when it returns none they log that there are no
    containers to act on and leave through [sys.exit(1)]. *)
Theorem lifecycle_exits_when_nothing_affected (DEFAULT_TIMEOUT : Z) (env : WideEnv)
    (self : TopLevelCommand) (options : ServicesOptions.t)
    (restart_options : RestartOptions.t) (timeout : Z)
    (containers : list Container.t) :
  let names := ServicesOptions.SERVICE options in
  let affected (operation : WideCall) (handler : WideProg unit) (message : string) :=
    (containers <> [] ->
     wide_execute env [] handler = (Returned tt, [operation]))
    /\ (containers = [] ->
        env [operation] (core (log_error message)) = Returns tt ->
        wide_execute env [] handler =
          (Raised (SystemExit (Some 1%Z)), [operation; core (log_error message)])) in
  (env [] (project_start names) = Returns containers ->
   affected (project_start names) (start self options) "No containers to start")
  /\ (env [] (project_pause names) = Returns containers ->
      affected (project_pause names) (pause self options) "No containers to pause")
  /\ (env [] (project_unpause names) = Returns containers ->
      affected (project_unpause names) (unpause self options) "No containers to unpause")
  /\ (int_timeout_or_default DEFAULT_TIMEOUT (RestartOptions.timeout restart_options)
        = Ret timeout ->
      env [] (project_restart (RestartOptions.SERVICE restart_options) timeout)
        = Returns containers ->
      affected (project_restart (RestartOptions.SERVICE restart_options) timeout)
        (restart DEFAULT_TIMEOUT self restart_options) "No containers to restart").
Proof.
  intros names affected. subst names affected. cbv beta.
  split; [| split; [| split]].
  - intros E. unfold start. simpl. rewrite E. simpl. split.
    + intros Hc. destruct containers; [contradiction | reflexivity].
    + intros -> Hlog. simpl. rewrite Hlog. reflexivity.
  - intros E. unfold pause. simpl. rewrite E. simpl. split.
    + intros Hc. destruct containers; [contradiction | reflexivity].
    + intros -> Hlog. simpl. rewrite Hlog. reflexivity.
  - intros E. unfold unpause. simpl. rewrite E. simpl. split.
    + intros Hc. destruct containers; [contradiction | reflexivity].
    + intros -> Hlog. simpl. rewrite Hlog. reflexivity.
  - intros Et E. unfold restart. rewrite Et. simpl. rewrite E. simpl. split.
    + intros Hc. destruct containers; [contradiction | reflexivity].
    + intros -> Hlog. simpl. rewrite Hlog. reflexivity.
Qed.

Lemma lifecycle_exits_when_nothing_affected_witness :
  process_exit_code
    (fst (wide_execute (wide_quiet []) []
            (restart 10%Z a_command (RestartOptions.mk (Some "3") ["web"]))))
  = 1%Z.
Proof.
  destruct (lifecycle_exits_when_nothing_affected 10%Z (wide_quiet []) a_command
              (ServicesOptions.mk ["web"]) (RestartOptions.mk (Some "3") ["web"])
              3%Z []) as (_ & _ & _ & H).
  destruct (H eq_refl eq_refl) as [_ E].
  rewrite (E eq_refl eq_refl). reflexivity.
Defined.

(** ** [rm] *)

(** X20.  [rm] warns unless [--all] was given, then fetches the containers,
    stopped ones included, with one-off containers included exactly when
    [--all] was given.  Without a stopped container among them it says so
    and removes nothing.  Otherwise it lists the stopped ones and then, with
    [--force], removes without asking; without [--force] it asks, and
    removes exactly when the answer is yes.  The removal names the services
    of the command line and carries [-v] and the same one-off filter. *)
Theorem rm_removes_after_confirmation (is_running : Container.t -> bool)
    (env : WideEnv) (self : TopLevelCommand) (options : RmOptions.t)
    (all_containers : list Container.t) :
  let one_off :=
    if RmOptions.all options then OneOffFilter.include else OneOffFilter.exclude in
  let warned := if RmOptions.all options then [] else [log_warn rm_warning] in
  let fetch :=
    project_containers_one_off (RmOptions.SERVICE options) (Some true) one_off in
  let stopped := filter (fun c => negb (is_running c)) all_containers in
  let announce := core (py_print ("Going to remove " ++ list_containers stopped)) in
  let ask := yesno "Are you sure? [yN] " false in
  let remove :=
    project_remove_stopped (RmOptions.SERVICE options) (RmOptions.v options) one_off in
  let trace := snd (wide_execute env [] (rm is_running self options)) in
  (RmOptions.all options = false -> env [] (log_warn rm_warning) = Returns tt) ->
  env warned fetch = Returns all_containers ->
  (stopped = [] ->
   trace = warned ++ [fetch; core (py_print "No stopped containers")])
  /\ (stopped <> [] ->
      env (warned ++ [fetch]) announce = Returns tt ->
      (RmOptions.force options = true ->
       trace = warned ++ [fetch; announce; remove])
      /\ (RmOptions.force options = false ->
          forall answer,
            env (warned ++ [fetch; announce]) ask = Returns answer ->
            trace = warned ++ [fetch; announce; ask]
                      ++ (if answer then [remove] else []))).
Proof.
  intros one_off warned fetch stopped announce ask remove trace Hwarn Hfetch.
  subst one_off warned fetch stopped announce ask remove trace.
  unfold rm.
  destruct (RmOptions.all options); simpl in *.
  - rewrite Hfetch. simpl.
    destruct (filter _ all_containers) as [| c stopped] eqn:Es; simpl.
    + split; [intros _ | intros H; contradiction].
      destruct (env _ (core (py_print _))); reflexivity.
    + split; [discriminate |]. intros _ Hannounce. rewrite Hannounce. simpl.
      split.
      * intros ->. simpl.
        destruct (env _ (project_remove_stopped _ _ _)); reflexivity.
      * intros -> answer Hask. simpl. rewrite Hask. simpl.
        destruct answer; simpl; [| reflexivity].
        destruct (env _ (project_remove_stopped _ _ _)); reflexivity.
  - rewrite (Hwarn eq_refl). simpl. rewrite Hfetch. simpl.
    destruct (filter _ all_containers) as [| c stopped] eqn:Es; simpl.
    + split; [intros _ | intros H; contradiction].
      destruct (env _ (core (py_print _))); reflexivity.
    + split; [discriminate |]. intros _ Hannounce. rewrite Hannounce. simpl.
      split.
      * intros ->. simpl.
        destruct (env _ (project_remove_stopped _ _ _)); reflexivity.
      * intros -> answer Hask. simpl. rewrite Hask. simpl.
        destruct answer; simpl; [| reflexivity].
        destruct (env _ (project_remove_stopped _ _ _)); reflexivity.
Qed.

Lemma rm_removes_after_confirmation_witness :
  snd (wide_execute (wide_quiet some_containers) []
         (rm only_db_runs a_command (RmOptions.mk false true false ["web"; "cache"])))
  = [ log_warn rm_warning;
      project_containers_one_off ["web"; "cache"] (Some true) OneOffFilter.exclude;
      core (py_print "Going to remove app_web_1, app_cache_1");
      yesno "Are you sure? [yN] " false ].
Proof.
  destruct (rm_removes_after_confirmation only_db_runs (wide_quiet some_containers)
              a_command (RmOptions.mk false true false ["web"; "cache"])
              some_containers (fun _ => eq_refl) eq_refl) as [_ H].
  destruct H as [_ H]; [discriminate | reflexivity |].
  exact (H eq_refl false eq_refl).
Defined.

(** ** [ps] *)

From Stdlib Require Import Sorted Permutation.

Lemma leb_refl (s : string) : (s <=? s)%string = true.
Proof.
  destruct (String.leb_total s s); assumption.
Qed.

Lemma insert_by_name_permutation (c : Container.t) (l : list Container.t) :
  Permutation (insert_by_name c l) (c :: l).
Proof.
  induction l as [| c' l IH]; simpl; [apply Permutation_refl |].
  destruct (Container.name c <=? Container.name c')%string;
    [apply Permutation_refl |].
  apply perm_trans with (c' :: c :: l); [now apply perm_skip | apply perm_swap].
Qed.

Lemma insert_by_name_sorted (c : Container.t) (l : list Container.t) :
  Sorted (fun a b => (Container.name a <=? Container.name b)%string = true) l ->
  Sorted (fun a b => (Container.name a <=? Container.name b)%string = true)
    (insert_by_name c l).
Proof.
  induction l as [| c' l IH]; simpl; intros Hs; [repeat constructor |].
  destruct (Container.name c <=? Container.name c')%string eqn:E.
  - constructor; [exact Hs | constructor; exact E].
  - inversion Hs as [| ? ? Hl Hhd]; subst.
    constructor; [now apply IH |].
    destruct l as [| c'' l]; simpl.
    + constructor.
      destruct (String.leb_total (Container.name c) (Container.name c')) as [H | H];
        [congruence | exact H].
    + destruct (Container.name c <=? Container.name c'')%string.
      * constructor.
        destruct (String.leb_total (Container.name c) (Container.name c'))
          as [H | H]; [congruence | exact H].
      * inversion Hhd; subst. now constructor.
Qed.

Lemma insert_by_name_stable (name : string) (c : Container.t) (l : list Container.t) :
  filter (fun x => String.eqb (Container.name x) name) (insert_by_name c l) =
  filter (fun x => String.eqb (Container.name x) name) (c :: l).
Proof.
  induction l as [| c' l IH]; [reflexivity |].
  cbn [insert_by_name].
  destruct (Container.name c <=? Container.name c')%string eqn:E; [reflexivity |].
  cbn [filter] in *. rewrite IH.
  destruct (String.eqb (Container.name c') name) eqn:E1;
    destruct (String.eqb (Container.name c) name) eqn:E2; try reflexivity.
  apply String.eqb_eq in E1, E2. rewrite E1, E2, leb_refl in E. discriminate E.
Qed.

Lemma print_ids_execute (env : WideEnv) :
  (forall history line, env history (core (py_print line)) = Returns tt) ->
  forall containers history,
    wide_execute env history (print_ids containers) =
      (Returned tt,
       history ++ map (fun c => core (py_print (Container.id c))) containers).
Proof.
  intros Hprint. induction containers as [| c l IH]; intros history; simpl.
  - now rewrite app_nil_r.
  - rewrite Hprint. simpl. rewrite IH, <- app_assoc. reflexivity.
Qed.

(** X21.  [ps] lists the containers of the services, stopped ones included,
    together with the one-off containers, sorted by name: what it lists is a
    rearrangement of what it fetched, names never decrease from one line to
    the next, and containers of the same name keep the order in which they
    were fetched.  With [-q] it prints the ids in that order, one call each;
    without, it prints one table whose rows are in that order. *)
Theorem ps_lists_by_name
    (human_readable_command human_readable_state human_readable_ports
       : Container.t -> string)
    (env : WideEnv) (self : TopLevelCommand) (options : PsOptions.t)
    (services one_offs : list Container.t) :
  let fetch_services := core (project_containers (PsOptions.SERVICE options) true) in
  let fetch_one_offs :=
    project_containers_one_off (PsOptions.SERVICE options) None OneOffFilter.only in
  let listed := sorted_by_name (services ++ one_offs) in
  let handler :=
    ps human_readable_command human_readable_state human_readable_ports
      self options in
  env [] fetch_services = Returns services ->
  env [fetch_services] fetch_one_offs = Returns one_offs ->
  Permutation listed (services ++ one_offs)
  /\ Sorted (fun a b => (Container.name a <=? Container.name b)%string = true) listed
  /\ (forall name,
        filter (fun c => String.eqb (Container.name c) name) listed =
        filter (fun c => String.eqb (Container.name c) name) (services ++ one_offs))
  /\ (PsOptions.q options = true ->
      (forall history line, env history (core (py_print line)) = Returns tt) ->
      wide_execute env [] handler =
        (Returned tt,
         [fetch_services; fetch_one_offs]
           ++ map (fun c => core (py_print (Container.id c))) listed))
  /\ (PsOptions.q options = false ->
      snd (wide_execute env [] handler) =
        [fetch_services; fetch_one_offs;
         print_table ["Name"; "Command"; "State"; "Ports"]
           (map (ps_row human_readable_command human_readable_state
                   human_readable_ports) listed)]).
Proof.
  intros fetch_services fetch_one_offs listed handler Hs Ho.
  subst fetch_services fetch_one_offs listed handler.
  split; [| split; [| split; [| split]]].
  - induction (services ++ one_offs) as [| c l IH]; simpl; [constructor |].
    apply perm_trans with (c :: sorted_by_name l);
      [apply insert_by_name_permutation | now apply perm_skip].
  - induction (services ++ one_offs) as [| c l IH]; simpl; [constructor |].
    now apply insert_by_name_sorted.
  - intros name.
    induction (services ++ one_offs) as [| c l IH]; [reflexivity |].
    cbn [sorted_by_name]. rewrite insert_by_name_stable.
    cbn [filter]. rewrite IH. reflexivity.
  - intros Hq Hprint. unfold ps. simpl. rewrite Hs. simpl. rewrite Ho, Hq. simpl.
    rewrite (print_ids_execute env Hprint). reflexivity.
  - intros Hq. unfold ps. simpl. rewrite Hs. simpl. rewrite Ho, Hq. simpl.
    destruct (env _ (print_table _ _)); reflexivity.
Qed.

Lemma ps_lists_by_name_witness :
  wide_execute (wide_quiet some_containers) []
    (ps (fun _ => "sh") (fun _ => "Up") (fun _ => "") a_command
        (PsOptions.mk true ["web"])) =
    (Returned tt,
     [ core (project_containers ["web"] true);
       project_containers_one_off ["web"] None OneOffFilter.only;
       core (py_print "0c"); core (py_print "0c");
       core (py_print "0b"); core (py_print "0b");
       core (py_print "0a"); core (py_print "0a") ]).
Proof.
  destruct (ps_lists_by_name (fun _ => "sh") (fun _ => "Up") (fun _ => "")
              (wide_quiet some_containers) a_command (PsOptions.mk true ["web"])
              some_containers some_containers eq_refl eq_refl)
    as (_ & _ & _ & H & _).
  exact (H eq_refl (fun _ _ => eq_refl)).
Defined.

Lemma length_append (a b : string) :
  String.length (a ++ b) = (String.length a + String.length b)%nat.
Proof.
  induction a as [| c a IH]; simpl; [reflexivity | now rewrite IH].
Qed.

Lemma length_substring (n : nat) :
  forall s, (n <= String.length s)%nat -> String.length (substring 0 n s) = n.
Proof.
  induction n as [| n IH]; intros s Hn; destruct s as [| c s]; simpl in *;
    try reflexivity; try lia.
  rewrite IH; [reflexivity | lia].
Qed.

Lemma substring_append_prefix (a b : string) :
  substring 0 (String.length a) (a ++ b) = a.
Proof.
  induction a as [| c a IH]; simpl; [now destruct b | now rewrite IH].
Qed.

Lemma substring_append_suffix (a b : string) (m : nat) :
  substring (String.length a) m (a ++ b) = substring 0 m b.
Proof.
  induction a as [| c a IH]; simpl; [reflexivity | exact IH].
Qed.

Lemma print_ids_calls (env : WideEnv) (c : WideCall) :
  forall containers history,
    In c (snd (wide_execute env history (print_ids containers))) ->
    In c history \/ exists line, c = core (py_print line).
Proof.
  induction containers as [| container l IH]; intros history Hin; simpl in Hin;
    [now left |].
  destruct (env history (core (py_print (Container.id container)))) as [[] | e];
    simpl in Hin.
  - apply IH in Hin. destruct Hin as [Hin | Hin]; [| now right].
    apply in_app_or in Hin. destruct Hin as [Hin | [<- | []]]; eauto.
  - apply in_app_or in Hin. destruct Hin as [Hin | [<- | []]]; eauto.
Qed.

(** X22.  The command column of [ps] is never wider than 30 characters: a
    command of at most 30 characters is shown as it is, a longer one as its
    first 26 characters followed by a space and three dots.  Whatever the
    environment does, every row of the table [ps] prints has the four
    columns name, command, state and ports, with such a command. *)
Theorem ps_command_fits
    (human_readable_command human_readable_state human_readable_ports
       : Container.t -> string)
    (env : WideEnv) (self : TopLevelCommand) (options : PsOptions.t) :
  (forall container,
      let command := human_readable_command container in
      let shown := ps_command human_readable_command container in
      (String.length shown <= 30)%nat
      /\ ((String.length command <= 30)%nat -> shown = command)
      /\ ((30 < String.length command)%nat ->
          String.length shown = 30%nat
          /\ substring 0 26 shown = substring 0 26 command
          /\ substring 26 4 shown = " ..."))
  /\ (forall headers rows,
        In (print_table headers rows)
           (snd (wide_execute env []
                   (ps human_readable_command human_readable_state
                      human_readable_ports self options))) ->
        headers = ["Name"; "Command"; "State"; "Ports"]
        /\ Forall (fun row =>
                     exists container,
                       row = [Container.name container;
                              ps_command human_readable_command container;
                              human_readable_state container;
                              human_readable_ports container]) rows).
Proof.
  split.
  - intros container command shown. subst command shown. unfold ps_command.
    destruct (30 <? String.length (human_readable_command container))%nat eqn:E.
    + apply Nat.ltb_lt in E.
      assert (Hl : String.length (substring 0 26 (human_readable_command container))
                   = 26%nat) by (apply length_substring; lia).
      split; [rewrite length_append, Hl; simpl; lia |].
      split; [lia |]. intros _.
      split; [rewrite length_append, Hl; reflexivity |].
      pose proof (substring_append_prefix
                    (substring 0 26 (human_readable_command container)) " ...") as Hp.
      pose proof (substring_append_suffix
                    (substring 0 26 (human_readable_command container)) " ..." 4) as Hq.
      rewrite Hl in Hp, Hq. split; [exact Hp | exact Hq].
    + apply Nat.ltb_ge in E. split; [exact E |]. split; [reflexivity | lia].
  - intros headers rows Hin. unfold ps in Hin. simpl in Hin.
    destruct (env [] _) as [services | e]; simpl in Hin;
      [| destruct Hin as [Hin | []]; discriminate Hin].
    destruct (env _ (project_containers_one_off _ _ _)) as [one_offs | e];
      simpl in Hin;
      [| destruct Hin as [Hin | [Hin | []]]; discriminate Hin].
    destruct (PsOptions.q options).
    + apply print_ids_calls in Hin.
      destruct Hin as [[Hin | [Hin | []]] | [line Hin]]; discriminate Hin.
    + simpl in Hin.
      assert (Hp : print_table headers rows =
                   print_table ["Name"; "Command"; "State"; "Ports"]
                     (map (ps_row human_readable_command human_readable_state
                             human_readable_ports)
                        (sorted_by_name (services ++ one_offs)))).
      { destruct (env _ (print_table _ _)); simpl in Hin;
          destruct Hin as [Hin | [Hin | [Hin | []]]];
          try discriminate Hin; now symmetry. }
      inversion Hp; subst. split; [reflexivity |].
      apply Forall_forall. intros row Hrow.
      apply in_map_iff in Hrow. destruct Hrow as [container [<- _]].
      exists container. reflexivity.
Qed.

Lemma ps_command_fits_witness :
  String.length
    (ps_command (fun _ => "python manage.py runserver 0.0.0.0:8000")
       (Container.mk "0a" "app_web_1" "web")) = 30%nat.
Proof.
  destruct (proj1 (ps_command_fits
                     (fun _ => "python manage.py runserver 0.0.0.0:8000")
                     (fun _ => "Up") (fun _ => "80/tcp")
                     (wide_quiet some_containers) a_command (PsOptions.mk false []))
              (Container.mk "0a" "app_web_1" "web")) as (_ & _ & H).
  apply H. simpl. lia.
Defined.

Lemma filter_containers_to_service_names_keeps_witness :
  In (Container.mk "0a" "app_web_1" "web")
     (filter_containers_to_service_names some_containers ["web"; "cache"]).
Proof.
  apply (proj1 (filter_containers_to_service_names_keeps some_containers
                  ["web"; "cache"])).
  split; [left; reflexivity | right; left; reflexivity].
Defined.

Lemma main_reports_at_most_once_witness :
  execute quiet [] (main (call project_initialize ;; sys_exit (Some 3%Z)))%prog
  = execute quiet [] (call project_initialize ;; sys_exit (Some 3%Z))%prog.
Proof.
  exact (proj2 (proj2 (main_reports_at_most_once quiet []
                         (call project_initialize ;; sys_exit (Some 3%Z))%prog))
           (Some 3%Z) eq_refl).
Defined.
